(** * cfssl: certificate record store and CRL assembly

    A shallow embedding of the [certdb], [crl] and [cli/gencrl] packages.

    Go strings are byte sequences and are modelled by [string] (a list of
    8-bit [ascii] values); [[]byte] buffers are modelled the same way.
    [int], [int64] and [time.Duration] are modelled by [Z]; [*big.Int] by
    [Z].  A Go [error] is [option error] with [None] for [nil]; a Go
    function returning [(T, error)] returns a sum [error + T]. *)

From Stdlib Require Import ZArith List String Ascii Bool Lia.
Import ListNotations.

Local Open Scope string_scope.
Local Open Scope Z_scope.

(* ================================================================== *)
(** * Go standard library: the parts the packages call *)

(** ** [errors], [fmt], and the cfssl error wrapper *)

Inductive Category : Set := CertStoreError.

Inductive Reason : Set := Unknown | InsertionFailed | RecordNotFound.

(** An error value created outside the packages modelled here: by the
    SQL driver, the PEM helpers, the signing primitive, the file system
    or package [cli]. *)
Inductive externalError : Set := external (origin text : string).

(** Error values keep their origin: [errors_New] and [fmt_Errorf] are the
    values built by [errors.New] and [fmt.Errorf] in the packages below
    (each call of [errors.New] yields a value distinct from every error
    created elsewhere); the errors handed back by collaborators enter
    through [External].

    Modelled from the spec: [cferr.Wrap] is declared in the [errors]
    package of the repository; it attaches "a stable category tag plus the
    underlying cause", here the constructor [cferr_Wrap]. *)
Inductive error : Set :=
| errors_New (text : string)
| fmt_Errorf (format : string) (args : list Z)
| cferr_Wrap (category : Category) (reason : Reason) (err : error)
| External (e : externalError).

(** A collaborator's [(T, error)] result as seen by its caller. *)
Definition returned {T : Type} (r : externalError + T) : error + T :=
  match r with
  | inl e => inl (External e)
  | inr v => inr v
  end.

(** ** [strings] *)

Module strings.

(** [strings.Split(s, sep)] for a one-byte separator.  The empty input
    yields one empty field. *)
Fixpoint Split (s : string) (sep : ascii) : list string :=
  match s with
  | EmptyString => [EmptyString]
  | String c rest =>
      if Ascii.eqb c sep then EmptyString :: Split rest sep
      else match Split rest sep with
           | field :: fields => String c field :: fields
           | [] => [String c EmptyString]
           end
  end.

(** [strings.Join(elems, sep)] for a one-byte separator. *)
Fixpoint Join (elems : list string) (sep : ascii) : string :=
  match elems with
  | [] => EmptyString
  | [e] => e
  | e :: rest => (e ++ String sep (Join rest sep))%string
  end.

Definition byte (c : ascii) : Z := Z.of_nat (nat_of_ascii c).

(** The table [asciiSpace]: tab, newline, vertical tab, form feed,
    carriage return, space. *)
Definition asciiSpace (c : ascii) : bool :=
  let b := byte c in
  ((9 <=? b) && (b <=? 13)) || (b =? 32).

(** [unicode.IsSpace] on the two-byte UTF-8 sequences: U+0085 (C2 85)
    and U+00A0 (C2 A0). *)
Definition space2 (c1 c2 : ascii) : bool :=
  (byte c1 =? 194) && ((byte c2 =? 133) || (byte c2 =? 160)).

(** [unicode.IsSpace] on the three-byte UTF-8 sequences: U+1680,
    U+2000..U+200A, U+2028, U+2029, U+202F, U+205F, U+3000. *)
Definition space3 (c1 c2 c3 : ascii) : bool :=
  let b1 := byte c1 in
  let b2 := byte c2 in
  let b3 := byte c3 in
  ((b1 =? 225) && (b2 =? 154) && (b3 =? 128))
  || ((b1 =? 226) && (b2 =? 128)
      && (((128 <=? b3) && (b3 <=? 138))
          || (b3 =? 168) || (b3 =? 169) || (b3 =? 175)))
  || ((b1 =? 226) && (b2 =? 129) && (b3 =? 159))
  || ((b1 =? 227) && (b2 =? 128) && (b3 =? 128)).

(** [TrimLeftFunc(s, unicode.IsSpace)]: drop leading white-space runes.
    A rune decoded at a position is white space exactly when the bytes
    at that position start with the UTF-8 encoding of a white-space
    code point; any other byte sequence decodes to a rune that is not
    white space (possibly [RuneError]) and stops the trimming. *)
Fixpoint trimLeft (s : list ascii) : list ascii :=
  match s with
  | [] => []
  | c1 :: r1 =>
      if asciiSpace c1 then trimLeft r1
      else match r1 with
           | [] => s
           | c2 :: r2 =>
               if space2 c1 c2 then trimLeft r2
               else match r2 with
                    | [] => s
                    | c3 :: r3 =>
                        if space3 c1 c2 c3 then trimLeft r3 else s
                    end
           end
      end.

(** [TrimRightFunc(s, unicode.IsSpace)], on the reversed byte sequence:
    the last rune is white space exactly when the bytes end with the
    encoding of a white-space code point. *)
Fixpoint trimRightRev (s : list ascii) : list ascii :=
  match s with
  | [] => []
  | c1 :: r1 =>
      if asciiSpace c1 then trimRightRev r1
      else match r1 with
           | [] => s
           | c2 :: r2 =>
               if space2 c2 c1 then trimRightRev r2
               else match r2 with
                    | [] => s
                    | c3 :: r3 =>
                        if space3 c3 c2 c1 then trimRightRev r3 else s
                    end
           end
      end.

(** [strings.TrimSpace(s)]. *)
Definition TrimSpace (s : string) : string :=
  string_of_list_ascii
    (rev (trimRightRev (rev (trimLeft (list_ascii_of_string s))))).

End strings.

(** ** [math/big] *)

Module big.

(** Value of a decimal digit byte. *)
Definition digit (c : ascii) : option Z :=
  let b := strings.byte c in
  if (48 <=? b) && (b <=? 57) then Some (b - 48) else None.

(** [scanSign]: an optional leading ['+'] or ['-']. *)
Definition scanSign (s : string) : bool * string :=
  match s with
  | EmptyString => (false, s)
  | String ch rest =>
      if Ascii.eqb ch "-" then (true, rest)
      else if Ascii.eqb ch "+" then (false, rest)
      else (false, s)
  end.

(** [nat.scan] in base 10: consume the longest run of decimal digits,
    accumulating its value; returns the value, the number of digits
    and the unread input. *)
Fixpoint nat_scan (s : string) (acc : Z) (count : nat)
  : Z * nat * string :=
  match s with
  | EmptyString => (acc, count, s)
  | String c rest =>
      match digit c with
      | Some d => nat_scan rest (acc * 10 + d) (S count)
      | None => (acc, count, s)
      end
  end.

(** [Int.scan] on a receiver that holds a non-negative value: the
    new value of the receiver and, on success, the unread input.  The
    magnitude is assigned even when no digit was found (and is then
    zero); the sign only after a successful scan. *)
Definition Int_scan (z : Z) (s : string) : Z * option string :=
  match s with
  | EmptyString => (z, None)
  | _ =>
      let (neg, r) := scanSign s in
      let '(abs, count, rest) := nat_scan r 0 0 in
      match count with
      | O => (0, None)
      | _ => ((if neg then - abs else abs), Some rest)
      end
  end.

(** [z.SetString(s, 10)]: the value held by the receiver after the
    call, and the success flag.  The call fails when the scan fails or
    leaves input unread; the receiver keeps what the scan stored. *)
Definition SetString (z : Z) (s : string) : Z * bool :=
  match Int_scan z s with
  | (z', Some EmptyString) => (z', true)
  | (z', _) => (z', false)
  end.

End big.

(** ** [time] *)

Module time.

Inductive Location : Set := UTCLocation | Local | Zone (name : string).

(** An instant in nanoseconds since the zero time (January 1, year 1,
    00:00:00 UTC), with the location it is presented in.  The range of
    instants is not bounded in the model. *)
Record Time : Set := { instant : Z; location : Location }.

Definition Duration := Z.

Definition wrap64 (x : Z) : Z := (x + 2 ^ 63) mod 2 ^ 64 - 2 ^ 63.

Definition Second : Duration := 1000000000.

(** The zero value [time.Time{}]. *)
Definition zero : Time := {| instant := 0; location := UTCLocation |}.

Definition Add (t : Time) (d : Duration) : Time :=
  {| instant := instant t + d; location := location t |}.

Definition UTC (t : Time) : Time :=
  {| instant := instant t; location := UTCLocation |}.

Definition IsZero (t : Time) : bool := instant t =? 0.

Definition Before (t u : Time) : bool := instant t <? instant u.

Definition Equal (t u : Time) : bool := instant t =? instant u.

End time.

(* ================================================================== *)
(** * Package [certdb]: the record store *)

Module certdb.

Import time.

(** [CertificateRecord]: a certificate and its metadata. *)
Record CertificateRecord : Set := {
  Serial : string;
  CALabel : string;
  Status : string;
  Reason : Z;
  Expiry : Time;
  RevokedAt : Time;
  PEM : string
}.

(** [OCSPRecord]: an OCSP response body and its metadata.  (The fields
    [Serial] and [Expiry] of the Go struct carry the prefix [OCSP]
    here.) *)
Record OCSPRecord : Set := {
  OCSPSerial : string;
  Body : string;
  OCSPExpiry : Time
}.

(** The statements run through [NamedExec], each with the struct whose
    fields are bound to its named parameters. *)
Inductive Statement : Set :=
| insertSQL (arg : CertificateRecord)
| updateRevokeSQL (arg : CertificateRecord)
| insertOCSPSQL (arg : OCSPRecord)
| updateOCSPSQL (arg : OCSPRecord).

(** The queries over [certificates].

    Modelled from the spec: [selectAllRevokedSQL] and
    [GetRevokedCertificates] below are used by package [crl] but are
    not part of the [certdb] source at hand; the query is "an
    enumeration of all records with status=revoked, equivalent to
    certificate store rows where status='revoked' -- not the
    unexpired-only query". *)
Inductive CertificateQuery : Set :=
| selectSQL (serial : string)
| selectAllUnexpiredSQL
| selectAllRevokedSQL.

(** The queries over [ocsp_responses]. *)
Inductive OCSPQuery : Set :=
| selectOCSPSQL (serial : string)
| selectAllUnexpiredOCSPSQL.

(** [sql.Result]: what [RowsAffected()] returns. *)
Record Result : Set := { RowsAffected : Z * option externalError }.

(** The database handle as the package sees it: statements that report
    a result or fail, and queries that produce rows or fail. *)
Class Driver (DB : Type) : Type := {
  NamedExec : DB -> Statement -> (externalError + Result) * DB;
  QueryCertificates :
    DB -> CertificateQuery -> externalError + list CertificateRecord;
  QueryOCSP : DB -> OCSPQuery -> externalError + list OCSPRecord
}.

Definition sql_ErrNoRows : externalError :=
  external "sql" "no rows in result set".

(** [db.Get]: the first row of the result set; an empty result set is
    an error. *)
Definition Get {A : Type} (rows : externalError + list A) : error + A :=
  match rows with
  | inl err => inl (External err)
  | inr [] => inl (External sql_ErrNoRows)
  | inr (row :: _) => inr row
  end.

(** [db.Select]: all rows of the result set. *)
Definition Select {A : Type} (rows : externalError + list A)
  : error + list A :=
  returned rows.

Definition wrapCertStoreError (err : option error) : option error :=
  match err with
  | Some e => Some (cferr_Wrap CertStoreError Unknown e)
  | None => None
  end.

Definition rowsMessage : string := "%d rows are affected, should be 1 row".

Section RecordStore.

Context {DB : Type} {driver : Driver DB}.

(** [InsertCertificate] puts a [CertificateRecord] into [db]. *)
Definition InsertCertificate (db : DB) (cr : CertificateRecord)
  : option error * DB :=
  let (res, db) :=
    NamedExec db (insertSQL {|
      Serial := Serial cr;
      CALabel := CALabel cr;
      Status := Status cr;
      Reason := Reason cr;
      Expiry := UTC (Expiry cr);
      RevokedAt := UTC (RevokedAt cr);
      PEM := PEM cr |}) in
  match res with
  | inl err => (wrapCertStoreError (Some (External err)), db)
  | inr res =>
      let (numRowsAffected, err) := RowsAffected res in
      if numRowsAffected =? 0 then
        (Some (cferr_Wrap CertStoreError InsertionFailed
                 (fmt_Errorf "failed to insert the certificate record" [])),
         db)
      else if negb (numRowsAffected =? 1) then
        (wrapCertStoreError
           (Some (fmt_Errorf rowsMessage [numRowsAffected])), db)
      else (option_map External err, db)
  end.

(** [GetCertificate] gets a [CertificateRecord] indexed by serial. *)
Definition GetCertificate (db : DB) (serial : string)
  : error + CertificateRecord :=
  match Get (QueryCertificates db (selectSQL serial)) with
  | inl err =>
      inl (cferr_Wrap CertStoreError Unknown err)
  | inr cr => inr cr
  end.

(** [GetUnexpiredCertificates] gets all unexpired certificates. *)
Definition GetUnexpiredCertificates (db : DB)
  : error + list CertificateRecord :=
  match Select (QueryCertificates db selectAllUnexpiredSQL) with
  | inl err => inl (cferr_Wrap CertStoreError Unknown err)
  | inr crs => inr crs
  end.

(** Modelled from the spec: [GetRevokedCertificates] is called by
    package [crl] and is not part of the [certdb] source at hand; it
    returns "all records with status=revoked", with the same error
    wrapping as its siblings. *)
Definition GetRevokedCertificates (db : DB)
  : error + list CertificateRecord :=
  match Select (QueryCertificates db selectAllRevokedSQL) with
  | inl err => inl (cferr_Wrap CertStoreError Unknown err)
  | inr crs => inr crs
  end.

(** [RevokeCertificate] marks the certificate with the given serial
    revoked.  The struct bound to the statement has only [Reason] and
    [Serial] set. *)
Definition RevokeCertificate (db : DB) (serial : string) (reasonCode : Z)
  : option error * DB :=
  let (result, db) :=
    NamedExec db (updateRevokeSQL {|
      Serial := serial;
      CALabel := EmptyString;
      Status := EmptyString;
      Reason := reasonCode;
      Expiry := zero;
      RevokedAt := zero;
      PEM := EmptyString |}) in
  match result with
  | inl err => (wrapCertStoreError (Some (External err)), db)
  | inr result =>
      let (numRowsAffected, err) := RowsAffected result in
      if numRowsAffected =? 0 then
        (Some (cferr_Wrap CertStoreError RecordNotFound
                 (fmt_Errorf
                    "failed to revoke the certificate: certificate not found"
                    [])),
         db)
      else if negb (numRowsAffected =? 1) then
        (wrapCertStoreError
           (Some (fmt_Errorf rowsMessage [numRowsAffected])), db)
      else (option_map External err, db)
  end.

(** [InsertOCSP] puts a new [OCSPRecord] into the db. *)
Definition InsertOCSP (db : DB) (rr : OCSPRecord) : option error * DB :=
  let (res, db) :=
    NamedExec db (insertOCSPSQL {|
      OCSPSerial := OCSPSerial rr;
      Body := Body rr;
      OCSPExpiry := UTC (OCSPExpiry rr) |}) in
  match res with
  | inl err => (wrapCertStoreError (Some (External err)), db)
  | inr res =>
      let (numRowsAffected, err) := RowsAffected res in
      if numRowsAffected =? 0 then
        (Some (cferr_Wrap CertStoreError InsertionFailed
                 (fmt_Errorf "failed to insert the OCSP record" [])),
         db)
      else if negb (numRowsAffected =? 1) then
        (wrapCertStoreError
           (Some (fmt_Errorf rowsMessage [numRowsAffected])), db)
      else (option_map External err, db)
  end.

(** [GetOCSP] retrieves an [OCSPRecord] by serial. *)
Definition GetOCSP (db : DB) (serial : string) : error + OCSPRecord :=
  match Get (QueryOCSP db (selectOCSPSQL serial)) with
  | inl err => inl (cferr_Wrap CertStoreError Unknown err)
  | inr rr => inr rr
  end.

(** [GetUnexpiredOCSPs] retrieves all unexpired [OCSPRecord]s. *)
Definition GetUnexpiredOCSPs (db : DB) : error + list OCSPRecord :=
  match Select (QueryOCSP db selectAllUnexpiredOCSPSQL) with
  | inl err => inl (cferr_Wrap CertStoreError Unknown err)
  | inr rrs => inr rrs
  end.

(** [UpdateOCSP] updates the OCSP record with the given serial. *)
Definition UpdateOCSP (db : DB) (serial body : string) (expiry : Time)
  : option error * DB :=
  let (result, db) :=
    NamedExec db (updateOCSPSQL {|
      OCSPSerial := serial;
      Body := body;
      OCSPExpiry := UTC expiry |}) in
  match result with
  | inl err => (wrapCertStoreError (Some (External err)), db)
  | inr result =>
      let (numRowsAffected, err) := RowsAffected result in
      if numRowsAffected =? 0 then
        (Some (cferr_Wrap CertStoreError RecordNotFound
                 (fmt_Errorf "failed to update the OCSP record" [])),
         db)
      else if negb (numRowsAffected =? 1) then
        (wrapCertStoreError
           (Some (fmt_Errorf rowsMessage [numRowsAffected])), db)
      else (option_map External err, db)
  end.

(** [UpsertOCSP] updates the OCSP record with the given serial, or
    inserts the record if the update touched no row. *)
Definition UpsertOCSP (db : DB) (serial body : string) (expiry : Time)
  : option error * DB :=
  let (result, db) :=
    NamedExec db (updateOCSPSQL {|
      OCSPSerial := serial;
      Body := body;
      OCSPExpiry := UTC expiry |}) in
  match result with
  | inl err => (wrapCertStoreError (Some (External err)), db)
  | inr result =>
      let (numRowsAffected, err) := RowsAffected result in
      if numRowsAffected =? 0 then
        InsertOCSP db {| OCSPSerial := serial;
                         Body := body;
                         OCSPExpiry := expiry |}
      else if negb (numRowsAffected =? 1) then
        (wrapCertStoreError
           (Some (fmt_Errorf rowsMessage [numRowsAffected])), db)
      else (option_map External err, db)
  end.

End RecordStore.

(** ** A reference engine for the statements

    The two relations are row lists (insertion order kept, duplicates
    representable); [CURRENT_TIMESTAMP] is the reading of the server
    clock; [serial_is_key] tells whether the schema declares [serial]
    a key of both relations, in which case an [INSERT] of a serial
    already present is refused by the engine.  Timestamps are stored
    as they are bound. *)
Record Database : Set := {
  certificates : list CertificateRecord;
  ocsp_responses : list OCSPRecord;
  CURRENT_TIMESTAMP : Time;
  serial_is_key : bool
}.

Definition with_certificates (db : Database) (rows : list CertificateRecord)
  : Database :=
  {| certificates := rows;
     ocsp_responses := ocsp_responses db;
     CURRENT_TIMESTAMP := CURRENT_TIMESTAMP db;
     serial_is_key := serial_is_key db |}.

Definition with_ocsp_responses (db : Database) (rows : list OCSPRecord)
  : Database :=
  {| certificates := certificates db;
     ocsp_responses := rows;
     CURRENT_TIMESTAMP := CURRENT_TIMESTAMP db;
     serial_is_key := serial_is_key db |}.

Definition uniqueViolation : externalError :=
  external "driver" "UNIQUE constraint failed".

Definition affected {A : Type} (matches : A -> bool) (rows : list A)
  : Result :=
  {| RowsAffected := (Z.of_nat (List.length (filter matches rows)), None) |}.

(** [SET status='revoked', revoked_at=CURRENT_TIMESTAMP, reason=:reason]. *)
Definition setRevoked (now : Time) (reason : Z) (row : CertificateRecord)
  : CertificateRecord :=
  {| Serial := Serial row;
     CALabel := CALabel row;
     Status := "revoked"%string;
     Reason := reason;
     Expiry := Expiry row;
     RevokedAt := now;
     PEM := PEM row |}.

(** [SET expiry=:expiry, body=:body]. *)
Definition setOCSP (expiry : Time) (body : string) (row : OCSPRecord)
  : OCSPRecord :=
  {| OCSPSerial := OCSPSerial row; Body := body; OCSPExpiry := expiry |}.

Definition update {A : Type} (matches : A -> bool) (set : A -> A)
    (rows : list A) : list A :=
  map (fun row => if matches row then set row else row) rows.

Definition hasSerial (serial : string) (row : CertificateRecord) : bool :=
  String.eqb (Serial row) serial.

Definition hasOCSPSerial (serial : string) (row : OCSPRecord) : bool :=
  String.eqb (OCSPSerial row) serial.

Definition exec (db : Database) (stmt : Statement)
  : (externalError + Result) * Database :=
  match stmt with
  | insertSQL arg =>
      if serial_is_key db
         && existsb (hasSerial (Serial arg)) (certificates db)
      then (inl uniqueViolation, db)
      else (inr {| RowsAffected := (1, None) |},
            with_certificates db (certificates db ++ [arg]))
  | updateRevokeSQL arg =>
      (inr (affected (hasSerial (Serial arg)) (certificates db)),
       with_certificates db
         (update (hasSerial (Serial arg))
            (setRevoked (CURRENT_TIMESTAMP db) (Reason arg))
            (certificates db)))
  | insertOCSPSQL arg =>
      if serial_is_key db
         && existsb (hasOCSPSerial (OCSPSerial arg)) (ocsp_responses db)
      then (inl uniqueViolation, db)
      else (inr {| RowsAffected := (1, None) |},
            with_ocsp_responses db (ocsp_responses db ++ [arg]))
  | updateOCSPSQL arg =>
      (inr (affected (hasOCSPSerial (OCSPSerial arg)) (ocsp_responses db)),
       with_ocsp_responses db
         (update (hasOCSPSerial (OCSPSerial arg))
            (setOCSP (OCSPExpiry arg) (Body arg))
            (ocsp_responses db)))
  end.

Definition queryCertificates (db : Database) (q : CertificateQuery)
  : externalError + list CertificateRecord :=
  match q with
  | selectSQL serial => inr (filter (hasSerial serial) (certificates db))
  | selectAllUnexpiredSQL =>
      inr (filter (fun row => Before (CURRENT_TIMESTAMP db) (Expiry row))
             (certificates db))
  | selectAllRevokedSQL =>
      inr (filter (fun row => String.eqb (Status row) "revoked"%string)
             (certificates db))
  end.

Definition queryOCSP (db : Database) (q : OCSPQuery)
  : externalError + list OCSPRecord :=
  match q with
  | selectOCSPSQL serial =>
      inr (filter (hasOCSPSerial serial) (ocsp_responses db))
  | selectAllUnexpiredOCSPSQL =>
      inr (filter (fun row => Before (CURRENT_TIMESTAMP db) (OCSPExpiry row))
             (ocsp_responses db))
  end.

#[export] Instance engine : Driver Database := {|
  NamedExec := exec;
  QueryCertificates := queryCertificates;
  QueryOCSP := queryOCSP
|}.

End certdb.

(* ================================================================== *)
(** * [crypto/x509]: certificates, keys and revocation lists *)

Module x509.

Import time.

(** A parsed certificate and a parsed private key; their contents are
    opaque to the packages modelled here. *)
Inductive Certificate : Set := certificate (der : string).

Inductive Signer : Set := privateKey (der : string).

(** [pkix.RevokedCertificate]. *)
Record RevokedCertificate : Set := {
  SerialNumber : Z;
  RevocationTime : Time
}.

(** The revocation list produced by [Certificate.CreateCRL], viewed
    through its decoded contents: what was signed, by whom, and with
    which key.  The DER byte encoding is not part of the model. *)
Record CertificateList : Set := {
  Issuer : Certificate;
  SignedWith : Signer;
  RevokedCertificates : list RevokedCertificate;
  ThisUpdate : Time;
  NextUpdate : Time
}.

(** The collaborators of package [crl]: the PEM parsers of package
    [helpers] and the signing primitive, which refuses a certificate
    and key it cannot sign with. *)
Class Helpers : Type := {
  ParseCertificatePEM : string -> externalError + Certificate;
  ParsePrivateKeyPEM : string -> externalError + Signer;
  signingFailure : Certificate -> Signer -> option externalError
}.

(** [c.CreateCRL(rand, priv, revokedCerts, now, expiry)]. *)
Definition CreateCRL {helpers : Helpers} (c : Certificate) (priv : Signer)
    (revokedCerts : list RevokedCertificate) (now expiry : Time)
  : error + CertificateList :=
  match signingFailure c priv with
  | Some err => inl (External err)
  | None =>
      inr {| Issuer := c;
             SignedWith := priv;
             RevokedCertificates := revokedCerts;
             ThisUpdate := now;
             NextUpdate := expiry |}
  end.

End x509.

(* ================================================================== *)
(** * The process environment: wall clock and observable I/O *)

Module os.

Import time.

Inductive Event : Set :=
| ReadStdin (filename : string)
| DBFromConfig (path : string)
| PrintCRL (crl : x509.CertificateList).

(** [wall n] is the [n]-th reading of the wall clock, [ticks] counts
    the readings taken so far, [trace] records the I/O performed. *)
Record World : Type := {
  wall : nat -> Time;
  ticks : nat;
  trace : list Event
}.

(** [time.Now()]. *)
Definition Now (w : World) : Time * World :=
  (wall w (ticks w),
   {| wall := wall w; ticks := S (ticks w); trace := trace w |}).

Definition emit (e : Event) (w : World) : World :=
  {| wall := wall w; ticks := ticks w; trace := (trace w ++ [e])%list |}.

End os.

(* ================================================================== *)
(** * Package [crl]: CRL assembly *)

Module crl.

Import time x509 os.

Definition newline : ascii := "010"%char.

Definition oneWeek : Duration := wrap64 (604800 * Second).

Section Assembler.

Context {helpers : Helpers}.

(** [CreateGenericCRL] calls the signing primitive with the current
    time as [thisUpdate]. *)
Definition CreateGenericCRL (certList : list RevokedCertificate)
    (key : Signer) (issuingCert : Certificate) (expiryTime : Time)
    (w : World) : (error + CertificateList) * World :=
  let (now, w) := Now w in
  (CreateCRL issuingCert key certList now expiryTime, w).

(** The [nextUpdate] time resolved at the start of both
    constructors. *)
Definition newExpiryTime (expiryDuration : Duration) (w : World)
  : Time * World :=
  let (now, w) := Now w in
  let newExpiryTime := Add now expiryDuration in
  if expiryDuration =? 0 then
    let (now, w) := Now w in (Add now oneWeek, w)
  else (newExpiryTime, w).

(** The loop of [NewCRLFromFile] over the lines of the serial list. *)
Fixpoint revokeLines (individualCerts : list string)
    (revokedCerts : list RevokedCertificate) (w : World)
  : list RevokedCertificate * World :=
  match individualCerts with
  | [] => (revokedCerts, w)
  | value :: rest =>
      if (String.length (strings.TrimSpace value) =? 0)%nat then
        revokeLines rest revokedCerts w
      else
        let tempBigInt := fst (big.SetString 0 value) in
        let (now, w) := Now w in
        let tempCert := {| SerialNumber := tempBigInt;
                           RevocationTime := now |} in
        revokeLines rest (revokedCerts ++ [tempCert])%list w
  end.

(** [NewCRLFromFile] takes a list of serial numbers, one per line,
    the issuing certificate and the private key, and generates a
    CRL. *)
Definition NewCRLFromFile (serialList issuerFile keyFile : string)
    (expiryDuration : Duration) (w : World)
  : (error + CertificateList) * World :=
  let (newExpiryTime, w) := newExpiryTime expiryDuration w in
  match returned (ParseCertificatePEM issuerFile) with
  | inl err => (inl err, w)
  | inr issuerCert =>
      let individualCerts := strings.Split serialList newline in
      let (revokedCerts, w) := revokeLines individualCerts [] w in
      match returned (ParsePrivateKeyPEM keyFile) with
      | inl err => (inl err, w)
      | inr key =>
          CreateGenericCRL revokedCerts key issuerCert newExpiryTime w
      end
  end.

(** The loop of [NewCRLFromDB] over the revoked records. *)
Fixpoint revokeRecords (dbRevoked : list certdb.CertificateRecord)
    (revokedCerts : list RevokedCertificate)
  : list RevokedCertificate :=
  match dbRevoked with
  | [] => revokedCerts
  | cr :: rest =>
      let tempBigInt := fst (big.SetString 0 (certdb.Serial cr)) in
      let tempCert := {| SerialNumber := tempBigInt;
                         RevocationTime := certdb.RevokedAt cr |} in
      revokeRecords rest (revokedCerts ++ [tempCert])%list
  end.

(** [NewCRLFromDB] generates a CRL from the revoked certificates of
    the database. *)
Definition NewCRLFromDB {DB : Type} {driver : certdb.Driver DB} (db : DB)
    (issuerFile keyFile : string) (expiryDuration : Duration)
    (w : World) : (error + CertificateList) * World :=
  let (newExpiryTime, w) := newExpiryTime expiryDuration w in
  match returned (ParseCertificatePEM issuerFile) with
  | inl err => (inl err, w)
  | inr issuerCert =>
      match returned (ParsePrivateKeyPEM keyFile) with
      | inl err => (inl err, w)
      | inr key =>
          match certdb.GetRevokedCertificates db with
          | inl err => (inl err, w)
          | inr dbRevoked =>
              let revokedCerts := revokeRecords dbRevoked [] in
              CreateGenericCRL revokedCerts key issuerCert
                newExpiryTime w
          end
      end
  end.

End Assembler.

End crl.

(* ================================================================== *)
(** * Package [cli/gencrl]: the [gencrl] command *)

Module gencrl.

Import time x509 os.

(** The fields of [cli.Config] the command reads. *)
Record Config : Set := {
  CAFile : string;
  CAKeyFile : string;
  DBConfigFile : string;
  CRLExpiry : Duration
}.

(** The collaborators of the command, declared in packages [cli] and
    [certdb]: the contents [cli.ReadStdin] finds under a name,
    [cli.PopFirstArgument], and the handle [certdb.DBFromConfig]
    opens. *)
Class CLI (DB : Type) : Type := {
  contents : string -> externalError + string;
  PopFirstArgument :
    list string -> externalError + (string * list string);
  open : string -> externalError + DB
}.

Definition bothGiven : string :=
  "Only provide either DB config file (with -db-config) or serial list".
Definition neitherGiven : string :=
  "Need to provide either DB config file (with -db-config) or serial list".
Definition tooMany : string :=
  "Provided too many arguments, only expected one".
Definition needCA : string :=
  "Need a CA certificate (provide one with -ca)".
Definition needCAKey : string :=
  "Need a CA key (provide one with -ca-key)".

Definition nonEmpty (s : string) : bool := negb (String.eqb s "").

Section Command.

Context {DB : Type} {driver : certdb.Driver DB} {cli : CLI DB}
  {helpers : Helpers}.

Definition cli_ReadStdin (filename : string) (w : World)
  : (error + string) * World :=
  (returned (contents filename), emit (ReadStdin filename) w).

Definition certdb_DBFromConfig (path : string) (w : World)
  : (error + DB) * World :=
  (returned (open path), emit (DBFromConfig path) w).

Definition cli_PrintCRL (req : CertificateList) (w : World) : World :=
  emit (PrintCRL req) w.

(** The signed CRL of [gencrlMain], from the serial list when no
    database configuration is given and from the database otherwise. *)
Definition generate (args : list string) (c : Config)
    (certFileBytes keyBytes : string) (w : World)
  : (error + CertificateList) * World :=
  if String.eqb (DBConfigFile c) "" then
    match returned (PopFirstArgument args) with
    | inl err => (inl err, w)
    | inr (serialList, _) =>
        let (r, w) := cli_ReadStdin serialList w in
        match r with
        | inl err => (inl err, w)
        | inr serialListBytes =>
            crl.NewCRLFromFile serialListBytes certFileBytes keyBytes
              (CRLExpiry c) w
        end
    end
  else
    let (r, w) := certdb_DBFromConfig (DBConfigFile c) w in
    match r with
    | inl err => (inl err, w)
    | inr db =>
        crl.NewCRLFromDB db certFileBytes keyBytes (CRLExpiry c) w
    end.

(** The body of [gencrlMain] after the checks of its inputs: read the
    CA certificate and key, generate, print. *)
Definition run (args : list string) (c : Config) (w : World)
  : option error * World :=
  let (r, w) := cli_ReadStdin (CAFile c) w in
  match r with
  | inl err => (Some err, w)
  | inr certFileBytes =>
      let (r, w) := cli_ReadStdin (CAKeyFile c) w in
      match r with
      | inl err => (Some err, w)
      | inr keyBytes =>
          let (r, w) := generate args c certFileBytes keyBytes w in
          match r with
          | inl err => (Some err, w)
          | inr req => (None, cli_PrintCRL req w)
          end
      end
  end.

Definition gencrlMain (args : list string) (c : Config) (w : World)
  : option error * World :=
  if nonEmpty (DBConfigFile c) && (0 <? List.length args)%nat then
    (Some (errors_New bothGiven), w)
  else if String.eqb (DBConfigFile c) ""
          && (List.length args =? 0)%nat then
    (Some (errors_New neitherGiven), w)
  else if String.eqb (DBConfigFile c) ""
          && (1 <? List.length args)%nat then
    (Some (errors_New tooMany), w)
  else if String.eqb (CAFile c) "" then
    (Some (errors_New needCA), w)
  else if String.eqb (CAKeyFile c) "" then
    (Some (errors_New needCAKey), w)
  else run args c w.

End Command.

End gencrl.

(* ================================================================== *)
(** * Vocabulary of the specification *)

Module spec.

Import time x509 os.

(** A line the assembler skips: nothing is left after trimming. *)
Definition blank (line : string) : bool :=
  (String.length (strings.TrimSpace line) =? 0)%nat.

Definition isDigit (c : ascii) : bool :=
  let b := strings.byte c in (48 <=? b) && (b <=? 57).

Fixpoint allDigits (s : string) : bool :=
  match s with
  | EmptyString => true
  | String c rest => isDigit c && allDigits rest
  end.

(** A decimal numeral: one or more decimal digits and nothing else. *)
Definition decimal (s : string) : bool :=
  match s with
  | EmptyString => false
  | _ => allDigits s
  end.

(** The number a digit string denotes, most significant digit first. *)
Definition decimalValue (s : string) : Z :=
  fold_left (fun v c => 10 * v + (strings.byte c - 48))
    (list_ascii_of_string s) 0.

Fixpoint noNewline (s : string) : bool :=
  match s with
  | EmptyString => true
  | String c rest => negb (Ascii.eqb c crl.newline) && noNewline rest
  end.

(** The longest prefix of decimal digits. *)
Fixpoint digitRun (s : string) : string :=
  match s with
  | EmptyString => EmptyString
  | String c rest =>
      if isDigit c then String c (digitRun rest) else EmptyString
  end.

(** What follows the longest prefix of decimal digits. *)
Fixpoint afterRun (s : string) : string :=
  match s with
  | EmptyString => EmptyString
  | String c rest => if isDigit c then afterRun rest else s
  end.

(** The number denoted by the leading run of digits of a line, after
    an optional sign; zero when the line has no such digit. *)
Definition leadingValue (line : string) : Z :=
  match line with
  | EmptyString => 0
  | String c rest =>
      if Ascii.eqb c "-" then - decimalValue (digitRun rest)
      else if Ascii.eqb c "+" then decimalValue (digitRun rest)
      else decimalValue (digitRun line)
  end.

(** The line carries no digit where a numeral would start. *)
Definition noLeadingDigit (line : string) : bool :=
  match line with
  | EmptyString => true
  | String c rest =>
      if Ascii.eqb c "-" || Ascii.eqb c "+" then
        (String.length (digitRun rest) =? 0)%nat
      else negb (isDigit c)
  end.

(** The entries for a list of lines, none of them skipped: one per
    line, stamped with successive readings of the clock. *)
Fixpoint entries (wall : nat -> Time) (tick : nat) (lines : list string)
  : list RevokedCertificate :=
  match lines with
  | [] => []
  | line :: rest =>
      {| SerialNumber := leadingValue line; RevocationTime := wall tick |}
        :: entries wall (S tick) rest
  end.

Definition nonBlank (line : string) : bool := negb (blank line).

(** The error kinds of the command: the usage errors. *)
Definition usageError (e : option error) : Prop :=
  exists text,
    e = Some (errors_New text)
    /\ In text [gencrl.bothGiven; gencrl.neitherGiven; gencrl.tooMany;
                gencrl.needCA; gencrl.needCAKey].

(** The inputs of the command conflict: a database configuration
    together with positional arguments, neither of them, or more than
    one positional argument without a database configuration. *)
Definition conflictingInputs (args : list string) (c : gencrl.Config)
  : Prop :=
  (gencrl.DBConfigFile c <> "" /\ (0 < List.length args)%nat)
  \/ (gencrl.DBConfigFile c = "" /\ List.length args = 0%nat)
  \/ (gencrl.DBConfigFile c = "" /\ (1 < List.length args)%nat).

(** The store error kinds. *)
Definition failsWith (reason : Reason) (e : option error) : Prop :=
  exists cause, e = Some (cferr_Wrap CertStoreError reason cause).

Definition revoked (cr : certdb.CertificateRecord) : bool :=
  String.eqb (certdb.Status cr) "revoked".

(** The record as [InsertCertificate] promises to write it: every field
    of the given record, the two timestamps in UTC. *)
Definition normalized (cr : certdb.CertificateRecord)
  : certdb.CertificateRecord :=
  {| certdb.Serial := certdb.Serial cr;
     certdb.CALabel := certdb.CALabel cr;
     certdb.Status := certdb.Status cr;
     certdb.Reason := certdb.Reason cr;
     certdb.Expiry := UTC (certdb.Expiry cr);
     certdb.RevokedAt := UTC (certdb.RevokedAt cr);
     certdb.PEM := certdb.PEM cr |}.

(** The number of rows of [certificates] with the given serial. *)
Definition certificatesWith (serial : string) (db : certdb.Database) : nat :=
  List.length
    (filter (fun row => String.eqb (certdb.Serial row) serial)
       (certdb.certificates db)).

(** The number of rows of [ocsp_responses] with the given serial. *)
Definition responsesWith (serial : string) (db : certdb.Database) : nat :=
  List.length
    (filter (fun row => String.eqb (certdb.OCSPSerial row) serial)
       (certdb.ocsp_responses db)).

(** A certificate row after revocation, compared with the row before. *)
Definition revokedFrom (now : Time) (reasonCode : Z)
    (before after : certdb.CertificateRecord) : Prop :=
  certdb.Serial after = certdb.Serial before
  /\ certdb.CALabel after = certdb.CALabel before
  /\ certdb.Status after = "revoked"
  /\ certdb.Reason after = reasonCode
  /\ certdb.Expiry after = certdb.Expiry before
  /\ certdb.RevokedAt after = now
  /\ certdb.PEM after = certdb.PEM before.

(** The invariant of the data model, "[revokedAt] is unset iff
    status=good", broken from the [good] side. *)
Definition goodButRevokedAt (cr : certdb.CertificateRecord) : Prop :=
  certdb.Status cr = "good" /\ IsZero (certdb.RevokedAt cr) = false.

(** The operations of the record store. *)
Inductive Operation : Set :=
| OpInsertCertificate (cr : certdb.CertificateRecord)
| OpGetCertificate (serial : string)
| OpGetUnexpiredCertificates
| OpGetRevokedCertificates
| OpRevokeCertificate (serial : string) (reasonCode : Z)
| OpInsertOCSP (rr : certdb.OCSPRecord)
| OpGetOCSP (serial : string)
| OpGetUnexpiredOCSPs
| OpUpdateOCSP (serial body : string) (expiry : Time)
| OpUpsertOCSP (serial body : string) (expiry : Time).

(** The database an operation leaves behind on the reference engine. *)
Definition after (op : Operation) (db : certdb.Database) : certdb.Database :=
  match op with
  | OpInsertCertificate cr =>
      snd (certdb.InsertCertificate (driver := certdb.engine) db cr)
  | OpRevokeCertificate serial reasonCode =>
      snd (certdb.RevokeCertificate (driver := certdb.engine)
             db serial reasonCode)
  | OpInsertOCSP rr =>
      snd (certdb.InsertOCSP (driver := certdb.engine) db rr)
  | OpUpdateOCSP serial body expiry =>
      snd (certdb.UpdateOCSP (driver := certdb.engine) db serial body expiry)
  | OpUpsertOCSP serial body expiry =>
      snd (certdb.UpsertOCSP (driver := certdb.engine) db serial body expiry)
  | OpGetCertificate _ | OpGetUnexpiredCertificates
  | OpGetRevokedCertificates | OpGetOCSP _ | OpGetUnexpiredOCSPs => db
  end.

End spec.

(* ================================================================== *)
(** * Sample environments *)

Module sample.

Import time x509 os.

(** PEM helpers that accept every input and a signing primitive that
    accepts every certificate and key. *)
Definition helpers : Helpers := {|
  ParseCertificatePEM := fun pem => inr (certificate pem);
  ParsePrivateKeyPEM := fun pem => inr (privateKey pem);
  signingFailure := fun _ _ => None
|}.

(** A clock that advances by one second per reading. *)
Definition world : World := {|
  wall := fun n => {| instant := (Z.of_nat n + 63000000000) * Second;
                      location := Local |};
  ticks := 0;
  trace := []
|}.

Definition expiry : Time :=
  {| instant := 63100000000 * Second; location := Local |}.

Definition revocation : Time :=
  {| instant := 62900000000 * Second; location := UTCLocation |}.

(** Two certificates, the second one revoked, and one cached OCSP
    response. *)
Definition database : certdb.Database := {|
  certdb.certificates :=
    [ {| certdb.Serial := "1"; certdb.CALabel := "default";
         certdb.Status := "good"; certdb.Reason := 0;
         certdb.Expiry := UTC expiry; certdb.RevokedAt := zero;
         certdb.PEM := "unexpired cert" |};
      {| certdb.Serial := "2"; certdb.CALabel := "default";
         certdb.Status := "revoked"; certdb.Reason := 0;
         certdb.Expiry := UTC expiry; certdb.RevokedAt := revocation;
         certdb.PEM := "unexpired cert" |} ];
  certdb.ocsp_responses :=
    [ {| certdb.OCSPSerial := "1"; certdb.Body := "fake body";
         certdb.OCSPExpiry := UTC expiry |} ];
  certdb.CURRENT_TIMESTAMP :=
    {| instant := 63000000000 * Second; location := UTCLocation |};
  certdb.serial_is_key := true
|}.

(** An empty database whose schema declares the serials keys. *)
Definition emptyDatabase : certdb.Database := {|
  certdb.certificates := [];
  certdb.ocsp_responses := [];
  certdb.CURRENT_TIMESTAMP :=
    {| instant := 63000000000 * Second; location := UTCLocation |};
  certdb.serial_is_key := true
|}.

(** Collaborators of the command: every name holds the serial list
    [10], [20], [30]; every configuration opens [database]. *)
Definition cli : gencrl.CLI certdb.Database := {|
  gencrl.contents :=
    fun _ => inr (strings.Join ["10"; "20"; "30"; ""] crl.newline);
  gencrl.PopFirstArgument :=
    fun args =>
      match args with
      | [] => inl (external "cli" "not enough arguments are supplied")
      | first :: rest => inr (first, rest)
      end;
  gencrl.open := fun _ => inr database
|}.

Definition config (ca caKey dbConfig : string) : gencrl.Config :=
  {| gencrl.CAFile := ca; gencrl.CAKeyFile := caKey;
     gencrl.DBConfigFile := dbConfig; gencrl.CRLExpiry := 0 |}.

(** An OCSP response for a serial that has none yet. *)
Definition response : certdb.OCSPRecord :=
  {| certdb.OCSPSerial := "7"; certdb.Body := "fake body";
     certdb.OCSPExpiry := expiry |}.

(** A record that breaks "[revokedAt] is unset iff status=good". *)
Definition inconsistent : certdb.CertificateRecord :=
  {| certdb.Serial := "3"; certdb.CALabel := "default";
     certdb.Status := "good"; certdb.Reason := 0;
     certdb.Expiry := expiry; certdb.RevokedAt := revocation;
     certdb.PEM := "fake cert data" |}.

End sample.

(* ================================================================== *)
(** * Properties of the library functions *)

Section Strings.

Import strings spec.

Lemma Split_nonempty (s : string) (sep : ascii) : Split s sep <> [].
Proof.
  induction s as [|c s IH]; simpl; [discriminate|].
  destruct (Ascii.eqb c sep); [discriminate|].
  destruct (Split s sep); discriminate.
Qed.

Lemma Split_noNewline (s : string) :
  noNewline s = true -> Split s crl.newline = [s].
Proof.
  induction s as [|c s IH]; simpl; [reflexivity|].
  destruct (Ascii.eqb c crl.newline); simpl; [discriminate|].
  intros Hs. rewrite (IH Hs). reflexivity.
Qed.

Lemma Split_app (a b : string) :
  noNewline a = true ->
  Split (a ++ String crl.newline b) crl.newline = a :: Split b crl.newline.
Proof.
  induction a as [|c a IH]; simpl.
  - intros _. reflexivity.
  - destruct (Ascii.eqb c crl.newline); simpl; [discriminate|].
    intros Ha. rewrite (IH Ha). reflexivity.
Qed.

(** Joining lines and splitting again gives the lines back. *)
Lemma Split_Join (lines : list string) :
  lines <> [] ->
  Forall (fun l => noNewline l = true) lines ->
  Split (Join lines crl.newline) crl.newline = lines.
Proof.
  induction lines as [|l rest IH]; [congruence|].
  intros _ Hall. inversion Hall as [|? ? Hl Hrest]; subst.
  destruct rest as [|l' rest'].
  - simpl. now apply Split_noNewline.
  - change (Join (l :: l' :: rest') crl.newline)
      with (l ++ String crl.newline (Join (l' :: rest') crl.newline))%string.
    rewrite (Split_app _ _ Hl). f_equal. apply IH; [discriminate|assumption].
Qed.

Lemma allDigits_noNewline (s : string) :
  allDigits s = true -> noNewline s = true.
Proof.
  induction s as [|c s IH]; simpl; [reflexivity|].
  intros H. apply andb_true_iff in H as [Hc Hs].
  rewrite (IH Hs), andb_true_r.
  destruct (Ascii.eqb_spec c crl.newline) as [->|]; [discriminate|reflexivity].
Qed.

Lemma decimal_noNewline (s : string) :
  decimal s = true -> noNewline s = true.
Proof.
  destruct s; [discriminate|]. apply allDigits_noNewline.
Qed.

(** A byte that is neither white space nor the first byte of the
    encoding of a white-space rune. *)
Definition plain (c : ascii) : Prop :=
  asciiSpace c = false
  /\ (forall x, space2 c x = false)
  /\ (forall x y, space3 c x y = false).

Lemma digit_plain (c : ascii) : isDigit c = true -> plain c.
Proof.
  unfold isDigit, plain, asciiSpace, space2, space3.
  intros H. apply andb_true_iff in H as [H1 H2].
  apply Z.leb_le in H1, H2.
  repeat split; intros;
    repeat match goal with
      | |- context [?a =? ?b] =>
          let E := fresh in destruct (Z.eqb_spec a b) as [E|E]; [lia|]
      | |- context [?a <=? ?b] =>
          let E := fresh in
          destruct (Z.leb_spec a b) as [E|E]; try lia
      end; reflexivity.
Qed.

Lemma trimLeft_plain (c : ascii) (s : list ascii) :
  plain c -> trimLeft (c :: s) = c :: s.
Proof.
  intros (H1 & H2 & H3). simpl. rewrite H1.
  destruct s as [|c2 s]; [reflexivity|]. rewrite H2.
  destruct s as [|c3 s]; [reflexivity|]. rewrite H3. reflexivity.
Qed.

Lemma trimRightRev_plain_aux (c : ascii) :
  plain c ->
  forall n s, (List.length s <= n)%nat -> trimRightRev (s ++ [c]) <> [].
Proof.
  intros (H1 & H2 & H3).
  induction n as [|n IH]; intros s Hlen.
  - destruct s; [|simpl in Hlen; lia]. simpl. rewrite H1. discriminate.
  - destruct s as [|c1 r1].
    { simpl. rewrite H1. discriminate. }
    simpl in Hlen. cbn [app trimRightRev].
    destruct (asciiSpace c1); [apply IH; lia|].
    destruct r1 as [|c2 r2].
    { cbn [app]. rewrite H2. discriminate. }
    cbn [app]. simpl in Hlen.
    destruct (space2 c2 c1); [apply IH; lia|].
    destruct r2 as [|c3 r3].
    { cbn [app]. rewrite H3. discriminate. }
    cbn [app].
    destruct (space3 c3 c2 c1); [apply IH; simpl in Hlen; lia|].
    discriminate.
Qed.

(** A line that starts with a plain byte is not blank. *)
Lemma plain_not_blank (c : ascii) (s : string) :
  plain c -> blank (String c s) = false.
Proof.
  intros Hc. unfold blank, TrimSpace.
  cbn [list_ascii_of_string]. rewrite (trimLeft_plain _ _ Hc).
  cbn [rev].
  pose proof (trimRightRev_plain_aux c Hc _ (rev (list_ascii_of_string s))
                (Nat.le_refl _)) as Hne.
  destruct (trimRightRev (rev (list_ascii_of_string s) ++ [c]))
    as [|x xs] eqn:E; [congruence|].
  cbn [rev]. apply Nat.eqb_neq.
  destruct (rev xs ++ [x])%list as [|y ys] eqn:E'.
  - destruct (rev xs); discriminate.
  - simpl. discriminate.
Qed.

Lemma decimal_not_blank (s : string) : decimal s = true -> blank s = false.
Proof.
  destruct s as [|c s]; [discriminate|]. simpl.
  intros H. apply andb_true_iff in H as [Hc _].
  apply plain_not_blank, digit_plain, Hc.
Qed.

End Strings.

Section BigInt.

Import big spec.

Lemma digit_isDigit (c : ascii) :
  digit c = if isDigit c then Some (strings.byte c - 48) else None.
Proof. reflexivity. Qed.

Lemma nat_scan_digitRun (s : string) :
  forall acc count,
    nat_scan s acc count
    = (fold_left (fun v c => 10 * v + (strings.byte c - 48))
         (list_ascii_of_string (digitRun s)) acc,
       (count + String.length (digitRun s))%nat,
       afterRun s).
Proof.
  induction s as [|c s IH]; intros acc count.
  - simpl. now rewrite Nat.add_0_r.
  - cbn [nat_scan digitRun afterRun]. rewrite digit_isDigit.
    destruct (isDigit c).
    + rewrite IH. cbn [list_ascii_of_string fold_left String.length].
      rewrite Nat.add_succ_r, (Z.mul_comm acc 10). reflexivity.
    + cbn [list_ascii_of_string fold_left String.length].
      now rewrite Nat.add_0_r.
Qed.

Lemma digitRun_empty_value (s : string) :
  String.length (digitRun s) = 0%nat -> decimalValue (digitRun s) = 0.
Proof. destruct (digitRun s); [reflexivity|discriminate]. Qed.

(** The receiver of a failed or successful [SetString] on a fresh
    [big.Int] holds the value of the leading signed digit run. *)
Lemma SetString_leadingValue (s : string) :
  fst (SetString 0 s) = leadingValue s.
Proof.
  unfold SetString, Int_scan.
  destruct s as [|c s]; [reflexivity|].
  unfold scanSign, leadingValue.
  destruct (Ascii.eqb c "-"); [|destruct (Ascii.eqb c "+")];
    rewrite nat_scan_digitRun; cbn [Nat.add];
    match goal with
    | |- context [String.length (digitRun ?r)] =>
        pose proof (digitRun_empty_value r) as Hz; unfold decimalValue in *;
        destruct (String.length (digitRun r)) eqn:E;
        [rewrite (Hz eq_refl); reflexivity|]
    end;
    match goal with
    | |- context [afterRun ?r] => destruct (afterRun r)
    end; reflexivity.
Qed.

Lemma digitRun_allDigits (s : string) : allDigits s = true -> digitRun s = s.
Proof.
  induction s as [|c s IH]; simpl; [reflexivity|].
  intros H. apply andb_true_iff in H as [Hc Hs].
  now rewrite Hc, (IH Hs).
Qed.

Lemma afterRun_allDigits (s : string) :
  allDigits s = true -> afterRun s = EmptyString.
Proof.
  induction s as [|c s IH]; simpl; [reflexivity|].
  intros H. apply andb_true_iff in H as [Hc Hs].
  now rewrite Hc, (IH Hs).
Qed.

Lemma digit_not_sign (c : ascii) :
  isDigit c = true -> Ascii.eqb c "-" = false /\ Ascii.eqb c "+" = false.
Proof.
  intros H; split; apply Ascii.eqb_neq; intros ->; discriminate.
Qed.

(** On a decimal numeral [SetString] succeeds with the number the
    numeral denotes. *)
Lemma SetString_decimal (s : string) :
  decimal s = true -> SetString 0 s = (decimalValue s, true).
Proof.
  destruct s as [|c s]; [discriminate|]. intros Hd.
  assert (Hall : allDigits (String c s) = true) by exact Hd.
  unfold SetString, Int_scan, scanSign.
  simpl in Hd. apply andb_true_iff in Hd as [Hc Hs].
  destruct (digit_not_sign c Hc) as [-> ->].
  rewrite nat_scan_digitRun, (digitRun_allDigits _ Hall),
    (afterRun_allDigits _ Hall).
  reflexivity.
Qed.

Lemma leadingValue_decimal (s : string) :
  decimal s = true -> leadingValue s = decimalValue s.
Proof.
  intros H. rewrite <- SetString_leadingValue, (SetString_decimal _ H).
  reflexivity.
Qed.

Lemma noLeadingDigit_zero (s : string) :
  noLeadingDigit s = true -> leadingValue s = 0.
Proof.
  destruct s as [|c s]; [reflexivity|]. unfold noLeadingDigit, leadingValue.
  destruct (Ascii.eqb c "-"); cbn [orb].
  - intros H. apply Nat.eqb_eq in H.
    now rewrite (digitRun_empty_value _ H).
  - destruct (Ascii.eqb c "+").
    + intros H. apply Nat.eqb_eq in H. now apply digitRun_empty_value.
    + intros H. apply negb_true_iff in H. cbn [digitRun]. now rewrite H.
Qed.

End BigInt.

(* ================================================================== *)
(** * Package [crl] *)

Section CRL.

Import time x509 os crl spec.

Context {helpers : Helpers}.

(** The world after [n] more readings of the clock. *)
Definition later (n : nat) (w : World) : World :=
  {| wall := wall w; ticks := (ticks w + n)%nat; trace := trace w |}.

Lemma later_0 (w : World) : later 0 w = w.
Proof. destruct w; unfold later; simpl. now rewrite Nat.add_0_r. Qed.

Lemma Now_later (w : World) : Now w = (wall w (ticks w), later 1 w).
Proof. unfold Now, later. now rewrite Nat.add_1_r. Qed.

Lemma later_later (n m : nat) (w : World) :
  later n (later m w) = later (m + n) w.
Proof. unfold later; simpl. now rewrite Nat.add_assoc. Qed.

Lemma oneWeek_seconds : oneWeek = 604800 * Second.
Proof. reflexivity. Qed.

(** The resolved expiry: one clock reading for a nonzero duration, two
    for the zero duration. *)
Lemma newExpiryTime_resolution (d : Duration) (w : World) :
  newExpiryTime d w
  = if d =? 0
    then (Add (wall w (S (ticks w))) (604800 * Second), later 2 w)
    else (Add (wall w (ticks w)) d, later 1 w).
Proof.
  unfold newExpiryTime. rewrite Now_later.
  destruct (d =? 0); [|reflexivity].
  rewrite Now_later, later_later. simpl. now rewrite Nat.add_1_r.
Qed.

(** The loop emits one entry per line that is not blank, in order. *)
Lemma revokeLines_entries (lines : list string) :
  forall revokedCerts w,
    revokeLines lines revokedCerts w
    = ((revokedCerts
        ++ entries (wall w) (ticks w) (filter nonBlank lines))%list,
       later (List.length (filter nonBlank lines)) w).
Proof.
  induction lines as [|line rest IH]; intros acc w.
  - simpl. now rewrite app_nil_r, later_0.
  - cbn [revokeLines filter].
    change (nonBlank line)
      with (negb (String.length (strings.TrimSpace line) =? 0)%nat).
    destruct (String.length (strings.TrimSpace line) =? 0)%nat; cbn [negb].
    + apply IH.
    + rewrite Now_later, IH. cbn [entries List.length].
      rewrite <- app_assoc, later_later, SetString_leadingValue.
      simpl. now rewrite Nat.add_1_r.
Qed.

Lemma entries_serials (wall : nat -> Time) (lines : list string) :
  forall tick,
    map SerialNumber (entries wall tick lines) = map leadingValue lines.
Proof.
  induction lines as [|l rest IH]; intros tick; simpl; [reflexivity|].
  now rewrite IH.
Qed.

Lemma entries_length (wall : nat -> Time) (lines : list string) :
  forall tick, List.length (entries wall tick lines) = List.length lines.
Proof.
  induction lines as [|l rest IH]; intros tick; simpl; [reflexivity|].
  now rewrite IH.
Qed.

(** The loop over the revoked records maps each record to an entry. *)
Lemma revokeRecords_map (dbRevoked : list certdb.CertificateRecord) :
  forall revokedCerts,
    revokeRecords dbRevoked revokedCerts
    = (revokedCerts
       ++ map (fun cr => {| SerialNumber := leadingValue (certdb.Serial cr);
                            RevocationTime := certdb.RevokedAt cr |})
            dbRevoked)%list.
Proof.
  induction dbRevoked as [|cr rest IH]; intros acc; simpl.
  - now rewrite app_nil_r.
  - now rewrite IH, <- app_assoc, SetString_leadingValue.
Qed.

Variables (issuerFile keyFile : string) (cert : Certificate) (key : Signer).
Hypothesis parsedCert : ParseCertificatePEM issuerFile = inr cert.
Hypothesis parsedKey : ParsePrivateKeyPEM keyFile = inr key.
Hypothesis signs : signingFailure cert key = None.

(** With well-formed issuer material the flat-file path produces a
    list; its contents, field by field. *)
Lemma NewCRLFromFile_produces (serialList : string) (d : Duration)
    (w : World) :
  let lines := filter nonBlank (strings.Split serialList newline) in
  let w1 := snd (newExpiryTime d w) in
  NewCRLFromFile serialList issuerFile keyFile d w
  = (inr {| Issuer := cert;
            SignedWith := key;
            RevokedCertificates := entries (wall w) (ticks w1) lines;
            ThisUpdate := wall w (ticks w1 + List.length lines);
            NextUpdate := fst (newExpiryTime d w) |},
     later (S (List.length lines)) w1).
Proof.
  intros lines w1. unfold NewCRLFromFile.
  assert (Hwall : wall w1 = wall w).
  { unfold w1. rewrite newExpiryTime_resolution. now destruct (d =? 0). }
  fold w1. destruct (newExpiryTime d w) as [t w1'] eqn:E. simpl in w1.
  subst w1. rewrite parsedCert. cbn [returned].
  rewrite revokeLines_entries. rewrite parsedKey. cbn [returned].
  unfold CreateGenericCRL. rewrite Now_later, later_later.
  unfold CreateCRL. rewrite signs. fold lines. cbn [fst app].
  rewrite Hwall. cbn [later wall ticks]. rewrite ?Hwall, Nat.add_1_r.
  reflexivity.
Qed.

(** The same for the database path. *)
Lemma NewCRLFromDB_produces {DB : Type} {driver : certdb.Driver DB}
    (db : DB)
    (rows : list certdb.CertificateRecord) (d : Duration) (w : World) :
  certdb.QueryCertificates db certdb.selectAllRevokedSQL = inr rows ->
  let w1 := snd (newExpiryTime d w) in
  NewCRLFromDB db issuerFile keyFile d w
  = (inr {| Issuer := cert;
            SignedWith := key;
            RevokedCertificates :=
              map (fun cr =>
                     {| SerialNumber := leadingValue (certdb.Serial cr);
                        RevocationTime := certdb.RevokedAt cr |}) rows;
            ThisUpdate := wall w (ticks w1);
            NextUpdate := fst (newExpiryTime d w) |},
     later 1 w1).
Proof.
  intros Hq w1. unfold NewCRLFromDB.
  assert (Hwall : wall w1 = wall w).
  { unfold w1. rewrite newExpiryTime_resolution. now destruct (d =? 0). }
  fold w1. destruct (newExpiryTime d w) as [t w1'] eqn:E. simpl in w1.
  subst w1. rewrite parsedCert, parsedKey. cbn [returned].
  unfold certdb.GetRevokedCertificates, certdb.Select. rewrite Hq.
  cbn [returned]. rewrite revokeRecords_map.
  unfold CreateGenericCRL. rewrite Now_later.
  unfold CreateCRL. rewrite signs. cbn [fst app]. now rewrite Hwall.
Qed.

End CRL.

Section SerialLists.

Import time x509 os crl spec.

Lemma blank_empty_line : blank EmptyString = true.
Proof. reflexivity. Qed.

(** In a list of numerals and blank lines, the lines that are kept are
    the numerals. *)
Lemma nonBlank_decimal (items : list string) :
  Forall (fun line => decimal line = true
                      \/ (blank line = true /\ noNewline line = true))
    items ->
  filter nonBlank items = filter decimal items.
Proof.
  induction 1 as [|line rest Hline _ IH]; [reflexivity|].
  cbn [filter]. rewrite IH. unfold nonBlank at 1.
  destruct Hline as [Hd|[Hb _]].
  - now rewrite Hd, (decimal_not_blank _ Hd).
  - rewrite Hb. cbn [negb].
    destruct (decimal line) eqn:Hd; [|reflexivity].
    rewrite (decimal_not_blank _ Hd) in Hb. discriminate.
Qed.

Lemma lines_of_items (items : list string) :
  Forall (fun line => decimal line = true
                      \/ (blank line = true /\ noNewline line = true))
    items ->
  filter nonBlank (strings.Split (strings.Join items newline) newline)
  = filter decimal items.
Proof.
  intros Hitems. destruct items as [|line rest]; [reflexivity|].
  rewrite Split_Join; [now apply nonBlank_decimal|discriminate|].
  eapply Forall_impl; [|exact Hitems].
  intros l [Hd|[_ Hn]]; [now apply decimal_noNewline|exact Hn].
Qed.

Lemma blank_items_no_decimal (items : list string) :
  forallb blank items = true -> filter decimal items = [].
Proof.
  induction items as [|line rest IH]; [reflexivity|].
  cbn [forallb filter]. intros Hb. apply andb_true_iff in Hb as [Hb Hrest].
  destruct (decimal line) eqn:Hd; [|now apply IH].
  rewrite (decimal_not_blank _ Hd) in Hb. discriminate.
Qed.

End SerialLists.

(** C1.  A serial list made of decimal numerals, one per line, mixed
    with blank lines, yields a CRL with one revoked entry per numeral, in
    order, each carrying the number its numeral denotes; a list of blank
    lines only yields no entry. *)
Theorem NewCRLFromFile_decimal_serials :
  forall (H : x509.Helpers) (items : list string)
         (issuerFile keyFile : string) (cert : x509.Certificate)
         (key : x509.Signer) (d : time.Duration) (w : os.World),
    Forall (fun line => spec.decimal line = true
                        \/ (spec.blank line = true
                            /\ spec.noNewline line = true)) items ->
    x509.ParseCertificatePEM issuerFile = inr cert ->
    x509.ParsePrivateKeyPEM keyFile = inr key ->
    x509.signingFailure cert key = None ->
    exists crl w',
      crl.NewCRLFromFile (strings.Join items crl.newline)
        issuerFile keyFile d w = (inr crl, w')
      /\ map x509.SerialNumber (x509.RevokedCertificates crl)
         = map spec.decimalValue (filter spec.decimal items)
      /\ List.length (x509.RevokedCertificates crl)
         = List.length (filter spec.decimal items)
      /\ (forallb spec.blank items = true ->
          x509.RevokedCertificates crl = []).
Proof.
  intros H items issuerFile keyFile cert key d w Hitems Hc Hk Hs.
  rewrite (NewCRLFromFile_produces _ _ _ _ Hc Hk Hs).
  do 2 eexists. split; [reflexivity|]. cbn [x509.RevokedCertificates].
  rewrite (lines_of_items _ Hitems).
  split; [|split].
  - rewrite entries_serials. apply map_ext_in.
    intros line Hin. apply filter_In in Hin as [_ Hd].
    now apply leadingValue_decimal.
  - apply entries_length.
  - intros Hb. now rewrite (blank_items_no_decimal _ Hb).
Qed.

Lemma NewCRLFromFile_decimal_serials_witness :
  exists crl w',
    crl.NewCRLFromFile (helpers := sample.helpers)
      (strings.Join ["10"; ""; " "; "20"; "30"; ""] crl.newline)
      "issuer" "key" 0 sample.world = (inr crl, w')
    /\ map x509.SerialNumber (x509.RevokedCertificates crl)
       = map spec.decimalValue
           (filter spec.decimal ["10"; ""; " "; "20"; "30"; ""])
    /\ List.length (x509.RevokedCertificates crl)
       = List.length (filter spec.decimal ["10"; ""; " "; "20"; "30"; ""])
    /\ (forallb spec.blank ["10"; ""; " "; "20"; "30"; ""] = true ->
        x509.RevokedCertificates crl = []).
Proof.
  apply (NewCRLFromFile_decimal_serials sample.helpers
           ["10"; ""; " "; "20"; "30"; ""] "issuer" "key"
           (x509.certificate "issuer") (x509.privateKey "key")
           0 sample.world).
  - repeat (apply Forall_cons || apply Forall_nil);
      first [ left; reflexivity | right; split; reflexivity ].
  - reflexivity.
  - reflexivity.
  - reflexivity.
Defined.

(** C2 as the specification words it fails: the unparsable line
    [12abc] is not blank and [SetString] rejects it, yet the entry
    emitted for it carries the serial 12, not zero. *)
Lemma NewCRLFromFile_unparsable_zero_counterexample :
  spec.blank "12abc" = false
  /\ snd (big.SetString 0 "12abc") = false
  /\ (exists crl w',
        crl.NewCRLFromFile (helpers := sample.helpers) "12abc" "issuer" "key" 0
          sample.world = (inr crl, w')
        /\ map x509.SerialNumber (x509.RevokedCertificates crl) = [12])
  /\ ~ (forall crl w',
          crl.NewCRLFromFile (helpers := sample.helpers) "12abc"
            "issuer" "key" 0 sample.world = (inr crl, w') ->
          map x509.SerialNumber (x509.RevokedCertificates crl) = [0]).
Proof.
  split; [reflexivity|]. split; [reflexivity|]. split.
  - do 2 eexists. split; reflexivity.
  - intros Hzero.
    specialize (Hzero _ _ eq_refl). discriminate Hzero.
Qed.

(** C2, amended.  Every line that is not blank, whether or not it parses
    as a base-10 integer, yields exactly one revoked entry and never an
    error; the serial of the entry is the number denoted by the leading
    run of decimal digits of the line after an optional sign, hence zero
    when the line has no digit there. *)
Theorem NewCRLFromFile_unparsable_lines :
  forall (H : x509.Helpers) (serialList issuerFile keyFile : string)
         (cert : x509.Certificate) (key : x509.Signer)
         (d : time.Duration) (w : os.World),
    x509.ParseCertificatePEM issuerFile = inr cert ->
    x509.ParsePrivateKeyPEM keyFile = inr key ->
    x509.signingFailure cert key = None ->
    exists crl w',
      crl.NewCRLFromFile serialList issuerFile keyFile d w = (inr crl, w')
      /\ Forall2
           (fun line entry =>
              x509.SerialNumber entry = spec.leadingValue line
              /\ (spec.noLeadingDigit line = true ->
                  x509.SerialNumber entry = 0))
           (filter spec.nonBlank (strings.Split serialList crl.newline))
           (x509.RevokedCertificates crl).
Proof.
  intros H serialList issuerFile keyFile cert key d w Hc Hk Hs.
  rewrite (NewCRLFromFile_produces _ _ _ _ Hc Hk Hs).
  do 2 eexists. split; [reflexivity|]. cbn [x509.RevokedCertificates].
  generalize (os.ticks (snd (crl.newExpiryTime d w))).
  induction (filter spec.nonBlank (strings.Split serialList crl.newline))
    as [|line rest IH]; intros tick; cbn [spec.entries]; constructor.
  - cbn [x509.SerialNumber]. split; [reflexivity|].
    apply noLeadingDigit_zero.
  - apply IH.
Qed.

Lemma NewCRLFromFile_unparsable_lines_witness :
  exists crl w',
    crl.NewCRLFromFile (helpers := sample.helpers)
      (strings.Join ["12abc"; " "; "abc"; " 7"; "-"; "30"] crl.newline)
      "issuer" "key" 0 sample.world = (inr crl, w')
    /\ Forall2
         (fun line entry =>
            x509.SerialNumber entry = spec.leadingValue line
            /\ (spec.noLeadingDigit line = true ->
                x509.SerialNumber entry = 0))
         (filter spec.nonBlank
            (strings.Split
               (strings.Join ["12abc"; " "; "abc"; " 7"; "-"; "30"]
                  crl.newline) crl.newline))
         (x509.RevokedCertificates crl).
Proof.
  apply (NewCRLFromFile_unparsable_lines sample.helpers
           (strings.Join ["12abc"; " "; "abc"; " 7"; "-"; "30"] crl.newline)
           "issuer" "key" (x509.certificate "issuer") (x509.privateKey "key")
           0 sample.world); reflexivity.
Defined.

(** C3.  On both construction paths the [nextUpdate] of the CRL is a
    reading of the clock plus exactly 604800 seconds when the expiry
    duration is zero, and a reading of the clock plus the duration when
    it is not. *)
Theorem nextUpdate_resolution :
  forall (H : x509.Helpers) (DB : Type) (D : certdb.Driver DB) (db : DB)
         (rows : list certdb.CertificateRecord)
         (serialList issuerFile keyFile : string)
         (cert : x509.Certificate) (key : x509.Signer)
         (d : time.Duration) (w : os.World),
    x509.ParseCertificatePEM issuerFile = inr cert ->
    x509.ParsePrivateKeyPEM keyFile = inr key ->
    x509.signingFailure cert key = None ->
    certdb.QueryCertificates db certdb.selectAllRevokedSQL = inr rows ->
    exists fromFile w1 fromDB w2,
      crl.NewCRLFromFile serialList issuerFile keyFile d w
      = (inr fromFile, w1)
      /\ crl.NewCRLFromDB db issuerFile keyFile d w = (inr fromDB, w2)
      /\ (d = 0 ->
          x509.NextUpdate fromFile
          = time.Add (os.wall w (S (os.ticks w))) (604800 * time.Second)
          /\ x509.NextUpdate fromDB
             = time.Add (os.wall w (S (os.ticks w))) (604800 * time.Second))
      /\ (d <> 0 ->
          x509.NextUpdate fromFile = time.Add (os.wall w (os.ticks w)) d
          /\ x509.NextUpdate fromDB = time.Add (os.wall w (os.ticks w)) d).
Proof.
  intros H DB D db rows serialList issuerFile keyFile cert key d w
    Hc Hk Hs Hq.
  rewrite (NewCRLFromFile_produces _ _ _ _ Hc Hk Hs).
  rewrite (NewCRLFromDB_produces _ _ _ _ Hc Hk Hs db rows d w Hq).
  do 4 eexists. split; [reflexivity|]. split; [reflexivity|].
  cbn [x509.NextUpdate]. rewrite newExpiryTime_resolution.
  split.
  - intros ->. split; reflexivity.
  - intros Hd. apply Z.eqb_neq in Hd. rewrite Hd. split; reflexivity.
Qed.

Lemma nextUpdate_resolution_witness :
  exists fromFile w1 fromDB w2,
    crl.NewCRLFromFile (helpers := sample.helpers) "10" "issuer" "key" 0
      sample.world = (inr fromFile, w1)
    /\ crl.NewCRLFromDB (helpers := sample.helpers)
         (driver := certdb.engine) sample.database
         "issuer" "key" 0 sample.world = (inr fromDB, w2)
    /\ (0 = 0 ->
        x509.NextUpdate fromFile
        = time.Add (os.wall sample.world (S (os.ticks sample.world)))
            (604800 * time.Second)
        /\ x509.NextUpdate fromDB
           = time.Add (os.wall sample.world (S (os.ticks sample.world)))
               (604800 * time.Second))
    /\ (0 <> 0 ->
        x509.NextUpdate fromFile
        = time.Add (os.wall sample.world (os.ticks sample.world)) 0
        /\ x509.NextUpdate fromDB
           = time.Add (os.wall sample.world (os.ticks sample.world)) 0).
Proof.
  apply (nextUpdate_resolution sample.helpers certdb.Database certdb.engine
           sample.database
           (filter spec.revoked (certdb.certificates sample.database))
           "10" "issuer" "key"
           (x509.certificate "issuer") (x509.privateKey "key")
           0 sample.world); reflexivity.
Defined.

(** C4.  The CRL built from the database has one entry per record whose
    stored status is [revoked], in table order, and no other entry;
    each entry carries the serial of its record and the stored
    [revokedAt] of its record, whatever the clock reads. *)
Theorem NewCRLFromDB_revoked_records :
  forall (H : x509.Helpers) (db : certdb.Database)
         (issuerFile keyFile : string)
         (cert : x509.Certificate) (key : x509.Signer)
         (d : time.Duration) (w : os.World),
    x509.ParseCertificatePEM issuerFile = inr cert ->
    x509.ParsePrivateKeyPEM keyFile = inr key ->
    x509.signingFailure cert key = None ->
    exists crl w',
      crl.NewCRLFromDB (driver := certdb.engine) db issuerFile keyFile d w
      = (inr crl, w')
      /\ x509.RevokedCertificates crl
         = map (fun cr =>
                  {| x509.SerialNumber := spec.leadingValue (certdb.Serial cr);
                     x509.RevocationTime := certdb.RevokedAt cr |})
             (filter spec.revoked (certdb.certificates db)).
Proof.
  intros H db issuerFile keyFile cert key d w Hc Hk Hs.
  rewrite (NewCRLFromDB_produces _ _ _ _ Hc Hk Hs (driver := certdb.engine)
             db (filter spec.revoked (certdb.certificates db)) d w eq_refl).
  do 2 eexists. split; reflexivity.
Qed.

Lemma NewCRLFromDB_revoked_records_witness :
  exists crl w',
    crl.NewCRLFromDB (helpers := sample.helpers) (driver := certdb.engine)
      sample.database "issuer" "key" 0 sample.world = (inr crl, w')
    /\ x509.RevokedCertificates crl
       = map (fun cr =>
                {| x509.SerialNumber := spec.leadingValue (certdb.Serial cr);
                   x509.RevocationTime := certdb.RevokedAt cr |})
           (filter spec.revoked (certdb.certificates sample.database)).
Proof.
  apply (NewCRLFromDB_revoked_records sample.helpers sample.database
           "issuer" "key" (x509.certificate "issuer") (x509.privateKey "key")
           0 sample.world); reflexivity.
Defined.

(* ================================================================== *)
(** * Package [certdb] *)

(** Split a record-store write on what the driver reported: a driver
    error, or a result with its row count compared with 0 and 1. *)
Ltac store_cases :=
  match goal with
  | |- context [certdb.NamedExec ?db ?stmt] =>
      let res := fresh "res" in
      let db' := fresh "db'" in
      let err := fresh "err" in
      let n := fresh "n" in
      let e := fresh "e" in
      let Hrows := fresh "Hrows" in
      destruct (certdb.NamedExec db stmt) as [[err|res] db'];
      cbn [fst snd certdb.wrapCertStoreError];
      [|destruct (certdb.RowsAffected res) as [n e] eqn:Hrows;
        destruct (Z.eqb_spec n 0);
        [|destruct (Z.eqb_spec n 1)];
        cbn [negb fst snd certdb.wrapCertStoreError]]
  end.

Section Engine.

Import time certdb spec.

Lemma with_certificates_same (db : Database) :
  with_certificates db (certificates db) = db.
Proof. now destruct db. Qed.

Lemma with_ocsp_responses_same (db : Database) :
  with_ocsp_responses db (ocsp_responses db) = db.
Proof. now destruct db. Qed.

Lemma update_length {A : Type} (matches : A -> bool) (set : A -> A)
    (rows : list A) :
  List.length (update matches set rows) = List.length rows.
Proof. apply length_map. Qed.

(** An [UPDATE] whose condition matches no row leaves the rows alone. *)
Lemma update_no_match {A : Type} (matches : A -> bool) (set : A -> A)
    (rows : list A) :
  filter matches rows = [] -> update matches set rows = rows.
Proof.
  induction rows as [|row rest IH]; [reflexivity|].
  cbn [filter update map]. destruct (matches row); [discriminate|].
  intros Hrest. f_equal. now apply IH.
Qed.

(** Row by row, an [UPDATE] sets the rows that match and keeps the
    others. *)
Lemma update_rows {A : Type} (matches : A -> bool) (set : A -> A)
    (rows : list A) :
  Forall2 (fun before after =>
             (matches before = true -> after = set before)
             /\ (matches before = false -> after = before))
    rows (update matches set rows).
Proof.
  induction rows as [|row rest IH]; constructor; [|exact IH].
  destruct (matches row); split; congruence.
Qed.

(** The rows that match after an [UPDATE] that keeps the condition. *)
Lemma filter_update {A : Type} (matches : A -> bool) (set : A -> A)
    (rows : list A) :
  (forall row, matches (set row) = matches row) ->
  filter matches (update matches set rows) = map set (filter matches rows).
Proof.
  intros Hkeep. induction rows as [|row rest IH]; [reflexivity|].
  cbn [update map filter]. fold (update matches set rest).
  destruct (matches row) eqn:Hrow.
  - rewrite Hkeep, Hrow. cbn [map]. now rewrite IH.
  - now rewrite Hrow.
Qed.

Lemma filter_nil_existsb {A : Type} (matches : A -> bool) (rows : list A) :
  filter matches rows = [] -> existsb matches rows = false.
Proof.
  induction rows as [|row rest IH]; [reflexivity|].
  cbn [filter existsb]. destruct (matches row); [discriminate|]. exact IH.
Qed.

Lemma length_zero_nil {A : Type} (rows : list A) :
  List.length rows = 0%nat -> rows = [].
Proof. destruct rows; [reflexivity|discriminate]. Qed.

(** On the engine an insertion that meets no key conflict appends the
    normalized record and succeeds. *)
Lemma InsertCertificate_engine (db : Database) (cr : CertificateRecord) :
  serial_is_key db && existsb (hasSerial (Serial cr)) (certificates db)
  = false ->
  InsertCertificate (driver := engine) db cr
  = (None, with_certificates db (certificates db ++ [normalized cr])).
Proof.
  intros Hkey. unfold InsertCertificate. cbn [NamedExec engine exec Serial].
  rewrite Hkey. reflexivity.
Qed.

End Engine.

(** C5.  [InsertCertificate] hands the driver one [INSERT] bound to all
    fields of the record, the timestamps in UTC.  It fails with
    [InsertionFailed] exactly when the driver reports zero rows affected,
    with the generic wrapped store error when the driver reports a count
    other than zero and one, and succeeds when the driver reports one
    row; a driver error is wrapped as a generic store error.  On the
    reference engine the normalized record becomes a row. *)
Theorem InsertCertificate_outcome :
  forall (DB : Type) (driver : certdb.Driver DB) (db : DB)
         (cr : certdb.CertificateRecord),
    let written :=
      certdb.NamedExec db (certdb.insertSQL (spec.normalized cr)) in
    let result := certdb.InsertCertificate db cr in
    snd result = snd written
    /\ (spec.failsWith InsertionFailed (fst result) <->
        exists res e,
          fst written = inr res /\ certdb.RowsAffected res = (0, e))
    /\ (forall res n e,
          fst written = inr res -> certdb.RowsAffected res = (n, e) ->
          n <> 0 -> n <> 1 ->
          fst result
          = Some (cferr_Wrap CertStoreError Unknown
                    (fmt_Errorf certdb.rowsMessage [n])))
    /\ (forall res,
          fst written = inr res -> certdb.RowsAffected res = (1, None) ->
          fst result = None)
    /\ (forall err,
          fst written = inl err ->
          fst result = Some (cferr_Wrap CertStoreError Unknown (External err)))
    /\ (forall edb : certdb.Database,
          certdb.serial_is_key edb
          && existsb (certdb.hasSerial (certdb.Serial cr))
               (certdb.certificates edb) = false ->
          certdb.InsertCertificate (driver := certdb.engine) edb cr
          = (None,
             certdb.with_certificates edb
               (certdb.certificates edb ++ [spec.normalized cr]))).
Proof.
  intros DB driver db cr written result. subst written result.
  unfold certdb.InsertCertificate, spec.failsWith.
  change {| certdb.Serial := certdb.Serial cr;
            certdb.CALabel := certdb.CALabel cr;
            certdb.Status := certdb.Status cr;
            certdb.Reason := certdb.Reason cr;
            certdb.Expiry := time.UTC (certdb.Expiry cr);
            certdb.RevokedAt := time.UTC (certdb.RevokedAt cr);
            certdb.PEM := certdb.PEM cr |} with (spec.normalized cr).
  split; [|split; [|split; [|split; [|split]]]].
  - store_cases; reflexivity.
  - store_cases.
    + split; [intros [c Hc]; discriminate Hc|].
      intros (r & x & Hr & _); discriminate Hr.
    + split; [intros _; exists res, e; subst; auto|].
      intros _; eexists; reflexivity.
    + split; [intros [c Hc]; destruct e; discriminate Hc|].
      intros (r & x & Hr & Hx). injection Hr as <-. congruence.
    + split; [intros [c Hc]; discriminate Hc|].
      intros (r & x & Hr & Hx). injection Hr as <-. congruence.
  - intros r m x. store_cases; intros Hr Hx; try discriminate Hr;
      injection Hr as <-; intros; congruence.
  - intros r. store_cases; intros Hr Hx; try discriminate Hr;
      injection Hr as <-; try congruence.
    replace e with (@None externalError) by congruence. reflexivity.
  - intros x. store_cases; intros Hx; congruence.
  - intros edb. apply InsertCertificate_engine.
Qed.

Section EngineWrites.

Import time certdb spec.

Lemma hasSerial_eq (serial : string) (row : CertificateRecord) :
  hasSerial serial row = true <-> Serial row = serial.
Proof. apply String.eqb_eq. Qed.

Lemma hasOCSPSerial_eq (serial : string) (row : OCSPRecord) :
  hasOCSPSerial serial row = true <-> OCSPSerial row = serial.
Proof. apply String.eqb_eq. Qed.

Lemma hasSerial_neq (serial : string) (row : CertificateRecord) :
  hasSerial serial row = false <-> Serial row <> serial.
Proof. apply String.eqb_neq. Qed.

Lemma hasOCSPSerial_neq (serial : string) (row : OCSPRecord) :
  hasOCSPSerial serial row = false <-> OCSPSerial row <> serial.
Proof. apply String.eqb_neq. Qed.

(** What a write of the engine reports, by the number of rows its
    condition matches. *)
Lemma count_cases (m : nat) (whenNone : option error * Database)
    (db : Database) :
  (if Z.of_nat m =? 0 then whenNone
   else if negb (Z.of_nat m =? 1)
        then (wrapCertStoreError
                (Some (fmt_Errorf rowsMessage [Z.of_nat m])), db)
        else (option_map External None, db))
  = match m with
    | O => whenNone
    | S O => (None, db)
    | _ => (Some (cferr_Wrap CertStoreError Unknown
                    (fmt_Errorf rowsMessage [Z.of_nat m])), db)
    end.
Proof.
  destruct m as [|[|m]]; [reflexivity|reflexivity|].
  destruct (Z.eqb_spec (Z.of_nat (S (S m))) 0); [lia|].
  destruct (Z.eqb_spec (Z.of_nat (S (S m))) 1); [lia|]. reflexivity.
Qed.

Lemma RevokeCertificate_engine (db : Database) (serial : string)
    (reasonCode : Z) :
  RevokeCertificate (driver := engine) db serial reasonCode
  = let db' :=
      with_certificates db
        (update (hasSerial serial)
           (setRevoked (CURRENT_TIMESTAMP db) reasonCode) (certificates db)) in
    match certificatesWith serial db with
    | O => (Some (cferr_Wrap CertStoreError RecordNotFound
                    (fmt_Errorf
                       "failed to revoke the certificate: certificate not found"
                       [])), db')
    | S O => (None, db')
    | m => (Some (cferr_Wrap CertStoreError Unknown
                    (fmt_Errorf rowsMessage [Z.of_nat m])), db')
    end.
Proof.
  unfold RevokeCertificate.
  cbn [NamedExec engine exec affected RowsAffected Serial Reason].
  rewrite count_cases. unfold certificatesWith.
  change (fun row => String.eqb (Serial row) serial) with (hasSerial serial).
  now destruct (List.length (filter (hasSerial serial) (certificates db)))
    as [|[|m]].
Qed.

Lemma UpdateOCSP_engine (db : Database) (serial body : string)
    (expiry : Time) :
  UpdateOCSP (driver := engine) db serial body expiry
  = let db' :=
      with_ocsp_responses db
        (update (hasOCSPSerial serial) (setOCSP (UTC expiry) body)
           (ocsp_responses db)) in
    match responsesWith serial db with
    | O => (Some (cferr_Wrap CertStoreError RecordNotFound
                    (fmt_Errorf "failed to update the OCSP record" [])), db')
    | S O => (None, db')
    | m => (Some (cferr_Wrap CertStoreError Unknown
                    (fmt_Errorf rowsMessage [Z.of_nat m])), db')
    end.
Proof.
  unfold UpdateOCSP.
  cbn [NamedExec engine exec affected RowsAffected OCSPSerial Body OCSPExpiry].
  rewrite count_cases. unfold responsesWith.
  change (fun row => String.eqb (OCSPSerial row) serial)
    with (hasOCSPSerial serial).
  now destruct
    (List.length (filter (hasOCSPSerial serial) (ocsp_responses db)))
    as [|[|m]].
Qed.

Lemma InsertOCSP_engine (db : Database) (rr : OCSPRecord) :
  serial_is_key db
  && existsb (hasOCSPSerial (OCSPSerial rr)) (ocsp_responses db) = false ->
  InsertOCSP (driver := engine) db rr
  = (None,
     with_ocsp_responses db
       (ocsp_responses db
        ++ [{| OCSPSerial := OCSPSerial rr; Body := Body rr;
               OCSPExpiry := UTC (OCSPExpiry rr) |}])).
Proof.
  intros Hkey. unfold InsertOCSP.
  cbn [NamedExec engine exec OCSPSerial]. rewrite Hkey. reflexivity.
Qed.

Lemma UpsertOCSP_engine (db : Database) (serial body : string)
    (expiry : Time) :
  UpsertOCSP (driver := engine) db serial body expiry
  = let row := {| OCSPSerial := serial; Body := body;
                  OCSPExpiry := UTC expiry |} in
    match responsesWith serial db with
    | O => (None, with_ocsp_responses db (ocsp_responses db ++ [row]))
    | S O =>
        (None,
         with_ocsp_responses db
           (update (hasOCSPSerial serial) (setOCSP (UTC expiry) body)
              (ocsp_responses db)))
    | m =>
        (Some (cferr_Wrap CertStoreError Unknown
                 (fmt_Errorf rowsMessage [Z.of_nat m])),
         with_ocsp_responses db
           (update (hasOCSPSerial serial) (setOCSP (UTC expiry) body)
              (ocsp_responses db)))
    end.
Proof.
  unfold UpsertOCSP.
  cbn [NamedExec engine exec affected RowsAffected OCSPSerial Body OCSPExpiry].
  rewrite count_cases. unfold responsesWith.
  change (fun row => String.eqb (OCSPSerial row) serial)
    with (hasOCSPSerial serial).
  destruct (filter (hasOCSPSerial serial) (ocsp_responses db))
    as [|r0 [|r1 rest]] eqn:Hrows; cbn [List.length]; try reflexivity.
  rewrite (update_no_match _ _ _ Hrows), InsertOCSP_engine.
  - cbn [with_ocsp_responses ocsp_responses certificates CURRENT_TIMESTAMP
           serial_is_key OCSPSerial Body OCSPExpiry]. reflexivity.
  - cbn [with_ocsp_responses ocsp_responses serial_is_key OCSPSerial].
    rewrite (filter_nil_existsb _ _ Hrows). apply andb_false_r.
Qed.

End EngineWrites.

(** C6.  [RevokeCertificate] hands the driver one [UPDATE] bound to the
    serial and the reason code.  It fails with [RecordNotFound] exactly
    when zero rows matched, with the generic wrapped store error when
    more than one row matched, and succeeds when one row matched.  On
    the reference engine every row with the serial gets status
    [revoked], the given reason code and the current time of the
    database as [revokedAt]; nothing else changes. *)
Theorem RevokeCertificate_outcome :
  forall (DB : Type) (driver : certdb.Driver DB) (db : DB)
         (edb : certdb.Database) (serial : string) (reasonCode : Z),
    let updated :=
      certdb.NamedExec db
        (certdb.updateRevokeSQL
           {| certdb.Serial := serial; certdb.CALabel := "";
              certdb.Status := ""; certdb.Reason := reasonCode;
              certdb.Expiry := time.zero; certdb.RevokedAt := time.zero;
              certdb.PEM := "" |}) in
    let result := certdb.RevokeCertificate db serial reasonCode in
    let eresult :=
      certdb.RevokeCertificate (driver := certdb.engine)
        edb serial reasonCode in
    snd result = snd updated
    /\ (spec.failsWith RecordNotFound (fst result) <->
        exists res e,
          fst updated = inr res /\ certdb.RowsAffected res = (0, e))
    /\ (forall res n e,
          fst updated = inr res -> certdb.RowsAffected res = (n, e) ->
          n <> 0 -> n <> 1 ->
          fst result
          = Some (cferr_Wrap CertStoreError Unknown
                    (fmt_Errorf certdb.rowsMessage [n])))
    /\ (forall res,
          fst updated = inr res -> certdb.RowsAffected res = (1, None) ->
          fst result = None)
    /\ (spec.failsWith RecordNotFound (fst eresult) <->
        spec.certificatesWith serial edb = 0%nat)
    /\ (spec.certificatesWith serial edb = 1%nat -> fst eresult = None)
    /\ ((1 < spec.certificatesWith serial edb)%nat ->
        fst eresult
        = Some (cferr_Wrap CertStoreError Unknown
                  (fmt_Errorf certdb.rowsMessage
                     [Z.of_nat (spec.certificatesWith serial edb)])))
    /\ Forall2
         (fun before after =>
            (certdb.Serial before = serial ->
             spec.revokedFrom (certdb.CURRENT_TIMESTAMP edb) reasonCode
               before after)
            /\ (certdb.Serial before <> serial -> after = before))
         (certdb.certificates edb) (certdb.certificates (snd eresult))
    /\ certdb.ocsp_responses (snd eresult) = certdb.ocsp_responses edb.
Proof.
  intros DB driver db edb serial reasonCode updated result eresult.
  subst updated result eresult. rewrite RevokeCertificate_engine.
  unfold certdb.RevokeCertificate at 1 2 3 4, spec.failsWith.
  repeat match goal with |- _ /\ _ => split end.
  - store_cases; reflexivity.
  - store_cases.
    + split; [intros [c Hc]; discriminate Hc|].
      intros (r & x & Hr & _); discriminate Hr.
    + split; [intros _; exists res, e; subst; auto|].
      intros _; eexists; reflexivity.
    + split; [intros [c Hc]; destruct e; discriminate Hc|].
      intros (r & x & Hr & Hx). injection Hr as <-. congruence.
    + split; [intros [c Hc]; discriminate Hc|].
      intros (r & x & Hr & Hx). injection Hr as <-. congruence.
  - intros r m x. store_cases; intros Hr Hx; try discriminate Hr;
      injection Hr as <-; intros; congruence.
  - intros r. store_cases; intros Hr Hx; try discriminate Hr;
      injection Hr as <-; try congruence.
    replace e with (@None externalError) by congruence. reflexivity.
  - cbv zeta. destruct (spec.certificatesWith serial edb) as [|[|m]];
      cbn [fst]; split; try discriminate; try (intros [c Hc]; discriminate Hc).
    + intros _. reflexivity.
    + intros _. eexists; reflexivity.
  - intros ->. reflexivity.
  - cbv zeta. destruct (spec.certificatesWith serial edb) as [|[|m]];
      [lia|lia|reflexivity].
  - replace (certdb.certificates (snd _))
      with (certdb.update (certdb.hasSerial serial)
              (certdb.setRevoked (certdb.CURRENT_TIMESTAMP edb) reasonCode)
              (certdb.certificates edb))
      by (cbv zeta; now destruct (spec.certificatesWith serial edb) as [|[|m]]).
    eapply Forall2_impl; [|apply update_rows].
    intros before after [Hset Hkeep]. split.
    + intros Hs. apply hasSerial_eq in Hs. rewrite (Hset Hs).
      repeat split.
    + intros Hs. apply hasSerial_neq in Hs. exact (Hkeep Hs).
  - cbv zeta. now destruct (spec.certificatesWith serial edb) as [|[|m]].
Qed.

(** C7.  [UpdateOCSP] hands the driver one [UPDATE] and nothing else; it
    fails with [RecordNotFound] exactly when zero rows matched.  On the
    reference engine, with no row for the serial it fails with
    [RecordNotFound] and leaves the database as it was; in every case
    the number of rows stays the same, every row with the serial gets
    the given body and the expiry in UTC, and the other rows stay. *)
Theorem UpdateOCSP_outcome :
  forall (DB : Type) (driver : certdb.Driver DB) (db : DB)
         (edb : certdb.Database) (serial body : string)
         (expiry : time.Time),
    let updated :=
      certdb.NamedExec db
        (certdb.updateOCSPSQL
           {| certdb.OCSPSerial := serial; certdb.Body := body;
              certdb.OCSPExpiry := time.UTC expiry |}) in
    let result := certdb.UpdateOCSP db serial body expiry in
    let eresult :=
      certdb.UpdateOCSP (driver := certdb.engine) edb serial body expiry in
    snd result = snd updated
    /\ (spec.failsWith RecordNotFound (fst result) <->
        exists res e,
          fst updated = inr res /\ certdb.RowsAffected res = (0, e))
    /\ (spec.responsesWith serial edb = 0%nat ->
        spec.failsWith RecordNotFound (fst eresult) /\ snd eresult = edb)
    /\ (spec.responsesWith serial edb = 1%nat -> fst eresult = None)
    /\ List.length (certdb.ocsp_responses (snd eresult))
       = List.length (certdb.ocsp_responses edb)
    /\ Forall2
         (fun before after =>
            (certdb.OCSPSerial before = serial ->
             after = {| certdb.OCSPSerial := serial; certdb.Body := body;
                        certdb.OCSPExpiry := time.UTC expiry |})
            /\ (certdb.OCSPSerial before <> serial -> after = before))
         (certdb.ocsp_responses edb) (certdb.ocsp_responses (snd eresult))
    /\ certdb.certificates (snd eresult) = certdb.certificates edb.
Proof.
  intros DB driver db edb serial body expiry updated result eresult.
  subst updated result eresult. rewrite UpdateOCSP_engine.
  unfold certdb.UpdateOCSP at 1 2, spec.failsWith.
  assert (Hrows :
    forall x : option error,
      certdb.ocsp_responses
        (snd (x, certdb.with_ocsp_responses edb
                   (certdb.update (certdb.hasOCSPSerial serial)
                      (certdb.setOCSP (time.UTC expiry) body)
                      (certdb.ocsp_responses edb))))
      = certdb.update (certdb.hasOCSPSerial serial)
          (certdb.setOCSP (time.UTC expiry) body)
          (certdb.ocsp_responses edb)) by reflexivity.
  repeat match goal with |- _ /\ _ => split end.
  - store_cases; reflexivity.
  - store_cases.
    + split; [intros [c Hc]; discriminate Hc|].
      intros (r & x & Hr & _); discriminate Hr.
    + split; [intros _; exists res, e; subst; auto|].
      intros _; eexists; reflexivity.
    + split; [intros [c Hc]; destruct e; discriminate Hc|].
      intros (r & x & Hr & Hx). injection Hr as <-. congruence.
    + split; [intros [c Hc]; discriminate Hc|].
      intros (r & x & Hr & Hx). injection Hr as <-. congruence.
  - intros Hnone. cbv zeta. rewrite Hnone. cbn [fst snd]. split.
    + eexists; reflexivity.
    + rewrite update_no_match; [apply with_ocsp_responses_same|].
      apply length_zero_nil. exact Hnone.
  - intros ->. reflexivity.
  - cbv zeta.
    destruct (spec.responsesWith serial edb) as [|[|m]]; rewrite Hrows;
      apply update_length.
  - cbv zeta.
    destruct (spec.responsesWith serial edb) as [|[|m]]; rewrite Hrows;
      (eapply Forall2_impl; [|apply update_rows]);
      intros before after [Hset Hkeep]; (split; intros Hs;
        [apply hasOCSPSerial_eq in Hs; rewrite (Hset Hs);
         unfold certdb.setOCSP; apply hasOCSPSerial_eq in Hs;
         now rewrite Hs
        |apply hasOCSPSerial_neq in Hs; exact (Hkeep Hs)]).
  - cbv zeta. now destruct (spec.responsesWith serial edb) as [|[|m]].
Qed.

Section EngineReads.

Import time certdb spec.

(** [GetOCSP] answers with the first row that has the serial. *)
Lemma GetOCSP_engine (db : Database) (serial : string) :
  GetOCSP (driver := engine) db serial
  = match filter (hasOCSPSerial serial) (ocsp_responses db) with
    | [] => inl (cferr_Wrap CertStoreError Unknown (External sql_ErrNoRows))
    | row :: _ => inr row
    end.
Proof.
  unfold GetOCSP, Get. cbn [QueryOCSP engine queryOCSP].
  now destruct (filter (hasOCSPSerial serial) (ocsp_responses db)).
Qed.

(** [GetCertificate] answers with the first row that has the serial. *)
Lemma GetCertificate_engine (db : Database) (serial : string) :
  GetCertificate (driver := engine) db serial
  = match filter (hasSerial serial) (certificates db) with
    | [] => inl (cferr_Wrap CertStoreError Unknown (External sql_ErrNoRows))
    | row :: _ => inr row
    end.
Proof.
  unfold GetCertificate, Get. cbn [QueryCertificates engine queryCertificates].
  now destruct (filter (hasSerial serial) (certificates db)).
Qed.

Lemma setOCSP_keeps_serial (serial : string) (expiry : Time) (body : string)
    (row : OCSPRecord) :
  hasOCSPSerial serial (setOCSP expiry body row) = hasOCSPSerial serial row.
Proof. reflexivity. Qed.

(** A row that an [UPDATE] does not match is still there afterwards. *)
Lemma update_keeps {A : Type} (matches : A -> bool) (set : A -> A)
    (rows : list A) (row : A) :
  In row rows -> matches row = false -> In row (update matches set rows).
Proof.
  intros Hin Hrow. unfold update. apply in_map_iff.
  exists row. now rewrite Hrow.
Qed.

End EngineReads.

(** C8.  [UpsertOCSP] first runs the [UPDATE]; when the driver reports
    zero rows affected it continues as [InsertOCSP] with the same serial,
    body and expiry, and when the driver reports another count or an
    error it runs nothing more.  On the reference engine, with no row
    for the serial the record is appended; and after every successful
    call [GetOCSP] returns the given body and the given expiry (in UTC),
    whatever the relation held for the serial before. *)
Theorem UpsertOCSP_outcome :
  forall (DB : Type) (driver : certdb.Driver DB) (db : DB)
         (edb : certdb.Database) (serial body : string)
         (expiry : time.Time),
    let row := {| certdb.OCSPSerial := serial; certdb.Body := body;
                  certdb.OCSPExpiry := time.UTC expiry |} in
    let updated := certdb.NamedExec db (certdb.updateOCSPSQL row) in
    let result := certdb.UpsertOCSP db serial body expiry in
    let eresult :=
      certdb.UpsertOCSP (driver := certdb.engine) edb serial body expiry in
    (forall res e,
       fst updated = inr res -> certdb.RowsAffected res = (0, e) ->
       result
       = certdb.InsertOCSP (snd updated)
           {| certdb.OCSPSerial := serial; certdb.Body := body;
              certdb.OCSPExpiry := expiry |})
    /\ (forall res n e,
          fst updated = inr res -> certdb.RowsAffected res = (n, e) ->
          n <> 0 -> snd result = snd updated)
    /\ (forall err,
          fst updated = inl err ->
          result
          = (Some (cferr_Wrap CertStoreError Unknown (External err)),
             snd updated))
    /\ (spec.responsesWith serial edb = 0%nat ->
        eresult
        = (None,
           certdb.with_ocsp_responses edb
             (certdb.ocsp_responses edb ++ [row])))
    /\ (fst eresult = None ->
        certdb.GetOCSP (driver := certdb.engine) (snd eresult) serial
        = inr row
        /\ time.instant (certdb.OCSPExpiry row) = time.instant expiry).
Proof.
  intros DB driver db edb serial body expiry row updated result eresult.
  subst updated result eresult row. rewrite UpsertOCSP_engine.
  unfold certdb.UpsertOCSP.
  repeat match goal with |- _ /\ _ => split end.
  - intros r x. store_cases; intros Hr Hx; try discriminate Hr;
      injection Hr as <-; try congruence; reflexivity.
  - intros r m x. store_cases; intros Hr Hx; try discriminate Hr;
      injection Hr as <-; intros; try reflexivity. congruence.
  - intros x. store_cases; intros Hx; try discriminate Hx.
    now injection Hx as <-.
  - intros ->. reflexivity.
  - cbv zeta. unfold spec.responsesWith.
    change (fun r => String.eqb (certdb.OCSPSerial r) serial)
      with (certdb.hasOCSPSerial serial).
    destruct (filter (certdb.hasOCSPSerial serial) (certdb.ocsp_responses edb))
      as [|r0 [|r1 rest]] eqn:Hrows; cbn [List.length fst snd];
      intros Hok; try discriminate Hok; (split; [|reflexivity]);
      rewrite GetOCSP_engine; cbn [certdb.with_ocsp_responses
                                     certdb.ocsp_responses].
    + rewrite filter_app, Hrows. cbn [filter app certdb.hasOCSPSerial
                                        certdb.OCSPSerial].
      unfold certdb.hasOCSPSerial. cbn [certdb.OCSPSerial].
      now rewrite String.eqb_refl.
    + rewrite filter_update by (intros; apply setOCSP_keeps_serial).
      rewrite Hrows. cbn [map]. unfold certdb.setOCSP. f_equal. f_equal.
      apply hasOCSPSerial_eq.
      assert (Hin : In r0 (filter (certdb.hasOCSPSerial serial)
                             (certdb.ocsp_responses edb)))
        by (rewrite Hrows; now left).
      now apply filter_In in Hin.
Qed.

(** C10.  The record store does not enforce "[revokedAt] is unset iff
    status=good" where records enter.  A record with status [good] and a
    nonzero [revokedAt] is accepted by [InsertCertificate] whenever no
    key conflict arises, and stored with that [revokedAt], moved to UTC
    and still nonzero; whether an insertion is accepted depends on the
    serial alone.  Afterwards no operation of the store removes or
    alters such a row, other than a revocation of its serial, and
    [GetCertificate] returns it as stored. *)
Theorem InsertCertificate_accepts_inconsistent :
  forall (edb : certdb.Database) (cr : certdb.CertificateRecord),
    spec.goodButRevokedAt cr ->
    (certdb.serial_is_key edb
     && existsb (certdb.hasSerial (certdb.Serial cr))
          (certdb.certificates edb) = false ->
     certdb.InsertCertificate (driver := certdb.engine) edb cr
     = (None,
        certdb.with_certificates edb
          (certdb.certificates edb ++ [spec.normalized cr])))
    /\ spec.goodButRevokedAt (spec.normalized cr)
    /\ certdb.RevokedAt (spec.normalized cr) = time.UTC (certdb.RevokedAt cr)
    /\ time.instant (certdb.RevokedAt (spec.normalized cr))
       = time.instant (certdb.RevokedAt cr)
    /\ (forall cr',
          certdb.Serial cr' = certdb.Serial cr ->
          fst (certdb.InsertCertificate (driver := certdb.engine) edb cr')
          = fst (certdb.InsertCertificate (driver := certdb.engine) edb cr))
    /\ (forall op db row,
          In row (certdb.certificates db) -> spec.goodButRevokedAt row ->
          In row (certdb.certificates (spec.after op db))
          \/ exists reasonCode,
               op = spec.OpRevokeCertificate (certdb.Serial row) reasonCode)
    /\ (forall db row,
          In row (certdb.certificates db) -> spec.goodButRevokedAt row ->
          (forall other,
             In other (certdb.certificates db) ->
             certdb.Serial other = certdb.Serial row -> other = row) ->
          certdb.GetCertificate (driver := certdb.engine) db
            (certdb.Serial row) = inr row).
Proof.
  intros edb cr [Hgood Hset].
  repeat match goal with |- _ /\ _ => split end;
    try reflexivity; try assumption.
  - apply InsertCertificate_engine.
  - split; assumption.
  - intros cr' Hserial. unfold certdb.InsertCertificate.
    cbn [certdb.NamedExec certdb.engine certdb.exec certdb.Serial].
    rewrite Hserial.
    now destruct (certdb.serial_is_key edb
                  && existsb (certdb.hasSerial (certdb.Serial cr))
                       (certdb.certificates edb)).
  - intros op db row Hin _. destruct op; cbn [spec.after];
      try (left; exact Hin).
    + left. unfold certdb.InsertCertificate.
      cbn [certdb.NamedExec certdb.engine certdb.exec certdb.Serial].
      destruct (certdb.serial_is_key db && _); cbn; [exact Hin|].
      apply in_or_app. now left.
    + rewrite RevokeCertificate_engine. cbv zeta.
      destruct (String.eqb_spec (certdb.Serial row) serial) as [<-|Hne].
      * right. now exists reasonCode.
      * left.
        assert (Hkept : In row
                  (certdb.update (certdb.hasSerial serial)
                     (certdb.setRevoked (certdb.CURRENT_TIMESTAMP db)
                        reasonCode) (certdb.certificates db)))
          by (apply update_keeps; [exact Hin|now apply hasSerial_neq]).
        now destruct (spec.certificatesWith serial db) as [|[|m]].
    + left. unfold certdb.InsertOCSP.
      cbn [certdb.NamedExec certdb.engine certdb.exec certdb.OCSPSerial].
      destruct (certdb.serial_is_key db && _); exact Hin.
    + left. rewrite UpdateOCSP_engine. cbv zeta.
      now destruct (spec.responsesWith serial db) as [|[|m]].
    + left. rewrite UpsertOCSP_engine. cbv zeta.
      now destruct (spec.responsesWith serial db) as [|[|m]].
  - intros db row Hin _ Hunique. rewrite GetCertificate_engine.
    destruct (filter (certdb.hasSerial (certdb.Serial row))
                (certdb.certificates db)) as [|first rest] eqn:Hrows.
    + exfalso.
      assert (Hrow : In row (filter (certdb.hasSerial (certdb.Serial row))
                               (certdb.certificates db)))
        by (apply filter_In; split; [exact Hin|now apply hasSerial_eq]).
      now rewrite Hrows in Hrow.
    + assert (Hfirst : In first (filter (certdb.hasSerial (certdb.Serial row))
                                   (certdb.certificates db)))
        by (rewrite Hrows; now left).
      apply filter_In in Hfirst as [Hf Hs]. apply hasSerial_eq in Hs.
      now rewrite (Hunique first Hf Hs).
Qed.

Lemma InsertCertificate_accepts_inconsistent_witness :
  spec.goodButRevokedAt sample.inconsistent
  /\ certdb.InsertCertificate (driver := certdb.engine)
       sample.database sample.inconsistent
     = (None,
        certdb.with_certificates sample.database
          (certdb.certificates sample.database
           ++ [spec.normalized sample.inconsistent]))
  /\ spec.goodButRevokedAt (spec.normalized sample.inconsistent).
Proof.
  assert (Hbad : spec.goodButRevokedAt sample.inconsistent)
    by (split; reflexivity).
  split; [exact Hbad|].
  destruct (InsertCertificate_accepts_inconsistent
              sample.database sample.inconsistent Hbad)
    as (Haccepted & Hstill & _).
  split; [apply Haccepted; reflexivity|exact Hstill].
Defined.

(* ================================================================== *)
(** * Package [cli/gencrl] *)

Section Gencrl.

Import time x509 os gencrl spec.

Context {DB : Type} {driver : certdb.Driver DB} {cli : CLI DB}
  {helpers : Helpers}.

(** An error that was not built by [errors.New] in the command. *)
Definition foreign (e : error) : Prop :=
  match e with
  | errors_New _ => False
  | _ => True
  end.

Lemma returned_foreign {T : Type} (r : externalError + T) (e : error) :
  returned r = inl e -> foreign e.
Proof. destruct r; cbn; intros Hr; inversion Hr; exact I. Qed.

Lemma NewCRLFromFile_foreign (serialList issuerFile keyFile : string)
    (d : Duration) (w : World) (e : error) :
  fst (crl.NewCRLFromFile serialList issuerFile keyFile d w) = inl e ->
  foreign e.
Proof.
  unfold crl.NewCRLFromFile, crl.CreateGenericCRL, CreateCRL.
  destruct (crl.newExpiryTime d w) as [t w1].
  destruct (ParseCertificatePEM issuerFile); cbn [returned fst];
    [intros Hr; inversion Hr; exact I|].
  destruct (crl.revokeLines _ _ _) as [certs w2].
  destruct (ParsePrivateKeyPEM keyFile); cbn [returned fst];
    [intros Hr; inversion Hr; exact I|].
  destruct (Now w2) as [now w3].
  destruct (signingFailure _ _); cbn [fst]; intros Hr; inversion Hr.
  exact I.
Qed.

Lemma NewCRLFromDB_foreign (db : DB) (issuerFile keyFile : string)
    (d : Duration) (w : World) (e : error) :
  fst (crl.NewCRLFromDB db issuerFile keyFile d w) = inl e -> foreign e.
Proof.
  unfold crl.NewCRLFromDB, crl.CreateGenericCRL, CreateCRL,
    certdb.GetRevokedCertificates, certdb.Select.
  destruct (crl.newExpiryTime d w) as [t w1].
  destruct (ParseCertificatePEM issuerFile); cbn [returned fst];
    [intros Hr; inversion Hr; exact I|].
  destruct (ParsePrivateKeyPEM keyFile); cbn [returned fst];
    [intros Hr; inversion Hr; exact I|].
  destruct (certdb.QueryCertificates db certdb.selectAllRevokedSQL);
    cbn [returned fst]; [intros Hr; inversion Hr; exact I|].
  destruct (Now w1) as [now w2].
  destruct (signingFailure _ _); cbn [fst]; intros Hr; inversion Hr.
  exact I.
Qed.

Lemma generate_foreign (args : list string) (c : Config)
    (certFileBytes keyBytes : string) (w : World) (e : error) :
  fst (generate args c certFileBytes keyBytes w) = inl e -> foreign e.
Proof.
  unfold generate, cli_ReadStdin, certdb_DBFromConfig.
  destruct (String.eqb (DBConfigFile c) "").
  - destruct (PopFirstArgument args) as [x|[serialList rest]];
      cbn [returned fst]; [intros Hr; inversion Hr; exact I|].
    destruct (contents serialList); cbn [returned fst];
      [intros Hr; inversion Hr; exact I|].
    apply NewCRLFromFile_foreign.
  - destruct (open (DBConfigFile c)); cbn [returned fst];
      [intros Hr; inversion Hr; exact I|].
    apply NewCRLFromDB_foreign.
Qed.

(** Past the checks the command reports no usage error. *)
Lemma run_no_usage_error (args : list string) (c : Config) (w : World) :
  ~ usageError (fst (run args c w)).
Proof.
  unfold run, cli_ReadStdin.
  intros (text & Herr & _). revert Herr.
  destruct (contents (CAFile c)); cbn [returned fst]; [discriminate|].
  destruct (contents (CAKeyFile c)); cbn [returned fst]; [discriminate|].
  destruct (generate args c s s0 _) as [[e|req] w'] eqn:Hgen;
    cbn [fst]; [|discriminate].
  intros Herr. injection Herr as ->.
  exact (generate_foreign _ _ _ _ _ _ (f_equal fst Hgen)).
Qed.

End Gencrl.

(** C9.  [gencrlMain] returns a usage error exactly when a database
    configuration comes with positional arguments, when neither is
    given, when more than one positional argument comes without a
    database configuration, or when the CA certificate path or the CA
    key path is empty; with a usage error the world is left as it was:
    no file read, no database opened, no CRL printed. *)
Theorem gencrlMain_usage_error :
  forall (DB : Type) (driver : certdb.Driver DB) (cli : gencrl.CLI DB)
         (helpers : x509.Helpers) (args : list string) (c : gencrl.Config)
         (w : os.World),
    let result := gencrl.gencrlMain args c w in
    (spec.usageError (fst result) <->
     spec.conflictingInputs args c
     \/ gencrl.CAFile c = "" \/ gencrl.CAKeyFile c = "")
    /\ (spec.usageError (fst result) -> snd result = w)
    /\ (spec.conflictingInputs args c ->
        exists text,
          fst result = Some (errors_New text)
          /\ In text [gencrl.bothGiven; gencrl.neitherGiven; gencrl.tooMany]).
Proof.
  intros DB driver cli helpers args c w result. subst result.
  unfold gencrl.gencrlMain, gencrl.nonEmpty, spec.conflictingInputs.
  pose proof (run_no_usage_error args c w) as Hrun.
  destruct (String.eqb_spec (gencrl.DBConfigFile c) "") as [Hdb|Hdb];
    destruct args as [|a [|b rest]];
    cbn [List.length negb andb Nat.ltb Nat.leb Nat.eqb];
    destruct (String.eqb_spec (gencrl.CAFile c) "") as [Hca|Hca];
    destruct (String.eqb_spec (gencrl.CAKeyFile c) "") as [Hkey|Hkey];
    cbn [fst snd];
    (split; [split|split]);
    match goal with
    | |- spec.usageError (fst (gencrl.run _ _ _)) -> _ =>
        intros Hu; now apply Hrun in Hu
    | |- spec.usageError (Some _) -> _ = _ => intros _; reflexivity
    | |- spec.usageError (Some _) -> _ =>
        intros _;
        first [ left; left; split; [assumption|cbn; lia]
              | left; right; left; split; [assumption|reflexivity]
              | left; right; right; split; [assumption|cbn; lia]
              | right; left; assumption
              | right; right; assumption ]
    | |- _ -> spec.usageError (Some _) =>
        intros _; eexists; split;
        [reflexivity
        |cbn; solve [repeat (first [left; reflexivity|right])]]
    | |- _ -> exists text, Some _ = _ /\ _ =>
        intros _; eexists; split;
        [reflexivity
        |cbn; solve [repeat (first [left; reflexivity|right])]]
    | |- _ -> _ =>
        intros Hin; exfalso; cbn in Hin;
        repeat match goal with
          | Hor : _ \/ _ |- _ => destruct Hor
          | Hand : _ /\ _ |- _ => destruct Hand
          end; first [congruence|lia]
    end.
Qed.

(* ================================================================== *)
(** * The claims at concrete inputs, and the scenarios of the tests *)

Lemma InsertCertificate_outcome_witness :
  certdb.InsertCertificate (driver := certdb.engine)
    sample.database sample.inconsistent
  = (None,
     certdb.with_certificates sample.database
       (certdb.certificates sample.database
        ++ [spec.normalized sample.inconsistent])).
Proof.
  destruct (InsertCertificate_outcome certdb.Database certdb.engine
              sample.database sample.inconsistent)
    as (_ & _ & _ & _ & _ & Hengine).
  apply Hengine. reflexivity.
Defined.

Lemma RevokeCertificate_outcome_witness :
  fst (certdb.RevokeCertificate (driver := certdb.engine)
         sample.database "1" 2) = None
  /\ (spec.failsWith RecordNotFound
        (fst (certdb.RevokeCertificate (driver := certdb.engine)
                sample.database "9" 2))).
Proof.
  split.
  - destruct (RevokeCertificate_outcome certdb.Database certdb.engine
                sample.database sample.database "1" 2)
      as (_ & _ & _ & _ & _ & Hone & _).
    apply Hone. reflexivity.
  - destruct (RevokeCertificate_outcome certdb.Database certdb.engine
                sample.database sample.database "9" 2)
      as (_ & _ & _ & _ & Hnone & _).
    apply Hnone. reflexivity.
Defined.

Lemma UpdateOCSP_outcome_witness :
  spec.failsWith RecordNotFound
    (fst (certdb.UpdateOCSP (driver := certdb.engine)
            sample.database "9" "fake body" sample.expiry))
  /\ snd (certdb.UpdateOCSP (driver := certdb.engine)
            sample.database "9" "fake body" sample.expiry)
     = sample.database.
Proof.
  destruct (UpdateOCSP_outcome certdb.Database certdb.engine
              sample.database sample.database "9" "fake body" sample.expiry)
    as (_ & _ & Hnone & _).
  apply Hnone. reflexivity.
Defined.

Lemma UpsertOCSP_outcome_witness :
  certdb.GetOCSP (driver := certdb.engine)
    (snd (certdb.UpsertOCSP (driver := certdb.engine)
            sample.database "9" "fake body" sample.expiry)) "9"
  = inr {| certdb.OCSPSerial := "9"; certdb.Body := "fake body";
           certdb.OCSPExpiry := time.UTC sample.expiry |}
  /\ certdb.GetOCSP (driver := certdb.engine)
       (snd (certdb.UpsertOCSP (driver := certdb.engine)
               sample.database "1" "fake body revoked" sample.revocation))
       "1"
     = inr {| certdb.OCSPSerial := "1"; certdb.Body := "fake body revoked";
              certdb.OCSPExpiry := time.UTC sample.revocation |}.
Proof.
  split.
  - destruct (UpsertOCSP_outcome certdb.Database certdb.engine
                sample.database sample.database "9" "fake body"
                sample.expiry) as (_ & _ & _ & _ & Hget).
    apply Hget. reflexivity.
  - destruct (UpsertOCSP_outcome certdb.Database certdb.engine
                sample.database sample.database "1" "fake body revoked"
                sample.revocation) as (_ & _ & _ & _ & Hget).
    apply Hget. reflexivity.
Defined.

Lemma gencrlMain_usage_error_witness :
  spec.usageError
    (fst (gencrl.gencrlMain (driver := certdb.engine) (cli := sample.cli)
            (helpers := sample.helpers)
            ["serialList"; "serialList2"] (sample.config "" "" "")
            sample.world))
  /\ snd (gencrl.gencrlMain (driver := certdb.engine) (cli := sample.cli)
            (helpers := sample.helpers)
            ["serialList"; "serialList2"] (sample.config "" "" "")
            sample.world)
     = sample.world.
Proof.
  destruct (gencrlMain_usage_error certdb.Database certdb.engine sample.cli
              sample.helpers ["serialList"; "serialList2"]
              (sample.config "" "" "") sample.world)
    as (Hiff & Hworld & _).
  assert (Husage : spec.usageError
            (fst (gencrl.gencrlMain (driver := certdb.engine)
                    (cli := sample.cli) (helpers := sample.helpers)
                    ["serialList"; "serialList2"] (sample.config "" "" "")
                    sample.world))).
  { apply Hiff. left. right. right. split; [reflexivity|cbn; lia]. }
  split; [exact Husage|exact (Hworld Husage)].
Defined.

(** [TestNewCRLFromFileWithoutRevocations]: the serial list of two
    newlines around a space yields no revoked entry. *)
Example TestNewCRLFromFileWithoutRevocations :
  exists crl w,
    crl.NewCRLFromFile (helpers := sample.helpers)
      (String crl.newline (String " " (String crl.newline "")))
      "issuer" "key" 0 sample.world = (inr crl, w)
    /\ x509.RevokedCertificates crl = [].
Proof. do 2 eexists. split; reflexivity. Qed.

(** The scenario of the specification: serials 10, 20, 30 and a zero
    expiry duration give three entries and a [nextUpdate] one week
    after the clock reading. *)
Example scenario_three_serials :
  exists crl w,
    crl.NewCRLFromFile (helpers := sample.helpers)
      (strings.Join ["10"; "20"; "30"] crl.newline)
      "issuer" "key" 0 sample.world = (inr crl, w)
    /\ map x509.SerialNumber (x509.RevokedCertificates crl) = [10; 20; 30]
    /\ time.instant (x509.NextUpdate crl)
       = time.instant (os.wall sample.world 1) + 7 * 24 * 3600 * time.Second.
Proof. do 2 eexists. split; [reflexivity|]. split; reflexivity. Qed.

(** [prepDB] and [TestNewCRLFromDB]: two certificates inserted, the
    second one revoked; the CRL has one entry, for serial 2, stamped
    with the time of the database at the revocation. *)
Example TestNewCRLFromDB :
  let cert serial :=
    {| certdb.Serial := serial; certdb.CALabel := "";
       certdb.Status := ""; certdb.Reason := 0;
       certdb.Expiry := sample.expiry; certdb.RevokedAt := time.zero;
       certdb.PEM := "unexpired cert" |} in
  let first :=
    certdb.InsertCertificate (driver := certdb.engine)
      sample.emptyDatabase (cert "1") in
  let second :=
    certdb.InsertCertificate (driver := certdb.engine)
      (snd first) (cert "2") in
  let third :=
    certdb.RevokeCertificate (driver := certdb.engine) (snd second) "2" 0 in
  (fst first, fst second, fst third) = (None, None, None)
  /\ exists crl w,
       crl.NewCRLFromDB (helpers := sample.helpers)
         (driver := certdb.engine) (snd third) "issuer" "key" 0 sample.world
       = (inr crl, w)
       /\ x509.RevokedCertificates crl
          = [{| x509.SerialNumber := 2;
                x509.RevocationTime :=
                  certdb.CURRENT_TIMESTAMP sample.emptyDatabase |}].
Proof.
  intros cert first second third.
  split; [reflexivity|]. do 2 eexists. split; reflexivity.
Qed.

(** [TestGencrlList]: one positional argument, CA certificate and key
    given; the command reads the three files and prints a CRL with the
    serials 10, 20 and 30. *)
Example TestGencrlList :
  exists crl w,
    gencrl.gencrlMain (driver := certdb.engine) (cli := sample.cli)
      (helpers := sample.helpers) ["serialList"]
      (sample.config "caTwo.pem" "ca-keyTwo.pem" "") sample.world
    = (None, w)
    /\ os.trace w
       = [os.ReadStdin "caTwo.pem"; os.ReadStdin "ca-keyTwo.pem";
          os.ReadStdin "serialList"; os.PrintCRL crl]
    /\ map x509.SerialNumber (x509.RevokedCertificates crl) = [10; 20; 30].
Proof. do 2 eexists. split; [reflexivity|]. split; reflexivity. Qed.

(** [TestGencrlMissingCAFile]: without a CA certificate path the command
    stops with the usage error and touches nothing. *)
Example TestGencrlMissingCAFile :
  gencrl.gencrlMain (driver := certdb.engine) (cli := sample.cli)
    (helpers := sample.helpers) ["serialList"]
    (sample.config "" "ca-keyTwo.pem" "") sample.world
  = (Some (errors_New gencrl.needCA), sample.world).
Proof. reflexivity. Qed.

(* ================================================================== *)
(** * Further properties of the record store *)

Section StoreLookups.

Import time certdb spec.

Lemma filter_length_zero {A : Type} (matches : A -> bool) (rows : list A) :
  List.length (filter matches rows) = 0%nat -> filter matches rows = [].
Proof. apply length_zero_nil. Qed.

Lemma certificatesWith_zero (serial : string) (db : Database) :
  certificatesWith serial db = 0%nat ->
  filter (hasSerial serial) (certificates db) = [].
Proof. apply length_zero_nil. Qed.

Lemma responsesWith_zero (serial : string) (db : Database) :
  responsesWith serial db = 0%nat ->
  filter (hasOCSPSerial serial) (ocsp_responses db) = [].
Proof. apply length_zero_nil. Qed.

Lemma hasSerial_normalized (cr : CertificateRecord) :
  hasSerial (Serial cr) (normalized cr) = true.
Proof. apply String.eqb_refl. Qed.

(** A fresh serial meets no key conflict. *)
Lemma fresh_certificate_no_conflict (db : Database) (serial : string) :
  certificatesWith serial db = 0%nat ->
  serial_is_key db && existsb (hasSerial serial) (certificates db) = false.
Proof.
  intros Hfresh.
  rewrite (filter_nil_existsb _ _ (certificatesWith_zero _ _ Hfresh)).
  apply andb_false_r.
Qed.

Lemma fresh_response_no_conflict (db : Database) (serial : string) :
  responsesWith serial db = 0%nat ->
  serial_is_key db && existsb (hasOCSPSerial serial) (ocsp_responses db)
  = false.
Proof.
  intros Hfresh.
  rewrite (filter_nil_existsb _ _ (responsesWith_zero _ _ Hfresh)).
  apply andb_false_r.
Qed.

End StoreLookups.

(** X1.  Insert and look up: after [InsertCertificate] of a record whose
    serial is not in the database yet, [GetCertificate] of that serial
    returns the record with every field as given and the two timestamps
    in UTC. *)
Theorem InsertCertificate_GetCertificate :
  forall (db : certdb.Database) (cr : certdb.CertificateRecord),
    spec.certificatesWith (certdb.Serial cr) db = 0%nat ->
    fst (certdb.InsertCertificate (driver := certdb.engine) db cr) = None
    /\ certdb.GetCertificate (driver := certdb.engine)
         (snd (certdb.InsertCertificate (driver := certdb.engine) db cr))
         (certdb.Serial cr)
       = inr (spec.normalized cr).
Proof.
  intros db cr Hfresh.
  rewrite (InsertCertificate_engine db cr
             (fresh_certificate_no_conflict _ _ Hfresh)).
  split; [reflexivity|]. rewrite GetCertificate_engine.
  cbn [snd certdb.with_certificates certdb.certificates].
  rewrite filter_app, (certificatesWith_zero _ _ Hfresh).
  cbn [filter app]. now rewrite hasSerial_normalized.
Qed.

Lemma InsertCertificate_GetCertificate_witness :
  fst (certdb.InsertCertificate (driver := certdb.engine)
         sample.database sample.inconsistent) = None
  /\ certdb.GetCertificate (driver := certdb.engine)
       (snd (certdb.InsertCertificate (driver := certdb.engine)
               sample.database sample.inconsistent))
       (certdb.Serial sample.inconsistent)
     = inr (spec.normalized sample.inconsistent).
Proof.
  apply (InsertCertificate_GetCertificate sample.database
           sample.inconsistent).
  reflexivity.
Defined.

(** X2.  Lookups by serial: [GetCertificate] and [GetOCSP] fail, with
    the wrapped [sql.ErrNoRows], exactly when no row has the serial, and
    otherwise return a stored row that has the serial. *)
Theorem lookup_by_serial :
  forall (db : certdb.Database) (serial : string),
    let missing :=
      cferr_Wrap CertStoreError Unknown (External certdb.sql_ErrNoRows) in
    (certdb.GetCertificate (driver := certdb.engine) db serial = inl missing
     <-> spec.certificatesWith serial db = 0%nat)
    /\ (forall e,
          certdb.GetCertificate (driver := certdb.engine) db serial = inl e ->
          e = missing)
    /\ (forall cr,
          certdb.GetCertificate (driver := certdb.engine) db serial = inr cr ->
          In cr (certdb.certificates db) /\ certdb.Serial cr = serial)
    /\ (certdb.GetOCSP (driver := certdb.engine) db serial = inl missing
        <-> spec.responsesWith serial db = 0%nat)
    /\ (forall e,
          certdb.GetOCSP (driver := certdb.engine) db serial = inl e ->
          e = missing)
    /\ (forall rr,
          certdb.GetOCSP (driver := certdb.engine) db serial = inr rr ->
          In rr (certdb.ocsp_responses db) /\ certdb.OCSPSerial rr = serial).
Proof.
  intros db serial missing. subst missing.
  rewrite GetCertificate_engine, GetOCSP_engine.
  unfold spec.certificatesWith, spec.responsesWith.
  change (fun row => String.eqb (certdb.Serial row) serial)
    with (certdb.hasSerial serial).
  change (fun row => String.eqb (certdb.OCSPSerial row) serial)
    with (certdb.hasOCSPSerial serial).
  repeat match goal with |- _ /\ _ => split end.
  - destruct (filter _ (certdb.certificates db)); cbn [List.length];
      split; intros Hx; try reflexivity; discriminate Hx.
  - destruct (filter _ (certdb.certificates db)); intros e He;
      inversion He; reflexivity.
  - destruct (filter _ (certdb.certificates db)) as [|row rest] eqn:Hrows;
      intros cr Hcr; inversion Hcr; subst.
    assert (Hin : In cr (filter (certdb.hasSerial serial)
                           (certdb.certificates db)))
      by (rewrite Hrows; now left).
    apply filter_In in Hin as [Hin Hs]. split; [exact Hin|].
    now apply hasSerial_eq.
  - destruct (filter _ (certdb.ocsp_responses db)); cbn [List.length];
      split; intros Hx; try reflexivity; discriminate Hx.
  - destruct (filter _ (certdb.ocsp_responses db)); intros e He;
      inversion He; reflexivity.
  - destruct (filter _ (certdb.ocsp_responses db)) as [|row rest] eqn:Hrows;
      intros rr Hrr; inversion Hrr; subst.
    assert (Hin : In rr (filter (certdb.hasOCSPSerial serial)
                           (certdb.ocsp_responses db)))
      by (rewrite Hrows; now left).
    apply filter_In in Hin as [Hin Hs]. split; [exact Hin|].
    now apply hasOCSPSerial_eq.
Qed.

Lemma lookup_by_serial_witness :
  certdb.GetCertificate (driver := certdb.engine) sample.database "9"
  = inl (cferr_Wrap CertStoreError Unknown (External certdb.sql_ErrNoRows))
  /\ certdb.GetOCSP (driver := certdb.engine) sample.database "9"
     = inl (cferr_Wrap CertStoreError Unknown
              (External certdb.sql_ErrNoRows)).
Proof.
  destruct (lookup_by_serial sample.database "9")
    as (Hcert & _ & _ & Hocsp & _).
  split; [apply Hcert|apply Hocsp]; reflexivity.
Defined.

(** X3.  [GetUnexpiredCertificates] and [GetUnexpiredOCSPs] return the
    rows whose expiry lies after the current time of the database, in
    table order.  An accepted insertion adds the new record to that
    answer when its expiry lies after the current time and leaves the
    answer alone when it does not; the move of the expiry to UTC plays
    no part in the comparison. *)
Theorem unexpired_after_insert :
  forall (db : certdb.Database) (cr : certdb.CertificateRecord)
         (rr : certdb.OCSPRecord),
    spec.certificatesWith (certdb.Serial cr) db = 0%nat ->
    spec.responsesWith (certdb.OCSPSerial rr) db = 0%nat ->
    exists certs responses,
      certdb.GetUnexpiredCertificates (driver := certdb.engine) db
      = inr certs
      /\ certdb.GetUnexpiredOCSPs (driver := certdb.engine) db
         = inr responses
      /\ (forall row,
            In row certs <->
            In row (certdb.certificates db)
            /\ time.instant (certdb.CURRENT_TIMESTAMP db)
               < time.instant (certdb.Expiry row))
      /\ (forall row,
            In row responses <->
            In row (certdb.ocsp_responses db)
            /\ time.instant (certdb.CURRENT_TIMESTAMP db)
               < time.instant (certdb.OCSPExpiry row))
      /\ certdb.GetUnexpiredCertificates (driver := certdb.engine)
           (snd (certdb.InsertCertificate (driver := certdb.engine) db cr))
         = inr (if time.instant (certdb.CURRENT_TIMESTAMP db)
                   <? time.instant (certdb.Expiry cr)
                then (certs ++ [spec.normalized cr])%list else certs)
      /\ certdb.GetUnexpiredOCSPs (driver := certdb.engine)
           (snd (certdb.InsertOCSP (driver := certdb.engine) db rr))
         = inr (if time.instant (certdb.CURRENT_TIMESTAMP db)
                   <? time.instant (certdb.OCSPExpiry rr)
                then (responses
                      ++ [{| certdb.OCSPSerial := certdb.OCSPSerial rr;
                             certdb.Body := certdb.Body rr;
                             certdb.OCSPExpiry :=
                               time.UTC (certdb.OCSPExpiry rr) |}])%list
                else responses).
Proof.
  intros db cr rr Hcert Hocsp.
  rewrite (InsertCertificate_engine db cr
             (fresh_certificate_no_conflict _ _ Hcert)).
  rewrite (InsertOCSP_engine db rr (fresh_response_no_conflict _ _ Hocsp)).
  do 2 eexists.
  split; [reflexivity|]. split; [reflexivity|].
  split; [|split; [|split]].
  - intros row. rewrite filter_In. unfold time.Before.
    now rewrite Z.ltb_lt.
  - intros row. rewrite filter_In. unfold time.Before.
    now rewrite Z.ltb_lt.
  - unfold certdb.GetUnexpiredCertificates, certdb.Select.
    cbn [certdb.QueryCertificates certdb.engine certdb.queryCertificates
           returned snd certdb.with_certificates certdb.certificates
           certdb.CURRENT_TIMESTAMP].
    rewrite filter_app. cbn [filter]. unfold time.Before at 2.
    cbn [spec.normalized certdb.Expiry time.UTC time.instant].
    destruct (_ <? _); [reflexivity|now rewrite app_nil_r].
  - unfold certdb.GetUnexpiredOCSPs, certdb.Select.
    cbn [certdb.QueryOCSP certdb.engine certdb.queryOCSP
           returned snd certdb.with_ocsp_responses certdb.ocsp_responses
           certdb.CURRENT_TIMESTAMP].
    rewrite filter_app. cbn [filter]. unfold time.Before at 2.
    cbn [certdb.OCSPExpiry time.UTC time.instant].
    destruct (_ <? _); [reflexivity|now rewrite app_nil_r].
Qed.

Lemma unexpired_after_insert_witness :
  exists certs responses,
    certdb.GetUnexpiredCertificates (driver := certdb.engine) sample.database
    = inr certs
    /\ certdb.GetUnexpiredOCSPs (driver := certdb.engine) sample.database
       = inr responses
    /\ (forall row,
          In row certs <->
          In row (certdb.certificates sample.database)
          /\ time.instant (certdb.CURRENT_TIMESTAMP sample.database)
             < time.instant (certdb.Expiry row))
    /\ (forall row,
          In row responses <->
          In row (certdb.ocsp_responses sample.database)
          /\ time.instant (certdb.CURRENT_TIMESTAMP sample.database)
             < time.instant (certdb.OCSPExpiry row))
    /\ certdb.GetUnexpiredCertificates (driver := certdb.engine)
         (snd (certdb.InsertCertificate (driver := certdb.engine)
                 sample.database sample.inconsistent))
       = inr (if time.instant (certdb.CURRENT_TIMESTAMP sample.database)
                 <? time.instant (certdb.Expiry sample.inconsistent)
              then (certs ++ [spec.normalized sample.inconsistent])%list
              else certs)
    /\ certdb.GetUnexpiredOCSPs (driver := certdb.engine)
         (snd (certdb.InsertOCSP (driver := certdb.engine)
                 sample.database sample.response))
       = inr (if time.instant (certdb.CURRENT_TIMESTAMP sample.database)
                 <? time.instant (certdb.OCSPExpiry sample.response)
              then (responses
                    ++ [{| certdb.OCSPSerial :=
                             certdb.OCSPSerial sample.response;
                           certdb.Body := certdb.Body sample.response;
                           certdb.OCSPExpiry :=
                             time.UTC (certdb.OCSPExpiry sample.response)
                        |}])%list
              else responses).
Proof.
  apply (unexpired_after_insert sample.database sample.inconsistent
           sample.response); reflexivity.
Defined.

(** X4.  Revoke and look up: when exactly one row has the serial,
    [RevokeCertificate] succeeds and [GetCertificate] then returns that
    row with status [revoked], the given reason code and the current
    time of the database as [revokedAt], its other fields kept.  The
    status the row had before plays no part: revoking a certificate that
    is already revoked replaces its reason and its revocation time. *)
Theorem RevokeCertificate_GetCertificate :
  forall (db : certdb.Database) (serial : string) (reasonCode : Z)
         (cr : certdb.CertificateRecord),
    spec.certificatesWith serial db = 1%nat ->
    certdb.GetCertificate (driver := certdb.engine) db serial = inr cr ->
    fst (certdb.RevokeCertificate (driver := certdb.engine)
           db serial reasonCode) = None
    /\ certdb.GetCertificate (driver := certdb.engine)
         (snd (certdb.RevokeCertificate (driver := certdb.engine)
                 db serial reasonCode)) serial
       = inr {| certdb.Serial := certdb.Serial cr;
                certdb.CALabel := certdb.CALabel cr;
                certdb.Status := "revoked";
                certdb.Reason := reasonCode;
                certdb.Expiry := certdb.Expiry cr;
                certdb.RevokedAt := certdb.CURRENT_TIMESTAMP db;
                certdb.PEM := certdb.PEM cr |}.
Proof.
  intros db serial reasonCode cr Hone Hget.
  rewrite RevokeCertificate_engine. cbv zeta. rewrite Hone.
  split; [reflexivity|].
  rewrite GetCertificate_engine in Hget |- *.
  cbn [snd certdb.with_certificates certdb.certificates].
  rewrite filter_update by reflexivity.
  destruct (filter (certdb.hasSerial serial) (certdb.certificates db))
    as [|row rest]; [discriminate Hget|].
  injection Hget as ->. reflexivity.
Qed.

Lemma RevokeCertificate_GetCertificate_witness :
  fst (certdb.RevokeCertificate (driver := certdb.engine)
         sample.database "2" 4) = None
  /\ certdb.GetCertificate (driver := certdb.engine)
       (snd (certdb.RevokeCertificate (driver := certdb.engine)
               sample.database "2" 4)) "2"
     = inr {| certdb.Serial := "2";
              certdb.CALabel := "default";
              certdb.Status := "revoked";
              certdb.Reason := 4;
              certdb.Expiry := time.UTC sample.expiry;
              certdb.RevokedAt := certdb.CURRENT_TIMESTAMP sample.database;
              certdb.PEM := "unexpired cert" |}.
Proof.
  apply (RevokeCertificate_GetCertificate sample.database "2" 4
           {| certdb.Serial := "2"; certdb.CALabel := "default";
              certdb.Status := "revoked"; certdb.Reason := 0;
              certdb.Expiry := time.UTC sample.expiry;
              certdb.RevokedAt := sample.revocation;
              certdb.PEM := "unexpired cert" |}); reflexivity.
Defined.

Section StoreInvariants.

Import time certdb spec.

Lemma nth_error_update {A : Type} (matches : A -> bool) (set : A -> A)
    (rows : list A) (i : nat) (row : A) :
  nth_error rows i = Some row ->
  nth_error (update matches set rows) i
  = Some (if matches row then set row else row).
Proof.
  intros Hrow. unfold update. rewrite nth_error_map, Hrow. reflexivity.
Qed.

Lemma nth_error_appended {A : Type} (rows more : list A) (i : nat) (row : A) :
  nth_error rows i = Some row -> nth_error (rows ++ more) i = Some row.
Proof.
  intros Hrow. rewrite nth_error_app1; [exact Hrow|].
  apply nth_error_Some. congruence.
Qed.

(** The rows of [certificates] an operation leaves behind. *)
Lemma certificates_after (op : Operation) (db : Database) :
  certificates (after op db) = certificates db
  \/ (exists cr,
        op = OpInsertCertificate cr
        /\ certificates (after op db)
           = (certificates db ++ [normalized cr])%list)
  \/ (exists serial reasonCode,
        op = OpRevokeCertificate serial reasonCode
        /\ certificates (after op db)
           = update (hasSerial serial)
               (setRevoked (CURRENT_TIMESTAMP db) reasonCode)
               (certificates db)).
Proof.
  destruct op; cbn [after]; try (left; reflexivity).
  - unfold InsertCertificate.
    cbn [NamedExec engine exec Serial].
    destruct (serial_is_key db && _); cbn [snd];
      [left; reflexivity|right; left; eexists; split; reflexivity].
  - right; right. exists serial, reasonCode. split; [reflexivity|].
    rewrite RevokeCertificate_engine. cbv zeta.
    now destruct (certificatesWith serial db) as [|[|m]].
  - left. unfold InsertOCSP.
    cbn [NamedExec engine exec OCSPSerial].
    now destruct (serial_is_key db && _).
  - left. rewrite UpdateOCSP_engine. cbv zeta.
    now destruct (responsesWith serial db) as [|[|m]].
  - left. rewrite UpsertOCSP_engine. cbv zeta.
    now destruct (responsesWith serial db) as [|[|m]].
Qed.

End StoreInvariants.

(** X5.  No operation of the record store deletes or moves a
    certificate row, changes its serial, CA label, expiry or PEM, or
    takes a row out of the status [revoked]. *)
Theorem certificate_rows_persist :
  forall (op : spec.Operation) (db : certdb.Database) (i : nat)
         (row : certdb.CertificateRecord),
    nth_error (certdb.certificates db) i = Some row ->
    exists row',
      nth_error (certdb.certificates (spec.after op db)) i = Some row'
      /\ certdb.Serial row' = certdb.Serial row
      /\ certdb.CALabel row' = certdb.CALabel row
      /\ certdb.Expiry row' = certdb.Expiry row
      /\ certdb.PEM row' = certdb.PEM row
      /\ (certdb.Status row = "revoked" -> certdb.Status row' = "revoked").
Proof.
  intros op db i row Hrow.
  destruct (certificates_after op db)
    as [Hsame|[(cr & _ & Happ)|(serial & reasonCode & _ & Hupd)]].
  - exists row. rewrite Hsame. now repeat split.
  - exists row. rewrite Happ. split; [now apply nth_error_appended|].
    now repeat split.
  - rewrite Hupd, (nth_error_update _ _ _ _ _ Hrow).
    eexists. split; [reflexivity|].
    destruct (certdb.hasSerial serial row); now repeat split.
Qed.

Lemma certificate_rows_persist_witness :
  exists row',
    nth_error
      (certdb.certificates
         (spec.after (spec.OpRevokeCertificate "2" 1) sample.database)) 1
    = Some row'
    /\ certdb.Serial row' = "2"
    /\ certdb.CALabel row' = "default"
    /\ certdb.Expiry row' = time.UTC sample.expiry
    /\ certdb.PEM row' = "unexpired cert"
    /\ ("revoked" = "revoked" -> certdb.Status row' = "revoked").
Proof.
  apply (certificate_rows_persist (spec.OpRevokeCertificate "2" 1)
           sample.database 1
           {| certdb.Serial := "2"; certdb.CALabel := "default";
              certdb.Status := "revoked"; certdb.Reason := 0;
              certdb.Expiry := time.UTC sample.expiry;
              certdb.RevokedAt := sample.revocation;
              certdb.PEM := "unexpired cert" |}).
  reflexivity.
Defined.

(** X6.  The two relations are independent: the certificate operations
    and the reads leave [ocsp_responses] as it was, the OCSP operations
    leave [certificates] as it was (revoking a certificate does not touch
    its cached OCSP response, and an OCSP response needs no certificate);
    no operation changes the clock or the schema of the database. *)
Theorem relations_independent :
  forall (op : spec.Operation) (db : certdb.Database),
    match op with
    | spec.OpInsertOCSP _ | spec.OpUpdateOCSP _ _ _
    | spec.OpUpsertOCSP _ _ _ =>
        certdb.certificates (spec.after op db) = certdb.certificates db
    | _ =>
        certdb.ocsp_responses (spec.after op db) = certdb.ocsp_responses db
    end
    /\ certdb.CURRENT_TIMESTAMP (spec.after op db)
       = certdb.CURRENT_TIMESTAMP db
    /\ certdb.serial_is_key (spec.after op db) = certdb.serial_is_key db.
Proof.
  intros op db. destruct op; cbn [spec.after]; try (now repeat split).
  - unfold certdb.InsertCertificate.
    cbn [certdb.NamedExec certdb.engine certdb.exec certdb.Serial].
    now destruct (certdb.serial_is_key db && _).
  - rewrite RevokeCertificate_engine. cbv zeta.
    now destruct (spec.certificatesWith serial db) as [|[|m]].
  - unfold certdb.InsertOCSP.
    cbn [certdb.NamedExec certdb.engine certdb.exec certdb.OCSPSerial].
    now destruct (certdb.serial_is_key db && _).
  - rewrite UpdateOCSP_engine. cbv zeta.
    now destruct (spec.responsesWith serial db) as [|[|m]].
  - rewrite UpsertOCSP_engine. cbv zeta.
    now destruct (spec.responsesWith serial db) as [|[|m]].
Qed.

(** X7.  [InsertOCSP] hands the driver one [INSERT] bound to the serial,
    the body and the expiry in UTC.  It fails with [InsertionFailed]
    exactly when the driver reports zero rows affected, with the generic
    wrapped store error on a count other than zero and one or on a
    driver error, and succeeds on a count of one.  On the reference
    engine, for a serial that has no response yet, it succeeds and
    [GetOCSP] then returns the record, its expiry in UTC. *)
Theorem InsertOCSP_outcome :
  forall (DB : Type) (driver : certdb.Driver DB) (db : DB)
         (edb : certdb.Database) (rr : certdb.OCSPRecord),
    let row := {| certdb.OCSPSerial := certdb.OCSPSerial rr;
                  certdb.Body := certdb.Body rr;
                  certdb.OCSPExpiry := time.UTC (certdb.OCSPExpiry rr) |} in
    let written := certdb.NamedExec db (certdb.insertOCSPSQL row) in
    let result := certdb.InsertOCSP db rr in
    snd result = snd written
    /\ (spec.failsWith InsertionFailed (fst result) <->
        exists res e,
          fst written = inr res /\ certdb.RowsAffected res = (0, e))
    /\ (forall res n e,
          fst written = inr res -> certdb.RowsAffected res = (n, e) ->
          n <> 0 -> n <> 1 ->
          fst result
          = Some (cferr_Wrap CertStoreError Unknown
                    (fmt_Errorf certdb.rowsMessage [n])))
    /\ (forall res,
          fst written = inr res -> certdb.RowsAffected res = (1, None) ->
          fst result = None)
    /\ (forall err,
          fst written = inl err ->
          fst result = Some (cferr_Wrap CertStoreError Unknown (External err)))
    /\ (spec.responsesWith (certdb.OCSPSerial rr) edb = 0%nat ->
        fst (certdb.InsertOCSP (driver := certdb.engine) edb rr) = None
        /\ certdb.GetOCSP (driver := certdb.engine)
             (snd (certdb.InsertOCSP (driver := certdb.engine) edb rr))
             (certdb.OCSPSerial rr)
           = inr row).
Proof.
  intros DB driver db edb rr row written result.
  subst written result row.
  unfold certdb.InsertOCSP at 1 2 3 4 5, spec.failsWith.
  split; [|split; [|split; [|split; [|split]]]].
  - store_cases; reflexivity.
  - store_cases.
    + split; [intros [c Hc]; discriminate Hc|].
      intros (r & x & Hr & _); discriminate Hr.
    + split; [intros _; exists res, e; subst; auto|].
      intros _; eexists; reflexivity.
    + split; [intros [c Hc]; destruct e; discriminate Hc|].
      intros (r & x & Hr & Hx). injection Hr as <-. congruence.
    + split; [intros [c Hc]; discriminate Hc|].
      intros (r & x & Hr & Hx). injection Hr as <-. congruence.
  - intros r m x. store_cases; intros Hr Hx; try discriminate Hr;
      injection Hr as <-; intros; congruence.
  - intros r. store_cases; intros Hr Hx; try discriminate Hr;
      injection Hr as <-; try congruence.
    replace e with (@None externalError) by congruence. reflexivity.
  - intros x. store_cases; intros Hx; congruence.
  - intros Hfresh.
    rewrite (InsertOCSP_engine edb rr (fresh_response_no_conflict _ _ Hfresh)).
    split; [reflexivity|]. rewrite GetOCSP_engine.
    cbn [snd certdb.with_ocsp_responses certdb.ocsp_responses].
    rewrite filter_app, (responsesWith_zero _ _ Hfresh).
    cbn [filter app]. unfold certdb.hasOCSPSerial at 1.
    cbn [certdb.OCSPSerial]. now rewrite String.eqb_refl.
Qed.

Lemma InsertOCSP_outcome_witness :
  fst (certdb.InsertOCSP (driver := certdb.engine)
         sample.database sample.response) = None
  /\ certdb.GetOCSP (driver := certdb.engine)
       (snd (certdb.InsertOCSP (driver := certdb.engine)
               sample.database sample.response)) "7"
     = inr {| certdb.OCSPSerial := "7"; certdb.Body := "fake body";
              certdb.OCSPExpiry := time.UTC sample.expiry |}.
Proof.
  destruct (InsertOCSP_outcome certdb.Database certdb.engine
              sample.database sample.database sample.response)
    as (_ & _ & _ & _ & _ & Hengine).
  apply Hengine. reflexivity.
Defined.

(** X8.  Update and look up: when exactly one response has the serial,
    [UpdateOCSP] succeeds and [GetOCSP] then returns the serial with the
    given body and the given expiry in UTC. *)
Theorem UpdateOCSP_GetOCSP :
  forall (db : certdb.Database) (serial body : string) (expiry : time.Time),
    spec.responsesWith serial db = 1%nat ->
    fst (certdb.UpdateOCSP (driver := certdb.engine) db serial body expiry)
    = None
    /\ certdb.GetOCSP (driver := certdb.engine)
         (snd (certdb.UpdateOCSP (driver := certdb.engine)
                 db serial body expiry)) serial
       = inr {| certdb.OCSPSerial := serial; certdb.Body := body;
                certdb.OCSPExpiry := time.UTC expiry |}.
Proof.
  intros db serial body expiry Hone.
  rewrite UpdateOCSP_engine. cbv zeta. rewrite Hone.
  split; [reflexivity|]. rewrite GetOCSP_engine.
  cbn [snd certdb.with_ocsp_responses certdb.ocsp_responses].
  rewrite filter_update by reflexivity.
  unfold spec.responsesWith in Hone.
  change (fun row => String.eqb (certdb.OCSPSerial row) serial)
    with (certdb.hasOCSPSerial serial) in Hone.
  destruct (filter (certdb.hasOCSPSerial serial) (certdb.ocsp_responses db))
    as [|row rest] eqn:Hrows; [discriminate Hone|].
  cbn [map]. unfold certdb.setOCSP. do 2 f_equal.
  apply hasOCSPSerial_eq.
  assert (Hin : In row (filter (certdb.hasOCSPSerial serial)
                          (certdb.ocsp_responses db)))
    by (rewrite Hrows; now left).
  now apply filter_In in Hin.
Qed.

Lemma UpdateOCSP_GetOCSP_witness :
  fst (certdb.UpdateOCSP (driver := certdb.engine)
         sample.database "1" "fake body revoked" sample.revocation) = None
  /\ certdb.GetOCSP (driver := certdb.engine)
       (snd (certdb.UpdateOCSP (driver := certdb.engine)
               sample.database "1" "fake body revoked" sample.revocation))
       "1"
     = inr {| certdb.OCSPSerial := "1"; certdb.Body := "fake body revoked";
              certdb.OCSPExpiry := time.UTC sample.revocation |}.
Proof.
  apply (UpdateOCSP_GetOCSP sample.database "1" "fake body revoked"
           sample.revocation).
  reflexivity.
Defined.

Section UpsertTwice.

Import time certdb spec.

Lemma update_app {A : Type} (matches : A -> bool) (set : A -> A)
    (rows more : list A) :
  update matches set (rows ++ more)
  = (update matches set rows ++ update matches set more)%list.
Proof. apply map_app. Qed.

(** Running the same [UPDATE] twice is running it once. *)
Lemma update_idempotent {A : Type} (matches : A -> bool) (set : A -> A)
    (rows : list A) :
  (forall row, matches (set row) = matches row) ->
  (forall row, set (set row) = set row) ->
  update matches set (update matches set rows) = update matches set rows.
Proof.
  intros Hkeep Hset. unfold update. rewrite map_map. apply map_ext.
  intros row. destruct (matches row) eqn:Hrow.
  - now rewrite Hkeep, Hrow, Hset.
  - now rewrite Hrow.
Qed.

(** An [UPDATE] that keeps a condition keeps the number of rows that
    satisfy it. *)
Lemma filter_update_length {A : Type} (matches keeps : A -> bool)
    (set : A -> A) (rows : list A) :
  (forall row, keeps (set row) = keeps row) ->
  List.length (filter keeps (update matches set rows))
  = List.length (filter keeps rows).
Proof.
  intros Hkeep. induction rows as [|row rest IH]; [reflexivity|].
  cbn [update map filter]. fold (update matches set rest).
  assert (Hrow : keeps (if matches row then set row else row) = keeps row)
    by (destruct (matches row); [apply Hkeep|reflexivity]).
  rewrite Hrow. destruct (keeps row); cbn [List.length]; now rewrite IH.
Qed.

Lemma responsesWith_rows (serial : string) (db : Database)
    (rows : list OCSPRecord) :
  responsesWith serial (with_ocsp_responses db rows)
  = List.length (filter (hasOCSPSerial serial) rows).
Proof. reflexivity. Qed.

End UpsertTwice.

(** X9.  [UpsertOCSP] is idempotent and keeps serials unique: when at
    most one response has the serial, the call succeeds, exactly one
    response has the serial afterwards, the number of responses of every
    other serial is unchanged, and repeating the call succeeds and
    leaves the database as the first call left it. *)
Theorem UpsertOCSP_idempotent :
  forall (db : certdb.Database) (serial body : string) (expiry : time.Time),
    (spec.responsesWith serial db <= 1)%nat ->
    let once :=
      certdb.UpsertOCSP (driver := certdb.engine) db serial body expiry in
    fst once = None
    /\ spec.responsesWith serial (snd once) = 1%nat
    /\ (forall other,
          other <> serial ->
          spec.responsesWith other (snd once) = spec.responsesWith other db)
    /\ certdb.UpsertOCSP (driver := certdb.engine)
         (snd once) serial body expiry
       = (None, snd once).
Proof.
  intros db serial body expiry Hmost once. subst once.
  rewrite (UpsertOCSP_engine db). cbv zeta.
  pose proof (eq_refl (spec.responsesWith serial db)) as Hcount.
  unfold spec.responsesWith at 2 in Hcount.
  change (fun row => String.eqb (certdb.OCSPSerial row) serial)
    with (certdb.hasOCSPSerial serial) in Hcount.
  destruct (spec.responsesWith serial db) as [|[|m]]; [| |lia];
    cbn [fst snd].
  - symmetry in Hcount. apply length_zero_nil in Hcount.
    assert (Hnow :
      spec.responsesWith serial
        (certdb.with_ocsp_responses db
           (certdb.ocsp_responses db
            ++ [{| certdb.OCSPSerial := serial; certdb.Body := body;
                   certdb.OCSPExpiry := time.UTC expiry |}])) = 1%nat).
    { rewrite responsesWith_rows, filter_app, Hcount. cbn [filter app].
      unfold certdb.hasOCSPSerial at 1. cbn [certdb.OCSPSerial].
      now rewrite String.eqb_refl. }
    split; [reflexivity|]. split; [exact Hnow|]. split.
    + intros other Hother. rewrite responsesWith_rows, filter_app.
      cbn [filter]. unfold certdb.hasOCSPSerial at 2.
      cbn [certdb.OCSPSerial].
      destruct (String.eqb_spec serial other) as [Heq|_]; [congruence|].
      now rewrite app_nil_r.
    + rewrite UpsertOCSP_engine. cbv zeta. rewrite Hnow.
      cbn [certdb.with_ocsp_responses certdb.ocsp_responses
             certdb.certificates certdb.CURRENT_TIMESTAMP
             certdb.serial_is_key].
      rewrite update_app, (update_no_match _ _ _ Hcount).
      cbn [certdb.update map]. unfold certdb.hasOCSPSerial at 1.
      cbn [certdb.OCSPSerial]. now rewrite String.eqb_refl.
  - assert (Hnow :
      spec.responsesWith serial
        (certdb.with_ocsp_responses db
           (certdb.update (certdb.hasOCSPSerial serial)
              (certdb.setOCSP (time.UTC expiry) body)
              (certdb.ocsp_responses db))) = 1%nat).
    { rewrite responsesWith_rows, filter_update_length by reflexivity.
      now symmetry. }
    split; [reflexivity|]. split; [exact Hnow|]. split.
    + intros other _. rewrite responsesWith_rows.
      now rewrite filter_update_length by reflexivity.
    + rewrite UpsertOCSP_engine. cbv zeta. rewrite Hnow.
      cbn [certdb.with_ocsp_responses certdb.ocsp_responses
             certdb.certificates certdb.CURRENT_TIMESTAMP
             certdb.serial_is_key].
      now rewrite update_idempotent by reflexivity.
Qed.

Lemma UpsertOCSP_idempotent_witness :
  let once :=
    certdb.UpsertOCSP (driver := certdb.engine)
      sample.database "7" "fake body" sample.expiry in
  fst once = None
  /\ spec.responsesWith "7" (snd once) = 1%nat
  /\ (forall other,
        other <> "7" ->
        spec.responsesWith other (snd once)
        = spec.responsesWith other sample.database)
  /\ certdb.UpsertOCSP (driver := certdb.engine)
       (snd once) "7" "fake body" sample.expiry
     = (None, snd once).
Proof.
  apply (UpsertOCSP_idempotent sample.database "7" "fake body"
           sample.expiry).
  cbn. lia.
Defined.

(** An error is absent or carries the category of the record store. *)
Definition storeOutcome (e : option error) : Prop :=
  e = None \/ exists reason, spec.failsWith reason e.

(** A driver whose results report their row count without an error of
    their own. *)
Definition countsRows {DB : Type} (driver : certdb.Driver DB) : Prop :=
  forall db stmt res n e,
    fst (certdb.NamedExec db stmt) = inr res ->
    certdb.RowsAffected res = (n, e) -> e = None.

Lemma engine_countsRows : countsRows certdb.engine.
Proof.
  intros db stmt res n e. destruct stmt; cbn [certdb.NamedExec certdb.engine
    certdb.exec];
    try (destruct (certdb.serial_is_key db && _); cbn [fst];
         intros Hres; inversion Hres; subst; cbn; congruence);
    cbn [fst]; intros Hres; inversion Hres; subst; cbn; congruence.
Qed.

(** One write of the store under a driver that counts rows. *)
Ltac write_wrapped Hdrv :=
  match goal with
  | |- context [certdb.NamedExec ?db ?stmt] =>
      let Hr := fresh "Hr" in
      pose proof (Hdrv db stmt) as Hr; revert Hr;
      store_cases; intros Hr;
      [right; eexists; eexists; reflexivity
      |right; eexists; eexists; reflexivity
      |left;
       match goal with
       | Hx : certdb.RowsAffected _ = (_, ?e) |- _ =>
           rewrite (Hr _ _ _ eq_refl Hx); reflexivity
       end
      |right; eexists; eexists; reflexivity]
  end.

(** X10.  The errors of the record store carry its category.  Every
    error of a read is the driver's error (or [sql.ErrNoRows]) wrapped
    as [CertStoreError]/[Unknown]; under a driver that reports its row
    counts without an error of its own, every write returns either no
    error or an error wrapped with the category [CertStoreError]. *)
Theorem store_errors_wrapped :
  forall (DB : Type) (driver : certdb.Driver DB) (db : DB),
    (forall serial e,
       certdb.GetCertificate db serial = inl e ->
       exists x, e = cferr_Wrap CertStoreError Unknown (External x))
    /\ (forall serial e,
          certdb.GetOCSP db serial = inl e ->
          exists x, e = cferr_Wrap CertStoreError Unknown (External x))
    /\ (forall e,
          certdb.GetUnexpiredCertificates db = inl e ->
          exists x, e = cferr_Wrap CertStoreError Unknown (External x))
    /\ (forall e,
          certdb.GetUnexpiredOCSPs db = inl e ->
          exists x, e = cferr_Wrap CertStoreError Unknown (External x))
    /\ (countsRows driver ->
        (forall cr, storeOutcome (fst (certdb.InsertCertificate db cr)))
        /\ (forall serial reasonCode,
              storeOutcome
                (fst (certdb.RevokeCertificate db serial reasonCode)))
        /\ (forall rr, storeOutcome (fst (certdb.InsertOCSP db rr)))
        /\ (forall serial body expiry,
              storeOutcome
                (fst (certdb.UpdateOCSP db serial body expiry)))
        /\ (forall serial body expiry,
              storeOutcome
                (fst (certdb.UpsertOCSP db serial body expiry)))).
Proof.
  intros DB driver db.
  split; [|split; [|split; [|split]]].
  - intros serial e. unfold certdb.GetCertificate, certdb.Get.
    destruct (certdb.QueryCertificates db _) as [x|[|row rest]];
      intros He; inversion He; eexists; reflexivity.
  - intros serial e. unfold certdb.GetOCSP, certdb.Get.
    destruct (certdb.QueryOCSP db _) as [x|[|row rest]];
      intros He; inversion He; eexists; reflexivity.
  - intros e. unfold certdb.GetUnexpiredCertificates, certdb.Select.
    destruct (certdb.QueryCertificates db _) as [x|rows];
      intros He; inversion He; eexists; reflexivity.
  - intros e. unfold certdb.GetUnexpiredOCSPs, certdb.Select.
    destruct (certdb.QueryOCSP db _) as [x|rows];
      intros He; inversion He; eexists; reflexivity.
  - intros Hdrv. unfold storeOutcome, spec.failsWith.
    split; [|split; [|split; [|split]]].
    + intros cr. unfold certdb.InsertCertificate. write_wrapped Hdrv.
    + intros serial reasonCode. unfold certdb.RevokeCertificate.
      write_wrapped Hdrv.
    + intros rr. unfold certdb.InsertOCSP. write_wrapped Hdrv.
    + intros serial body expiry. unfold certdb.UpdateOCSP.
      write_wrapped Hdrv.
    + intros serial body expiry. unfold certdb.UpsertOCSP.
      match goal with
      | |- context [certdb.NamedExec ?d ?stmt] =>
          pose proof (Hdrv d stmt) as Hr; revert Hr
      end.
      store_cases; intros Hr.
      * right; eexists; eexists; reflexivity.
      * unfold certdb.InsertOCSP. write_wrapped Hdrv.
      * left. rewrite (Hr _ _ _ eq_refl Hrows). reflexivity.
      * right; eexists; eexists; reflexivity.
Qed.

Lemma store_errors_wrapped_witness :
  storeOutcome
    (fst (certdb.InsertCertificate (driver := certdb.engine)
            sample.database sample.inconsistent))
  /\ storeOutcome
       (fst (certdb.UpsertOCSP (driver := certdb.engine)
               sample.database "7" "fake body" sample.expiry)).
Proof.
  destruct (store_errors_wrapped certdb.Database certdb.engine
              sample.database) as (_ & _ & _ & _ & Hwrites).
  destruct (Hwrites engine_countsRows) as (Hinsert & _ & _ & _ & Hupsert).
  split; [apply Hinsert|apply Hupsert].
Defined.

(* ================================================================== *)
(** * Further properties of the CRL assembly *)

Section AssemblyFailures.

Import time x509 os crl spec.

Context {helpers : Helpers}.

Lemma newExpiryTime_trace (d : Duration) (w : World) :
  trace (snd (newExpiryTime d w)) = trace w.
Proof. rewrite newExpiryTime_resolution. now destruct (d =? 0). Qed.

Lemma revokeLines_trace (lines : list string) :
  forall acc w, trace (snd (revokeLines lines acc w)) = trace w.
Proof. intros acc w. now rewrite revokeLines_entries. Qed.

(** The assembly of a CRL performs no I/O of its own. *)
Lemma NewCRLFromFile_trace (serialList issuerFile keyFile : string)
    (d : Duration) (w : World) :
  trace (snd (NewCRLFromFile serialList issuerFile keyFile d w)) = trace w.
Proof.
  unfold NewCRLFromFile, CreateGenericCRL.
  pose proof (newExpiryTime_trace d w) as Ht.
  destruct (newExpiryTime d w) as [t w1]. cbn [snd] in Ht.
  destruct (returned (ParseCertificatePEM issuerFile)); [exact Ht|].
  pose proof (revokeLines_trace (strings.Split serialList newline) [] w1)
    as Hl.
  destruct (revokeLines _ _ w1) as [certs w2]. cbn [snd] in Hl.
  destruct (returned (ParsePrivateKeyPEM keyFile)); cbn [snd];
    [congruence|].
  rewrite Now_later. cbn [snd later trace]. congruence.
Qed.

Lemma NewCRLFromDB_trace {DB : Type} {driver : certdb.Driver DB} (db : DB)
    (issuerFile keyFile : string) (d : Duration) (w : World) :
  trace (snd (NewCRLFromDB db issuerFile keyFile d w)) = trace w.
Proof.
  unfold NewCRLFromDB, CreateGenericCRL.
  pose proof (newExpiryTime_trace d w) as Ht.
  destruct (newExpiryTime d w) as [t w1]. cbn [snd] in Ht.
  destruct (returned (ParseCertificatePEM issuerFile)); [exact Ht|].
  destruct (returned (ParsePrivateKeyPEM keyFile)); [exact Ht|].
  destruct (certdb.GetRevokedCertificates db); [exact Ht|].
  rewrite Now_later. cbn [snd later trace]. exact Ht.
Qed.

Lemma entries_nth (wall : nat -> Time) (lines : list string) :
  forall tick i entry,
    nth_error (entries wall tick lines) i = Some entry ->
    RevocationTime entry = wall (tick + i)%nat.
Proof.
  induction lines as [|line rest IH]; intros tick i entry.
  - destruct i; discriminate.
  - destruct i as [|i]; cbn [entries nth_error].
    + intros He. injection He as <-. cbn. now rewrite Nat.add_0_r.
    + intros He. rewrite (IH _ _ _ He). f_equal. lia.
Qed.

End AssemblyFailures.






(** X13.  In the flat-file path every revoked entry is stamped with a
    clock reading of its own, taken in the order of the lines after the
    readings for the expiry, and [thisUpdate] is the reading taken after
    all of them; so under a clock that never runs backwards no entry is
    revoked later than [thisUpdate].  The call reads the clock once or
    twice for the expiry, once per entry and once for [thisUpdate]. *)
Theorem NewCRLFromFile_revocation_times :
  forall (helpers : x509.Helpers) (serialList issuerFile keyFile : string)
         (cert : x509.Certificate) (key : x509.Signer)
         (d : time.Duration) (w : os.World),
    x509.ParseCertificatePEM issuerFile = inr cert ->
    x509.ParsePrivateKeyPEM keyFile = inr key ->
    x509.signingFailure cert key = None ->
    let first := (os.ticks w + if (d =? 0)%Z then 2 else 1)%nat in
    exists crl w',
      crl.NewCRLFromFile serialList issuerFile keyFile d w = (inr crl, w')
      /\ (forall i entry,
            nth_error (x509.RevokedCertificates crl) i = Some entry ->
            x509.RevocationTime entry = os.wall w (first + i)%nat)
      /\ x509.ThisUpdate crl
         = os.wall w (first + List.length (x509.RevokedCertificates crl))%nat
      /\ os.ticks w'
         = S (first + List.length (x509.RevokedCertificates crl))
      /\ ((forall n m,
             (n <= m)%nat ->
             time.instant (os.wall w n) <= time.instant (os.wall w m)) ->
          Forall (fun entry =>
                    time.instant (x509.RevocationTime entry)
                    <= time.instant (x509.ThisUpdate crl))
            (x509.RevokedCertificates crl)).
Proof.
  intros helpers serialList issuerFile keyFile cert key d w Hc Hk Hs first.
  rewrite (NewCRLFromFile_produces _ _ _ _ Hc Hk Hs).
  assert (Hfirst : os.ticks (snd (crl.newExpiryTime d w)) = first).
  { subst first. rewrite newExpiryTime_resolution. now destruct (d =? 0). }
  rewrite Hfirst. do 2 eexists. split; [reflexivity|].
  cbn [x509.RevokedCertificates x509.ThisUpdate].
  rewrite entries_length.
  split; [|split; [|split]].
  - intros i entry. apply entries_nth.
  - reflexivity.
  - cbn [later os.ticks]. rewrite Hfirst. lia.
  - intros Hmono. apply Forall_forall. intros entry Hin.
    apply In_nth_error in Hin as [i Hi].
    rewrite (entries_nth _ _ _ _ _ Hi). apply Hmono.
    assert (Hlt : (i < List.length
                         (spec.entries (os.wall w) first
                            (filter spec.nonBlank
                               (strings.Split serialList crl.newline))))%nat)
      by (apply nth_error_Some; congruence).
    rewrite entries_length in Hlt. lia.
Qed.

Lemma NewCRLFromFile_revocation_times_witness :
  exists crl w',
    crl.NewCRLFromFile (helpers := sample.helpers) "10" "issuer" "key" 0
      sample.world = (inr crl, w')
    /\ (forall i entry,
          nth_error (x509.RevokedCertificates crl) i = Some entry ->
          x509.RevocationTime entry = os.wall sample.world (2 + i)%nat)
    /\ x509.ThisUpdate crl
       = os.wall sample.world
           (2 + List.length (x509.RevokedCertificates crl))%nat
    /\ os.ticks w' = S (2 + List.length (x509.RevokedCertificates crl))
    /\ ((forall n m,
           (n <= m)%nat ->
           time.instant (os.wall sample.world n)
           <= time.instant (os.wall sample.world m)) ->
        Forall (fun entry =>
                  time.instant (x509.RevocationTime entry)
                  <= time.instant (x509.ThisUpdate crl))
          (x509.RevokedCertificates crl)).
Proof.
  apply (NewCRLFromFile_revocation_times sample.helpers "10" "issuer" "key"
           (x509.certificate "issuer") (x509.privateKey "key") 0
           sample.world); reflexivity.
Defined.

Section SignedSerials.

Import strings spec.

Lemma sign_plain (c : ascii) :
  c = "-"%char \/ c = "+"%char -> plain c.
Proof.
  intros [->| ->]; repeat split; intros;
    unfold space2, space3; reflexivity.
Qed.

End SignedSerials.

(** X14.  A serial written with a sign is taken with its sign: a line
    made of a minus sign and a decimal numeral yields an entry whose
    serial is the negated number, a line made of a plus sign and a
    numeral yields the number. *)
Theorem NewCRLFromFile_signed_serial :
  forall (helpers : x509.Helpers) (digits issuerFile keyFile : string)
         (cert : x509.Certificate) (key : x509.Signer)
         (d : time.Duration) (w : os.World),
    spec.decimal digits = true ->
    x509.ParseCertificatePEM issuerFile = inr cert ->
    x509.ParsePrivateKeyPEM keyFile = inr key ->
    x509.signingFailure cert key = None ->
    exists minus w1 plus w2,
      crl.NewCRLFromFile (String "-" digits) issuerFile keyFile d w
      = (inr minus, w1)
      /\ map x509.SerialNumber (x509.RevokedCertificates minus)
         = [- spec.decimalValue digits]
      /\ big.SetString 0 (String "-" digits)
         = (- spec.decimalValue digits, true)
      /\ crl.NewCRLFromFile (String "+" digits) issuerFile keyFile d w
         = (inr plus, w2)
      /\ map x509.SerialNumber (x509.RevokedCertificates plus)
         = [spec.decimalValue digits].
Proof.
  intros helpers digits issuerFile keyFile cert key d w Hd Hc Hk Hs.
  rewrite !(NewCRLFromFile_produces _ _ _ _ Hc Hk Hs).
  assert (Hall : spec.allDigits digits = true)
    by (destruct digits; [discriminate|exact Hd]).
  assert (Hlines : forall c,
            c = "-"%char \/ c = "+"%char ->
            filter spec.nonBlank
              (strings.Split (String c digits) crl.newline)
            = [String c digits]).
  { intros c Hsign. rewrite Split_noNewline.
    - cbn [filter]. unfold spec.nonBlank.
      now rewrite (plain_not_blank c digits (sign_plain c Hsign)).
    - cbn [spec.noNewline]. rewrite (allDigits_noNewline _ Hall).
      now destruct Hsign as [->| ->]. }
  rewrite (Hlines "-"%char), (Hlines "+"%char) by auto.
  do 4 eexists.
  split; [reflexivity|]. split; [|split; [|split; [reflexivity|]]].
  - cbn [x509.RevokedCertificates spec.entries map x509.SerialNumber].
    unfold spec.leadingValue. cbn [Ascii.eqb Bool.eqb].
    now rewrite (digitRun_allDigits _ Hall).
  - unfold big.SetString, big.Int_scan, big.scanSign.
    cbn [Ascii.eqb Bool.eqb].
    rewrite nat_scan_digitRun, (digitRun_allDigits _ Hall),
      (afterRun_allDigits _ Hall).
    destruct digits as [|c rest]; [discriminate|]. reflexivity.
  - cbn [x509.RevokedCertificates spec.entries map x509.SerialNumber].
    unfold spec.leadingValue. cbn [Ascii.eqb Bool.eqb].
    now rewrite (digitRun_allDigits _ Hall).
Qed.

Lemma NewCRLFromFile_signed_serial_witness :
  exists minus w1 plus w2,
    crl.NewCRLFromFile (helpers := sample.helpers) (String "-" "42")
      "issuer" "key" 0 sample.world = (inr minus, w1)
    /\ map x509.SerialNumber (x509.RevokedCertificates minus)
       = [- spec.decimalValue "42"]
    /\ big.SetString 0 (String "-" "42") = (- spec.decimalValue "42", true)
    /\ crl.NewCRLFromFile (helpers := sample.helpers) (String "+" "42")
         "issuer" "key" 0 sample.world = (inr plus, w2)
    /\ map x509.SerialNumber (x509.RevokedCertificates plus)
       = [spec.decimalValue "42"].
Proof.
  apply (NewCRLFromFile_signed_serial sample.helpers "42" "issuer" "key"
           (x509.certificate "issuer") (x509.privateKey "key") 0
           sample.world); reflexivity.
Defined.

(* ================================================================== *)
(** * Further properties of the [gencrl] command *)

Section GencrlEvents.

Import time x509 os gencrl spec.

Context {DB : Type} {driver : certdb.Driver DB} {cli : CLI DB}
  {helpers : Helpers}.

(** The inputs the command turns to, in order: the CA certificate, the
    CA key, and then the serial list named by the first argument or the
    database named by the configuration. *)
Definition inputsOf (args : list string) (c : Config) : list Event :=
  [ReadStdin (CAFile c); ReadStdin (CAKeyFile c)]
  ++ (if String.eqb (DBConfigFile c) "" then
        match PopFirstArgument args with
        | inl _ => []
        | inr (serialList, _) => [ReadStdin serialList]
        end
      else [DBFromConfig (DBConfigFile c)]).

Lemma trace_emit (e : Event) (w : World) :
  trace (emit e w) = (trace w ++ [e])%list.
Proof. reflexivity. Qed.

(** The command either stops at a check of its inputs, the world
    untouched, or runs its body. *)
Lemma gencrlMain_cases (args : list string) (c : Config) (w : World) :
  gencrlMain args c w = run args c w
  \/ exists text, gencrlMain args c w = (Some (errors_New text), w).
Proof.
  unfold gencrlMain.
  repeat match goal with
    | |- context [if ?b then _ else _] =>
        destruct b; [right; eexists; reflexivity|]
    end.
  now left.
Qed.

(** The I/O of the body: on success all inputs and then the CRL, on an
    error the inputs up to the one that failed. *)
Lemma run_events (args : list string) (c : Config) (w : World) :
  exists events,
    trace (snd (run args c w)) = (trace w ++ events)%list
    /\ match fst (run args c w) with
       | None => exists crl, events = (inputsOf args c ++ [PrintCRL crl])%list
       | Some _ => exists n, events = firstn n (inputsOf args c)
       end.
Proof.
  unfold run, generate, cli_ReadStdin, certdb_DBFromConfig, cli_PrintCRL,
    inputsOf.
  destruct (contents (CAFile c)) as [e|certFileBytes]; cbn [returned].
  { eexists. split; [apply trace_emit|]. now exists 1%nat. }
  destruct (contents (CAKeyFile c)) as [e|keyBytes]; cbn [returned].
  { eexists. split; [cbn [snd]; rewrite !trace_emit, <- app_assoc;
                     reflexivity|].
    now exists 2%nat. }
  destruct (String.eqb (DBConfigFile c) "").
  - destruct (PopFirstArgument args) as [e|[serialList rest]];
      cbn [returned].
    { eexists. split; [cbn [snd]; rewrite !trace_emit, <- app_assoc;
                       reflexivity|].
      now exists 2%nat. }
    destruct (contents serialList) as [e|serialListBytes]; cbn [returned].
    { eexists. split; [cbn [snd]; rewrite !trace_emit, <- !app_assoc;
                       reflexivity|].
      now exists 3%nat. }
    match goal with
    | |- context [crl.NewCRLFromFile ?a ?b ?k ?d ?w0] =>
        pose proof (NewCRLFromFile_trace a b k d w0) as Ht;
        destruct (crl.NewCRLFromFile a b k d w0) as [[e|req] w4]
    end; cbn [snd fst] in Ht |- *.
    + eexists. split; [rewrite Ht, !trace_emit, <- !app_assoc;
                       reflexivity|].
      now exists 3%nat.
    + eexists. split; [rewrite trace_emit, Ht, !trace_emit, <- !app_assoc;
                       reflexivity|].
      now exists req.
  - destruct (open (DBConfigFile c)) as [e|db]; cbn [returned].
    { eexists. split; [cbn [snd]; rewrite !trace_emit, <- !app_assoc;
                       reflexivity|].
      now exists 3%nat. }
    match goal with
    | |- context [crl.NewCRLFromDB ?a ?b ?k ?d ?w0] =>
        pose proof (NewCRLFromDB_trace a b k d w0) as Ht;
        destruct (crl.NewCRLFromDB a b k d w0) as [[e|req] w4]
    end; cbn [snd fst] in Ht |- *.
    + eexists. split; [rewrite Ht, !trace_emit, <- !app_assoc;
                       reflexivity|].
      now exists 3%nat.
    + eexists. split; [rewrite trace_emit, Ht, !trace_emit, <- !app_assoc;
                       reflexivity|].
      now exists req.
Qed.

Lemma gencrlMain_events (args : list string) (c : Config) (w : World) :
  exists events,
    trace (snd (gencrlMain args c w)) = (trace w ++ events)%list
    /\ match fst (gencrlMain args c w) with
       | None => exists crl, events = (inputsOf args c ++ [PrintCRL crl])%list
       | Some _ => exists n, events = firstn n (inputsOf args c)
       end.
Proof.
  destruct (gencrlMain_cases args c w) as [->|[text ->]];
    [apply run_events|].
  exists []. split; [cbn [snd]; now rewrite app_nil_r|].
  now exists 0%nat.
Qed.

Lemma inputsOf_no_print (args : list string) (c : Config)
    (req : CertificateList) :
  ~ In (PrintCRL req) (inputsOf args c).
Proof.
  unfold inputsOf. intros Hin. apply in_app_or in Hin as [Hin|Hin].
  - cbn in Hin. destruct Hin as [Hin|[Hin|[]]]; discriminate Hin.
  - destruct (String.eqb (DBConfigFile c) "").
    + destruct (PopFirstArgument args) as [e|[serialList rest]];
        cbn in Hin; [contradiction|].
      destruct Hin as [Hin|[]]; discriminate Hin.
    + cbn in Hin. destruct Hin as [Hin|[]]; discriminate Hin.
Qed.

Lemma In_firstn {A : Type} (n : nat) (l : list A) (x : A) :
  In x (firstn n l) -> In x l.
Proof.
  revert l. induction n as [|n IH]; intros [|y l]; cbn; try contradiction.
  intros [->|Hin]; [now left|right; now apply IH].
Qed.

End GencrlEvents.

(** X15.  No partial output: [gencrlMain] prints a CRL exactly when it
    returns no error, prints it once and as its last action; when it
    returns an error, whichever it is, nothing has been printed. *)
Theorem gencrlMain_prints_on_success_only :
  forall (DB : Type) (driver : certdb.Driver DB) (cli : gencrl.CLI DB)
         (helpers : x509.Helpers) (args : list string) (c : gencrl.Config)
         (w : os.World),
    let result := gencrl.gencrlMain args c w in
    exists events,
      os.trace (snd result) = (os.trace w ++ events)%list
      /\ (fst result = None ->
          exists inputs crl,
            events = (inputs ++ [os.PrintCRL crl])%list
            /\ forall req, ~ In (os.PrintCRL req) inputs)
      /\ (fst result <> None ->
          forall req, ~ In (os.PrintCRL req) events).
Proof.
  intros DB driver cli helpers args c w result. subst result.
  destruct (gencrlMain_events args c w) as (events & Htrace & Hshape).
  exists events. split; [exact Htrace|].
  destruct (fst (gencrl.gencrlMain args c w)) as [e|].
  - split; [discriminate|]. intros _ req Hin.
    destruct Hshape as [n ->]. apply In_firstn in Hin.
    exact (inputsOf_no_print args c req Hin).
  - split; [|congruence]. intros _. destruct Hshape as [crl ->].
    exists (inputsOf args c), crl. split; [reflexivity|].
    intros req. apply inputsOf_no_print.
Qed.

Lemma gencrlMain_prints_on_success_only_witness :
  exists events,
    os.trace
      (snd (gencrl.gencrlMain (driver := certdb.engine) (cli := sample.cli)
              (helpers := sample.helpers) ["serialList"]
              (sample.config "caTwo.pem" "ca-keyTwo.pem" "") sample.world))
    = (os.trace sample.world ++ events)%list
    /\ exists inputs crl,
         events = (inputs ++ [os.PrintCRL crl])%list
         /\ forall req, ~ In (os.PrintCRL req) inputs.
Proof.
  destruct (gencrlMain_prints_on_success_only certdb.Database certdb.engine
              sample.cli sample.helpers ["serialList"]
              (sample.config "caTwo.pem" "ca-keyTwo.pem" "") sample.world)
    as (events & Htrace & Hok & _).
  exists events. split; [exact Htrace|]. apply Hok. reflexivity.
Defined.

(** X16.  The inputs of the command by mode: the CA certificate is the
    first thing read; without a database configuration no database is
    opened; with a database configuration nothing is read but the CA
    certificate and the CA key, so no serial list. *)
Theorem gencrlMain_inputs_by_mode :
  forall (DB : Type) (driver : certdb.Driver DB) (cli : gencrl.CLI DB)
         (helpers : x509.Helpers) (args : list string) (c : gencrl.Config)
         (w : os.World),
    exists events,
      os.trace (snd (gencrl.gencrlMain args c w))
      = (os.trace w ++ events)%list
      /\ (forall first rest,
            events = first :: rest ->
            first = os.ReadStdin (gencrl.CAFile c))
      /\ (gencrl.DBConfigFile c = "" ->
          forall path, ~ In (os.DBFromConfig path) events)
      /\ (gencrl.DBConfigFile c <> "" ->
          forall filename,
            In (os.ReadStdin filename) events ->
            filename = gencrl.CAFile c \/ filename = gencrl.CAKeyFile c).
Proof.
  intros DB driver cli helpers args c w.
  destruct (gencrlMain_events args c w) as (events & Htrace & Hshape).
  exists events. split; [exact Htrace|].
  assert (Hin : forall e, In e events ->
                  In e (inputsOf args c) \/ exists crl, e = os.PrintCRL crl).
  { intros e He.
    destruct (fst (gencrl.gencrlMain args c w)).
    - destruct Hshape as [n ->]. left. now apply In_firstn in He.
    - destruct Hshape as [crl ->]. apply in_app_or in He as [He|He];
        [now left|right].
      destruct He as [<-|[]]. now exists crl. }
  assert (Hhead : forall first rest,
            events = first :: rest ->
            first = os.ReadStdin (gencrl.CAFile c)).
  { intros first rest Hev.
    destruct (fst (gencrl.gencrlMain args c w)).
    - destruct Hshape as [n Hn]. rewrite Hev in Hn.
      destruct n; [discriminate Hn|]. unfold inputsOf in Hn. cbn in Hn.
      congruence.
    - destruct Hshape as [crl Hn]. rewrite Hev in Hn.
      unfold inputsOf in Hn. cbn in Hn. congruence. }
  split; [exact Hhead|]. split.
  - intros Hdb path Hpath. apply Hin in Hpath as [Hpath|[crl Hcrl]];
      [|discriminate Hcrl].
    unfold inputsOf in Hpath. rewrite Hdb in Hpath. cbn in Hpath.
    destruct Hpath as [Hp|[Hp|Hp]]; try discriminate Hp.
    destruct (gencrl.PopFirstArgument args) as [e|[serialList rest]];
      cbn in Hp; [contradiction|].
    destruct Hp as [Hp|[]]; discriminate Hp.
  - intros Hdb filename Hread. apply Hin in Hread as [Hread|[crl Hcrl]];
      [|discriminate Hcrl].
    unfold inputsOf in Hread. apply String.eqb_neq in Hdb.
    rewrite Hdb in Hread. cbn in Hread.
    destruct Hread as [Hr|[Hr|[Hr|[]]]]; try discriminate Hr;
      injection Hr as ->; auto.
Qed.

(** X17.  What the command prints.  With one positional argument and no
    database configuration it prints the CRL that [NewCRLFromFile]
    builds from the contents of the named serial list, the contents of
    the CA certificate file as issuer, the contents of the CA key file
    as key and the configured expiry; with a database configuration and
    no argument it prints the CRL that [NewCRLFromDB] builds from the
    opened database. *)
Theorem gencrlMain_prints :
  forall (DB : Type) (driver : certdb.Driver DB) (cli : gencrl.CLI DB)
         (helpers : x509.Helpers) (c : gencrl.Config) (w : os.World)
         (certFileBytes keyBytes : string),
    gencrl.CAFile c <> "" ->
    gencrl.CAKeyFile c <> "" ->
    gencrl.contents (gencrl.CAFile c) = inr certFileBytes ->
    gencrl.contents (gencrl.CAKeyFile c) = inr keyBytes ->
    let w2 :=
      os.emit (os.ReadStdin (gencrl.CAKeyFile c))
        (os.emit (os.ReadStdin (gencrl.CAFile c)) w) in
    (forall serialList rest serialListBytes crl w',
       gencrl.DBConfigFile c = "" ->
       gencrl.PopFirstArgument [serialList] = inr (serialList, rest) ->
       gencrl.contents serialList = inr serialListBytes ->
       crl.NewCRLFromFile serialListBytes certFileBytes keyBytes
         (gencrl.CRLExpiry c) (os.emit (os.ReadStdin serialList) w2)
       = (inr crl, w') ->
       gencrl.gencrlMain [serialList] c w
       = (None, os.emit (os.PrintCRL crl) w'))
    /\ (forall db crl w',
          gencrl.DBConfigFile c <> "" ->
          gencrl.open (gencrl.DBConfigFile c) = inr db ->
          crl.NewCRLFromDB db certFileBytes keyBytes (gencrl.CRLExpiry c)
            (os.emit (os.DBFromConfig (gencrl.DBConfigFile c)) w2)
          = (inr crl, w') ->
          gencrl.gencrlMain [] c w = (None, os.emit (os.PrintCRL crl) w')).
Proof.
  intros DB driver cli helpers c w certFileBytes keyBytes
    Hca Hkey Hcert Hkeyb w2. subst w2.
  apply String.eqb_neq in Hca, Hkey.
  split.
  - intros serialList rest serialListBytes crl w' Hdb Hpop Hlist Hcrl.
    unfold gencrl.gencrlMain, gencrl.nonEmpty, gencrl.run, gencrl.generate,
      gencrl.cli_ReadStdin, gencrl.cli_PrintCRL.
    rewrite Hdb, Hca, Hkey. cbn [String.eqb negb andb List.length Nat.ltb
                                  Nat.leb Nat.eqb].
    rewrite Hcert, Hkeyb. cbn [returned]. rewrite Hpop. cbn [returned].
    rewrite Hlist. cbn [returned]. now rewrite Hcrl.
  - intros db crl w' Hdb Hopen Hcrl. apply String.eqb_neq in Hdb.
    unfold gencrl.gencrlMain, gencrl.nonEmpty, gencrl.run, gencrl.generate,
      gencrl.certdb_DBFromConfig, gencrl.cli_ReadStdin, gencrl.cli_PrintCRL.
    rewrite Hdb, Hca, Hkey. cbn [negb andb List.length Nat.ltb
                                  Nat.leb Nat.eqb].
    rewrite Hcert, Hkeyb. cbn [returned]. rewrite Hopen. cbn [returned].
    now rewrite Hcrl.
Qed.

Lemma gencrlMain_inputs_by_mode_witness :
  exists events,
    os.trace
      (snd (gencrl.gencrlMain (driver := certdb.engine) (cli := sample.cli)
              (helpers := sample.helpers) []
              (sample.config "caTwo.pem" "ca-keyTwo.pem" "db-config.json")
              sample.world))
    = (os.trace sample.world ++ events)%list
    /\ forall filename,
         In (os.ReadStdin filename) events ->
         filename = "caTwo.pem" \/ filename = "ca-keyTwo.pem".
Proof.
  destruct (gencrlMain_inputs_by_mode certdb.Database certdb.engine
              sample.cli sample.helpers []
              (sample.config "caTwo.pem" "ca-keyTwo.pem" "db-config.json")
              sample.world)
    as (events & Htrace & _ & _ & Hdb).
  exists events. split; [exact Htrace|]. apply Hdb. discriminate.
Defined.

Lemma gencrlMain_prints_witness :
  (exists crl w',
     gencrl.gencrlMain (driver := certdb.engine) (cli := sample.cli)
       (helpers := sample.helpers) ["serialList"]
       (sample.config "caTwo.pem" "ca-keyTwo.pem" "") sample.world
     = (None, os.emit (os.PrintCRL crl) w')
     /\ map x509.SerialNumber (x509.RevokedCertificates crl) = [10; 20; 30])
  /\ (exists crl w',
        gencrl.gencrlMain (driver := certdb.engine) (cli := sample.cli)
          (helpers := sample.helpers) []
          (sample.config "caTwo.pem" "ca-keyTwo.pem" "db-config.json")
          sample.world
        = (None, os.emit (os.PrintCRL crl) w')
        /\ map x509.SerialNumber (x509.RevokedCertificates crl) = [2]).
Proof.
  split.
  - destruct (gencrlMain_prints certdb.Database certdb.engine sample.cli
                sample.helpers
                (sample.config "caTwo.pem" "ca-keyTwo.pem" "") sample.world
                (strings.Join ["10"; "20"; "30"; ""] crl.newline)
                (strings.Join ["10"; "20"; "30"; ""] crl.newline))
      as [Hfile _]; try reflexivity; try discriminate.
    do 2 eexists. split; [eapply Hfile; reflexivity|reflexivity].
  - destruct (gencrlMain_prints certdb.Database certdb.engine sample.cli
                sample.helpers
                (sample.config "caTwo.pem" "ca-keyTwo.pem" "db-config.json")
                sample.world
                (strings.Join ["10"; "20"; "30"; ""] crl.newline)
                (strings.Join ["10"; "20"; "30"; ""] crl.newline))
      as [_ Hdb]; try reflexivity; try discriminate.
    do 2 eexists. split;
      [eapply Hdb; [discriminate|reflexivity|reflexivity]|reflexivity].
Defined.

(* ================================================================== *)
(** * Writes that fail, and the store seen through the CRL *)

Section FailedWrites.

Import time certdb spec.

Lemma update_all_set {A : Type} (matches : A -> bool) (set : A -> A)
    (rows : list A) (row : A) :
  (forall r, matches (set r) = matches r) ->
  In row (update matches set rows) -> matches row = true ->
  exists before, In before rows /\ row = set before.
Proof.
  intros Hkeep Hin Hrow. unfold update in Hin.
  apply in_map_iff in Hin as (before & Hbefore & Hin).
  exists before. split; [exact Hin|].
  destruct (matches before) eqn:Hm; [now symmetry|].
  subst row. congruence.
Qed.

Lemma filter_both {A : Type} (p q : A -> bool) (rows : list A) :
  filter (fun r => p r && q r) rows = filter q (filter p rows).
Proof.
  induction rows as [|row rest IH]; [reflexivity|].
  cbn [filter]. destruct (p row); cbn [andb filter]; now rewrite IH.
Qed.

(** The revoked rows after a revocation: one more for every matching
    row that was not revoked before. *)
Lemma revoked_after_update (serial : string) (now : Time) (reasonCode : Z)
    (rows : list CertificateRecord) :
  List.length
    (filter revoked (update (hasSerial serial) (setRevoked now reasonCode)
                       rows))
  = (List.length (filter revoked rows)
     + List.length
         (filter (fun r => negb (revoked r))
            (filter (hasSerial serial) rows)))%nat.
Proof.
  induction rows as [|row rest IH]; [reflexivity|].
  cbn [update map filter]. fold (update (hasSerial serial)
                                   (setRevoked now reasonCode) rest).
  destruct (hasSerial serial row) eqn:Hrow.
  - change (revoked (setRevoked now reasonCode row)) with true.
    cbn [filter List.length]. rewrite IH.
    destruct (revoked row); cbn [negb List.length]; lia.
  - destruct (revoked row); cbn [List.length]; rewrite IH; lia.
Qed.

End FailedWrites.

(** X18.  Failed writes and what they leave behind.  An insertion that
    the engine refuses for its key leaves the database as it was and is
    reported as the wrapped driver error; a revocation of an unknown
    serial leaves the database as it was.  A revocation that matches
    more than one row is reported as an error after the fact: all the
    matching rows have been revoked, nothing is undone. *)
Theorem failed_writes :
  forall (db : certdb.Database) (cr : certdb.CertificateRecord)
         (serial : string) (reasonCode : Z),
    (certdb.serial_is_key db = true ->
     spec.certificatesWith (certdb.Serial cr) db <> 0%nat ->
     certdb.InsertCertificate (driver := certdb.engine) db cr
     = (Some (cferr_Wrap CertStoreError Unknown
                (External certdb.uniqueViolation)), db))
    /\ (spec.certificatesWith serial db = 0%nat ->
        snd (certdb.RevokeCertificate (driver := certdb.engine)
               db serial reasonCode) = db)
    /\ ((1 < spec.certificatesWith serial db)%nat ->
        fst (certdb.RevokeCertificate (driver := certdb.engine)
               db serial reasonCode) <> None
        /\ forall row,
             In row
               (certdb.certificates
                  (snd (certdb.RevokeCertificate (driver := certdb.engine)
                          db serial reasonCode))) ->
             certdb.Serial row = serial ->
             certdb.Status row = "revoked"
             /\ certdb.Reason row = reasonCode
             /\ certdb.RevokedAt row = certdb.CURRENT_TIMESTAMP db).
Proof.
  intros db cr serial reasonCode. split; [|split].
  - intros Hkey Hpresent. unfold certdb.InsertCertificate.
    cbn [certdb.NamedExec certdb.engine certdb.exec certdb.Serial].
    rewrite Hkey. cbn [andb].
    destruct (existsb _ _) eqn:Hex; [reflexivity|].
    exfalso. apply Hpresent. unfold spec.certificatesWith.
    change (fun row => String.eqb (certdb.Serial row) (certdb.Serial cr))
      with (certdb.hasSerial (certdb.Serial cr)).
    destruct (filter _ _) as [|row rest] eqn:Hrows; [reflexivity|].
    assert (Hin : In row (filter (certdb.hasSerial (certdb.Serial cr))
                            (certdb.certificates db)))
      by (rewrite Hrows; now left).
    apply filter_In in Hin as [Hin Hs].
    assert (Htrue : existsb (certdb.hasSerial (certdb.Serial cr))
                      (certdb.certificates db) = true)
      by (apply existsb_exists; now exists row).
    congruence.
  - intros Hnone. rewrite RevokeCertificate_engine. cbv zeta.
    rewrite Hnone. cbn [snd].
    rewrite update_no_match; [apply with_certificates_same|].
    now apply certificatesWith_zero.
  - intros Hmany. rewrite RevokeCertificate_engine. cbv zeta.
    destruct (spec.certificatesWith serial db) as [|[|m]]; [lia|lia|].
    cbn [fst snd certdb.with_certificates certdb.certificates].
    split; [discriminate|].
    intros row Hin Hs. apply hasSerial_eq in Hs.
    destruct (update_all_set (certdb.hasSerial serial)
                (certdb.setRevoked (certdb.CURRENT_TIMESTAMP db) reasonCode)
                (certdb.certificates db) row (fun r => eq_refl) Hin Hs)
      as (before & _ & ->).
    now repeat split.
Qed.

(** A database without keys that holds the serial 5 twice. *)
Definition duplicated : certdb.Database := {|
  certdb.certificates :=
    [ {| certdb.Serial := "5"; certdb.CALabel := "default";
         certdb.Status := "good"; certdb.Reason := 0;
         certdb.Expiry := sample.expiry; certdb.RevokedAt := time.zero;
         certdb.PEM := "first" |};
      {| certdb.Serial := "5"; certdb.CALabel := "default";
         certdb.Status := "good"; certdb.Reason := 0;
         certdb.Expiry := sample.expiry; certdb.RevokedAt := time.zero;
         certdb.PEM := "second" |} ];
  certdb.ocsp_responses := [];
  certdb.CURRENT_TIMESTAMP := sample.revocation;
  certdb.serial_is_key := false
|}.

Lemma failed_writes_witness :
  certdb.InsertCertificate (driver := certdb.engine) sample.database
    {| certdb.Serial := "1"; certdb.CALabel := "default";
       certdb.Status := "good"; certdb.Reason := 0;
       certdb.Expiry := sample.expiry; certdb.RevokedAt := time.zero;
       certdb.PEM := "again" |}
  = (Some (cferr_Wrap CertStoreError Unknown
             (External certdb.uniqueViolation)), sample.database)
  /\ snd (certdb.RevokeCertificate (driver := certdb.engine)
            sample.database "9" 1) = sample.database
  /\ fst (certdb.RevokeCertificate (driver := certdb.engine)
            duplicated "5" 1) <> None.
Proof.
  destruct (failed_writes sample.database
              {| certdb.Serial := "1"; certdb.CALabel := "default";
                 certdb.Status := "good"; certdb.Reason := 0;
                 certdb.Expiry := sample.expiry;
                 certdb.RevokedAt := time.zero;
                 certdb.PEM := "again" |} "9" 1)
    as (Hinsert & Hrevoke & _).
  destruct (failed_writes duplicated sample.inconsistent "5" 1)
    as (_ & _ & Hmany).
  split; [apply Hinsert; [reflexivity|discriminate]|].
  split; [apply Hrevoke; reflexivity|].
  apply Hmany. cbn. lia.
Defined.

(** X19.  From the store to the CRL: once [RevokeCertificate] has
    succeeded for a serial, the CRL that [NewCRLFromDB] builds next
    lists the serial with the time of the database at the revocation;
    it has one entry more than the CRL built before the revocation when
    the certificate was not revoked yet, and as many when it was.
    ([GetRevokedCertificates] is the query for the rows with status
    [revoked].) *)
Theorem revoked_certificate_listed :
  forall (helpers : x509.Helpers) (db : certdb.Database)
         (serial : string) (reasonCode : Z) (cr : certdb.CertificateRecord)
         (issuerFile keyFile : string) (cert : x509.Certificate)
         (key : x509.Signer) (d : time.Duration) (w : os.World),
    spec.certificatesWith serial db = 1%nat ->
    certdb.GetCertificate (driver := certdb.engine) db serial = inr cr ->
    x509.ParseCertificatePEM issuerFile = inr cert ->
    x509.ParsePrivateKeyPEM keyFile = inr key ->
    x509.signingFailure cert key = None ->
    exists before w1 after w2,
      crl.NewCRLFromDB (driver := certdb.engine) db issuerFile keyFile d w
      = (inr before, w1)
      /\ crl.NewCRLFromDB (driver := certdb.engine)
           (snd (certdb.RevokeCertificate (driver := certdb.engine)
                   db serial reasonCode)) issuerFile keyFile d w
         = (inr after, w2)
      /\ In {| x509.SerialNumber := spec.leadingValue serial;
               x509.RevocationTime := certdb.CURRENT_TIMESTAMP db |}
           (x509.RevokedCertificates after)
      /\ List.length (x509.RevokedCertificates after)
         = (List.length (x509.RevokedCertificates before)
            + if spec.revoked cr then 0 else 1)%nat.
Proof.
  intros helpers db serial reasonCode cr issuerFile keyFile cert key d w
    Hone Hget Hc Hk Hs.
  rewrite (NewCRLFromDB_produces _ _ _ _ Hc Hk Hs (driver := certdb.engine)
             db (filter spec.revoked (certdb.certificates db)) d w eq_refl).
  rewrite (NewCRLFromDB_produces _ _ _ _ Hc Hk Hs (driver := certdb.engine)
             _ (filter spec.revoked
                  (certdb.certificates
                     (snd (certdb.RevokeCertificate (driver := certdb.engine)
                             db serial reasonCode)))) d w eq_refl).
  do 4 eexists. split; [reflexivity|]. split; [reflexivity|].
  cbn [x509.RevokedCertificates]. rewrite !length_map.
  rewrite RevokeCertificate_engine. cbv zeta. rewrite Hone.
  cbn [snd certdb.with_certificates certdb.certificates].
  rewrite GetCertificate_engine in Hget.
  unfold spec.certificatesWith in Hone.
  change (fun row => String.eqb (certdb.Serial row) serial)
    with (certdb.hasSerial serial) in Hone.
  destruct (filter (certdb.hasSerial serial) (certdb.certificates db))
    as [|first [|second rest]] eqn:Hrows; try discriminate Hone.
  injection Hget as ->.
  assert (Hin : In cr (filter (certdb.hasSerial serial)
                         (certdb.certificates db)))
    by (rewrite Hrows; now left).
  apply filter_In in Hin as [Hin Hserial].
  split.
  - apply in_map_iff.
    exists (certdb.setRevoked (certdb.CURRENT_TIMESTAMP db) reasonCode cr).
    split.
    + cbn [certdb.setRevoked certdb.Serial certdb.RevokedAt].
      apply hasSerial_eq in Hserial. now rewrite Hserial.
    + apply filter_In. split; [|reflexivity].
      unfold certdb.update. apply in_map_iff. exists cr.
      now rewrite Hserial.
  - rewrite revoked_after_update, Hrows. cbn [filter].
    now destruct (spec.revoked cr).
Qed.

Lemma revoked_certificate_listed_witness :
  exists before w1 after w2,
    crl.NewCRLFromDB (helpers := sample.helpers) (driver := certdb.engine)
      sample.database "issuer" "key" 0 sample.world = (inr before, w1)
    /\ crl.NewCRLFromDB (helpers := sample.helpers)
         (driver := certdb.engine)
         (snd (certdb.RevokeCertificate (driver := certdb.engine)
                 sample.database "1" 1)) "issuer" "key" 0 sample.world
       = (inr after, w2)
    /\ In {| x509.SerialNumber := spec.leadingValue "1";
             x509.RevocationTime :=
               certdb.CURRENT_TIMESTAMP sample.database |}
         (x509.RevokedCertificates after)
    /\ List.length (x509.RevokedCertificates after)
       = (List.length (x509.RevokedCertificates before) + 1)%nat.
Proof.
  apply (revoked_certificate_listed sample.helpers sample.database "1" 1
           {| certdb.Serial := "1"; certdb.CALabel := "default";
              certdb.Status := "good"; certdb.Reason := 0;
              certdb.Expiry := time.UTC sample.expiry;
              certdb.RevokedAt := time.zero;
              certdb.PEM := "unexpired cert" |}
           "issuer" "key" (x509.certificate "issuer")
           (x509.privateKey "key") 0 sample.world); reflexivity.
Defined.
